(** * Payment gateway integration core of ireti-pos-light

    A shallow embedding of [payments/services.py], [payments/models.py] and
    [payments/views.py]: the money codec, the webhook signature verifier, the
    webhook dispatcher and the payment / refund ledger it writes. *)

From Stdlib Require Import ZArith Lia List Bool String Ascii.
From Stdlib Require Import Strings.Byte.
Import ListNotations.

Local Open Scope Z_scope.

(** ** Python exceptions and fallible calls *)

Inductive exn : Type :=
| PaymentAmountError (msg : string)
| PaymentIntentError (msg : string)
| ValidationError (msg : string)
| DoesNotExist
| MultipleObjectsReturned
| IntegrityError
| AttributeError
| TypeError
| ValueError
| UnicodeDecodeError
| InvalidOperation
| RequestError (msg : string).

(** [str(e)] *)
Definition exn_str (e : exn) : string :=
  match e with
  | PaymentAmountError m | PaymentIntentError m | ValidationError m
  | RequestError m => m
  | DoesNotExist => "matching query does not exist"
  | MultipleObjectsReturned => "get() returned more than one row"
  | IntegrityError => "NOT NULL constraint failed"
  | AttributeError => "'NoneType' object has no attribute"
  | TypeError => "unsupported operand type"
  | ValueError => "invalid literal or unpacking"
  | UnicodeDecodeError => "'utf-8' codec can't decode"
  | InvalidOperation => "decimal.ConversionSyntax"
  end%string.

(** A Python call either raises or returns. *)
Definition py (A : Type) : Type := (exn + A)%type.

Definition ret {A} (a : A) : py A := inr a.
Definition raise {A} (e : exn) : py A := inl e.
Definition bind {A B} (c : py A) (k : A -> py B) : py B :=
  match c with
  | inl e => inl e
  | inr a => k a
  end.

(** [try: c except Exception as e: h e] *)
Definition try_except {A} (c : py A) (h : exn -> py A) : py A :=
  match c with
  | inl e => h e
  | inr a => inr a
  end.

Declare Scope py_scope.
Delimit Scope py_scope with py.
Notation "x <- c ;; k" := (bind c (fun x => k))
  (at level 61, c at next level, right associativity) : py_scope.

(** ** Money codec *)

Module Money.

(** A finite [decimal.Decimal]: its value is [coeff * 10 ^ expo].  The sign
    is carried by the coefficient; NaN and the infinities are not amounts and
    are left out. *)
Record Decimal : Type := mkDecimal { coeff : Z; expo : Z }.

(** Precision of the default arithmetic context, [getcontext().prec]. *)
Definition prec : Z := 28.

(** [len(self._int)]: the number of decimal digits of a coefficient. *)
Fixpoint ndigits_fuel (fuel : nat) (c : Z) : Z :=
  match fuel with
  | O => 1
  | S f => if c <? 10 then 1 else 1 + ndigits_fuel f (c / 10)
  end.

Definition ndigits (c : Z) : Z := ndigits_fuel (Z.to_nat (Z.log2 c)) c.

(** [Decimal._fix]: round the coefficient to [prec] digits, ROUND_HALF_EVEN. *)
Definition fix_ (d : Decimal) : Decimal :=
  let a := Z.abs (coeff d) in
  let k := ndigits a - prec in
  if k <=? 0 then d
  else
    let q := a / 10 ^ k in
    let r := a mod 10 ^ k in
    let q' := if (10 ^ k <? 2 * r) || ((2 * r =? 10 ^ k) && Z.odd q)
              then q + 1 else q in
    if q' =? 10 ^ prec
    then mkDecimal (Z.sgn (coeff d) * 10 ^ (prec - 1)) (expo d + k + 1)
    else mkDecimal (Z.sgn (coeff d) * q') (expo d + k).

(** [Decimal(n)] and [Decimal(str(n))] for an [int]: exact. *)
Definition dec_of_int (n : Z) : Decimal := mkDecimal n 0.

(** [Decimal.__mul__] *)
Definition dec_mul (a b : Decimal) : Decimal :=
  fix_ (mkDecimal (coeff a * coeff b) (expo a + expo b)).

(** The loop of [__truediv__] that brings an exact quotient as close to the
    ideal exponent as its trailing zeros allow; [fuel] is [ideal_exp - exp]. *)
Fixpoint strip_zeros (fuel : nat) (c e : Z) : Decimal :=
  match fuel with
  | O => mkDecimal c e
  | S f => if c mod 10 =? 0 then strip_zeros f (c / 10) (e + 1)
           else mkDecimal c e
  end.

(** [Decimal.__truediv__] for a non-zero divisor. *)
Definition dec_div (a b : Decimal) : Decimal :=
  let sign := Z.sgn (coeff a) * Z.sgn (coeff b) in
  let x := Z.abs (coeff a) in
  let y := Z.abs (coeff b) in
  let ideal_exp := expo a - expo b in
  if x =? 0 then fix_ (mkDecimal 0 ideal_exp)
  else
    let shift := ndigits y - ndigits x + prec + 1 in
    let exp := ideal_exp - shift in
    let '(q, r) := if 0 <=? shift
                   then (x * 10 ^ shift / y, (x * 10 ^ shift) mod y)
                   else (x / (y * 10 ^ (- shift)), x mod (y * 10 ^ (- shift))) in
    let ans :=
      if r =? 0 then strip_zeros (Z.to_nat (ideal_exp - exp)) q exp
      else mkDecimal (if q mod 5 =? 0 then q + 1 else q) exp in
    fix_ (mkDecimal (sign * coeff ans) (expo ans)).

(** [Decimal.__int__]: truncation toward zero. *)
Definition dec_to_int (d : Decimal) : Z :=
  if 0 <=? expo d then coeff d * 10 ^ expo d
  else Z.quot (coeff d) (10 ^ (- expo d)).

(** [a == b] on Decimals compares values, not representations. *)
Definition dec_eqb (a b : Decimal) : bool :=
  let m := Z.min (expo a) (expo b) in
  coeff a * 10 ^ (expo a - m) =? coeff b * 10 ^ (expo b - m).

(** [amount <= 0] *)
Definition dec_le0 (a : Decimal) : bool := coeff a <=? 0.

(** [StripePaymentService._amount_to_cents]: [int(amount * 100)] *)
Definition _amount_to_cents (amount : Decimal) : Z :=
  dec_to_int (dec_mul amount (dec_of_int 100)).

(** [StripePaymentService._cents_to_amount]: [Decimal(str(cents)) / 100] *)
Definition _cents_to_amount (cents : Z) : Decimal :=
  dec_div (dec_of_int cents) (dec_of_int 100).

(** At most two fractional digits: [amount * 100] is a whole number. *)
Definition at_most_two_places (a : Decimal) : bool :=
  if -2 <=? expo a then true
  else coeff a mod 10 ^ (- 2 - expo a) =? 0.

(** Sub-cent precision: some digit beyond the second decimal place. *)
Definition sub_cent (a : Decimal) : bool := negb (at_most_two_places a).

(** [represents d v k]: the value of [d] is [v * 10 ^ k], read at a scale
    [k] no coarser than the exponent of [d]. *)
Definition represents (d : Decimal) (v k : Z) : Prop :=
  k <= expo d /\ coeff d * 10 ^ (expo d - k) = v.

End Money.

Import Money.

(** ** Gateway client: creating a PaymentIntent *)

Module Gateway.

(** The form fields posted to [payment_intents]. *)
Record PaymentIntentRequest : Type := mkRequest {
  req_amount : Z;
  req_currency : string;
  req_capture_method : string;
  req_payment_method_types : list string;
  req_metadata : list (string * string)
}.

(** The PaymentIntent the processor echoes back. *)
Record IntentData : Type := mkIntent {
  intent_id : string;
  intent_status : string;
  intent_amount : Z;
  intent_currency : string;
  intent_client_secret : string
}.

(** [str.lower()] / [str.upper()] on the ASCII letters of a currency code. *)
Definition ascii_lower (c : ascii) : ascii :=
  let n := nat_of_ascii c in
  if (65 <=? n)%nat && (n <=? 90)%nat then ascii_of_nat (n + 32) else c.

Definition ascii_upper (c : ascii) : ascii :=
  let n := nat_of_ascii c in
  if (97 <=? n)%nat && (n <=? 122)%nat then ascii_of_nat (n - 32) else c.

Fixpoint str_map (f : ascii -> ascii) (s : string) : string :=
  match s with
  | EmptyString => EmptyString
  | String c s' => String (f c) (str_map f s')
  end.

Definition lower : string -> string := str_map ascii_lower.
Definition upper : string -> string := str_map ascii_upper.

Section Client.

(** [_make_stripe_request('POST', 'payment_intents', data)]: the network
    call, which returns the parsed response or raises. *)
Variable _make_stripe_request : PaymentIntentRequest -> py IntentData.

(** [StripePaymentService.create_payment_intent].  The metrics row written
    first is not part of the ledger and is left out. *)
Definition create_payment_intent
    (amount : Decimal) (currency : string)
    (payment_method_types : option (list string)) (capture_method : string)
    (metadata : list (string * string)) : py IntentData :=
  let body : py IntentData :=
    if dec_le0 amount
    then raise (PaymentAmountError "Amount must be positive")
    else
      let amount_cents := _amount_to_cents amount in
      let pmts := match payment_method_types with
                  | None => ["card"%string]
                  | Some l => l
                  end in
      _make_stripe_request
        (mkRequest amount_cents (lower currency) capture_method pmts metadata) in
  match body with
  | inr intent_data => ret intent_data
  | inl (PaymentAmountError m) => raise (PaymentAmountError m)
  | inl e =>
      raise (PaymentIntentError
               ("Failed to create payment intent: " ++ exn_str e))
  end.

End Client.

End Gateway.

(** ** Webhook signature verifier *)

Module Signature.

(** The Django settings the webhook path reads; [None] is an attribute that
    is not set. *)
Record Settings : Type := mkSettings {
  STRIPE_WEBHOOK_ENDPOINT_SECRET : option string;
  STRIPE_WEBHOOK_SECRET : option string;
  DEBUG : bool
}.

(** Truth value of an optional string: [None] and [''] are false. *)
Definition truthy (s : option string) : bool :=
  match s with
  | Some (String _ _) => true
  | _ => false
  end.

(** [a or b] *)
Definition py_or (a b : option string) : option string :=
  if truthy a then a else b.

(** [s.split(sep)]: the pieces between the separators, never empty. *)
Fixpoint split (sep : ascii) (s : string) : list string :=
  match s with
  | EmptyString => [EmptyString]
  | String c s' =>
      if Ascii.eqb c sep then EmptyString :: split sep s'
      else match split sep s' with
           | h :: t => String c h :: t
           | [] => [String c EmptyString]
           end
  end.

(** [s.split(sep, 1)]: cut at the first separator only. *)
Fixpoint split1 (sep : ascii) (s : string) : list string :=
  match s with
  | EmptyString => [EmptyString]
  | String c s' =>
      if Ascii.eqb c sep then [EmptyString; s']
      else match split1 sep s' with
           | h :: t => String c h :: t
           | [] => [String c EmptyString]
           end
  end.

(** A [dict] with string keys: the latest binding of a key is found first. *)
Definition dict : Type := list (string * string).

Definition dict_set (k v : string) (d : dict) : dict := (k, v) :: d.

Fixpoint dict_get (k : string) (d : dict) : option string :=
  match d with
  | [] => None
  | (k', v) :: d' => if String.eqb k k' then Some v else dict_get k d'
  end.

(** The loop over the items of the header:
    [key, value = item.split('=', 1); signature_data[key] = value].
    An item without ['='] fails the unpacking with [ValueError]. *)
Fixpoint parse_items (items : list string) (signature_data : dict) : py dict :=
  match items with
  | [] => ret signature_data
  | item :: rest =>
      match split1 "=" item with
      | [key; value] => parse_items rest (dict_set key value signature_data)
      | _ => raise ValueError
      end
  end.

Definition is_ascii (s : string) : bool :=
  forallb (fun c => (nat_of_ascii c <? 128)%nat) (list_ascii_of_string s).

(** [hmac.compare_digest(a, b)] on [str] arguments: a comparison whose
    running time does not depend on where the strings differ; it raises
    [TypeError] for text outside ASCII. *)
Definition compare_digest (a b : string) : py bool :=
  if is_ascii a && is_ascii b then ret (String.eqb a b) else raise TypeError.

Section Verifier.

(** [hmac.new(key, msg, hashlib.sha256).hexdigest()] *)
Variable hmac_sha256_hexdigest : list byte -> list byte -> string.
(** [bytes.decode('utf-8')]; [None] stands for [UnicodeDecodeError]. *)
Variable utf8_decode : list byte -> option string.
(** [str.encode('utf-8')] *)
Variable utf8_encode : string -> list byte.
(** [int(s)]; [None] stands for [ValueError]. *)
Variable int_of_str : string -> option Z.

Definition decode (payload : list byte) : py string :=
  match utf8_decode payload with
  | Some s => ret s
  | None => raise UnicodeDecodeError
  end.

Definition to_int (s : string) : py Z :=
  match int_of_str s with
  | Some n => ret n
  | None => raise ValueError
  end.

(** The [try] block of [verify_webhook_signature]; [current_time] is
    [int(timezone.now().timestamp())]. *)
Definition verify_body (webhook_secret : string) (current_time : Z)
    (payload : list byte) (signature_header : string) : py bool :=
  (signature_data <- parse_items (split "," signature_header) [] ;;
   let timestamp := dict_get "t" signature_data in
   let signature := dict_get "v1" signature_data in
   match timestamp, signature with
   | Some (String c1 t1 as ts), Some (String c2 t2 as sig) =>
       body <- decode payload ;;
       let signed_payload := (ts ++ "." ++ body)%string in
       let expected_signature :=
         hmac_sha256_hexdigest (utf8_encode webhook_secret)
                               (utf8_encode signed_payload) in
       same <- compare_digest expected_signature sig ;;
       if negb same then ret false
       else
         webhook_time <- to_int ts ;;
         if Z.abs (current_time - webhook_time) >? 300 then ret false
         else ret true
   | _, _ => ret false
   end)%py.

(** [StripePaymentService.verify_webhook_signature] *)
Definition verify_webhook_signature (settings : Settings) (current_time : Z)
    (payload : list byte) (signature_header : string) : py bool :=
  let webhook_secret :=
    py_or (STRIPE_WEBHOOK_ENDPOINT_SECRET settings)
          (STRIPE_WEBHOOK_SECRET settings) in
  match webhook_secret with
  | Some (String _ _ as secret) =>
      try_except (verify_body secret current_time payload signature_header)
                 (fun _ => ret false)
  | _ => ret true  (* no secret configured: every webhook is allowed *)
  end.

(** The header is usable: a comma-separated list of [key=value] items that
    binds non-empty values to [t] and [v1]. *)
Definition well_formed_header (signature_header ts sig : string) : Prop :=
  exists signature_data,
    parse_items (split "," signature_header) [] = ret signature_data /\
    dict_get "t" signature_data = Some ts /\
    dict_get "v1" signature_data = Some sig /\
    ts <> EmptyString /\ sig <> EmptyString.

End Verifier.

End Signature.

(** ** Ledger: payment transactions, refunds and webhook receipts *)

Module Ledger.

(** *** JSON objects of webhook events *)

(** A key of a JSON object: absent, present with [null], or present with a
    value. *)
Inductive field (A : Type) : Type :=
| Missing
| Null
| Val (a : A).
Arguments Missing {A}.
Arguments Null {A}.
Arguments Val {A} a.

(** [d.get(k)] *)
Definition get {A} (f : field A) : option A :=
  match f with
  | Val a => Some a
  | _ => None
  end.

(** [d.get(k, default)]: the default replaces an absent key only. *)
Definition get_or {A} (f : field A) (default : A) : option A :=
  match f with
  | Missing => Some default
  | Null => None
  | Val a => Some a
  end.

Record LastPaymentError : Type := mkLastPaymentError {
  lpe_message : field string;
  lpe_code : field string
}.

(** [event_data['data']['object']]: the keys the handlers read. *)
Record StripeObject : Type := mkObject {
  o_id : field string;
  o_status : field string;
  o_amount : field Z;
  o_currency : field string;
  o_payment_intent : field string;
  o_last_payment_error : field LastPaymentError;
  o_failure_message : field string;
  o_reason : field string
}.

(** A parsed event whose [id] and [type] are present, as the view checks
    before it calls the service. *)
Record Event : Type := mkEvent {
  e_id : string;
  e_type : string;
  e_object : StripeObject
}.

(** *** Rows *)

(** Amounts are [DecimalField(max_digits=10, decimal_places=2)] columns: a
    stored amount is a whole number of cents and is modelled by it. *)
Record PaymentTransaction : Type := mkTransaction {
  pt_id : nat;
  pt_amount : Z;
  pt_currency : string;
  pt_status : string;
  stripe_payment_intent_id : option string;
  stripe_status : option string;
  pt_failure_reason : option string;
  last_payment_error : option LastPaymentError;
  pt_processed_at : option Z;
  pt_transaction : option nat
}.

Record PaymentRefund : Type := mkRefund {
  pr_id : nat;
  payment_transaction : option nat;
  pr_amount : Z;
  pr_currency : string;
  pr_reason : string;
  pr_status : string;
  stripe_refund_id : option string;
  pr_processed_at : option Z
}.

Record PaymentWebhook : Type := mkWebhook {
  pw_id : nat;
  stripe_event_id : string;
  event_type : string;
  processed : bool;
  processing_error : option string;
  event_data : Event;
  pw_processed_at : option Z
}.

(** The three tables and the source of fresh primary keys ([uuid.uuid4]). *)
Record DB : Type := mkDB {
  transactions : list PaymentTransaction;
  refunds : list PaymentRefund;
  webhooks : list PaymentWebhook;
  next_id : nat
}.

(** The ledger proper: what the claims call a Ledger state. *)
Definition ledger (db : DB) : list PaymentTransaction * list PaymentRefund :=
  (transactions db, refunds db).

Definition PAYMENT_STATUS_CHOICES : list string :=
  ["pending"; "processing"; "succeeded"; "failed"; "canceled"]%string.

Definition valid_status (s : string) : bool :=
  existsb (String.eqb s) PAYMENT_STATUS_CHOICES.

Definition opt_eqb (a b : option string) : bool :=
  match a, b with
  | Some x, Some y => String.eqb x y
  | None, None => true
  | _, _ => false
  end.

(** *** Code that reads and writes the database *)

Definition M (A : Type) : Type := DB -> py A * DB.

Definition mret {A} (a : A) : M A := fun db => (inr a, db).
Definition mraise {A} (e : exn) : M A := fun db => (inl e, db).
Definition mbind {A B} (c : M A) (k : A -> M B) : M B :=
  fun db => match c db with
            | (inl e, db') => (inl e, db')
            | (inr a, db') => k a db'
            end.
Definition lift {A} (c : py A) : M A := fun db => (c, db).
Definition read : M DB := fun db => (inr db, db).

(** [try: c except Exception as e: h e]; what [c] wrote before it raised
    stays written. *)
Definition mtry {A} (c : M A) (h : exn -> M A) : M A :=
  fun db => match c db with
            | (inl e, db') => h e db'
            | (inr a, db') => (inr a, db')
            end.

Declare Scope db_scope.
Delimit Scope db_scope with db.
Notation "x <- c ;; k" := (mbind c (fun x => k))
  (at level 61, c at next level, right associativity) : db_scope.
Notation "c ;;; k" := (mbind c (fun _ => k))
  (at level 61, right associativity) : db_scope.

(** [Model.objects.get(...)] *)
Definition objects_get {R} (matches : R -> bool) (rows : list R) : py R :=
  match filter matches rows with
  | [] => raise DoesNotExist
  | [r] => ret r
  | _ => raise MultipleObjectsReturned
  end.

(** [UPDATE] of the row with the primary key of [new], [INSERT] if none. *)
Definition upsert {R} (pk : R -> nat) (new : R) (rows : list R) : list R :=
  if existsb (fun r => Nat.eqb (pk r) (pk new)) rows
  then map (fun r => if Nat.eqb (pk r) (pk new) then new else r) rows
  else rows ++ [new].

Definition fresh_id : M nat :=
  fun db => (inr (next_id db),
             mkDB (transactions db) (refunds db) (webhooks db) (S (next_id db))).

Definition write_transaction (t : PaymentTransaction) : M unit :=
  fun db => (inr tt,
             mkDB (upsert pt_id t (transactions db)) (refunds db) (webhooks db)
                  (next_id db)).

Definition write_refund (r : PaymentRefund) : M unit :=
  fun db => (inr tt,
             mkDB (transactions db) (upsert pr_id r (refunds db)) (webhooks db)
                  (next_id db)).

Definition write_webhook (w : PaymentWebhook) : M unit :=
  fun db => (inr tt,
             mkDB (transactions db) (refunds db) (upsert pw_id w (webhooks db))
                  (next_id db)).

Definition with_status (s : string) (t : PaymentTransaction) :=
  mkTransaction (pt_id t) (pt_amount t) (pt_currency t) s
    (stripe_payment_intent_id t) (stripe_status t) (pt_failure_reason t)
    (last_payment_error t) (pt_processed_at t) (pt_transaction t).

Definition with_stripe_status (s : option string) (t : PaymentTransaction) :=
  mkTransaction (pt_id t) (pt_amount t) (pt_currency t) (pt_status t)
    (stripe_payment_intent_id t) s (pt_failure_reason t)
    (last_payment_error t) (pt_processed_at t) (pt_transaction t).

Definition with_failure (reason : option string)
    (err : option LastPaymentError) (t : PaymentTransaction) :=
  mkTransaction (pt_id t) (pt_amount t) (pt_currency t) (pt_status t)
    (stripe_payment_intent_id t) (stripe_status t) reason err
    (pt_processed_at t) (pt_transaction t).

Definition with_processed_at (at_ : option Z) (t : PaymentTransaction) :=
  mkTransaction (pt_id t) (pt_amount t) (pt_currency t) (pt_status t)
    (stripe_payment_intent_id t) (stripe_status t) (pt_failure_reason t)
    (last_payment_error t) at_ (pt_transaction t).

Definition with_transaction (pos : option nat) (t : PaymentTransaction) :=
  mkTransaction (pt_id t) (pt_amount t) (pt_currency t) (pt_status t)
    (stripe_payment_intent_id t) (stripe_status t) (pt_failure_reason t)
    (last_payment_error t) (pt_processed_at t) pos.

Definition refund_with_status (s : string) (r : PaymentRefund) :=
  mkRefund (pr_id r) (payment_transaction r) (pr_amount r) (pr_currency r)
    (pr_reason r) s (stripe_refund_id r) (pr_processed_at r).

Definition refund_with_processed_at (at_ : option Z) (r : PaymentRefund) :=
  mkRefund (pr_id r) (payment_transaction r) (pr_amount r) (pr_currency r)
    (pr_reason r) (pr_status r) (stripe_refund_id r) at_.

Definition refund_with_currency (c : string) (r : PaymentRefund) :=
  mkRefund (pr_id r) (payment_transaction r) (pr_amount r) c
    (pr_reason r) (pr_status r) (stripe_refund_id r) (pr_processed_at r).

Definition webhook_with_processed (b : bool) (at_ : option Z)
    (w : PaymentWebhook) :=
  mkWebhook (pw_id w) (stripe_event_id w) (event_type w) b
    (processing_error w) (event_data w) at_.

Definition webhook_with_error (b : bool) (err : option string) (at_ : option Z)
    (w : PaymentWebhook) :=
  mkWebhook (pw_id w) (stripe_event_id w) (event_type w) b err
    (event_data w) at_.

(** [PaymentTransaction.save]: [processed_at] is stamped when the stored
    status was not ['succeeded'] and the new one is; then the row is
    written.  A second non-null [stripe_payment_intent_id] equal to that of
    another row violates the unique constraint. *)
Definition PaymentTransaction_save (now : Z) (self : PaymentTransaction)
  : M unit :=
  (db <- read ;;
   let self :=
     match objects_get (fun t => Nat.eqb (pt_id t) (pt_id self))
                       (transactions db) with
     | inr old_instance =>
         if negb (String.eqb (pt_status old_instance) "succeeded")
            && String.eqb (pt_status self) "succeeded"
         then with_processed_at (Some now) self
         else self
     | inl _ => self
     end in
   let clash t :=
     negb (Nat.eqb (pt_id t) (pt_id self))
     && match stripe_payment_intent_id self with
        | Some _ => opt_eqb (stripe_payment_intent_id t)
                            (stripe_payment_intent_id self)
        | None => false
        end in
   if existsb clash (transactions db) then mraise IntegrityError
   else write_transaction self)%db.

(** [PaymentRefund.save]: as above for [processed_at]; an empty currency is
    inherited from the parent; the parent is a NOT NULL foreign key and
    [stripe_refund_id] is unique. *)
Definition PaymentRefund_save (now : Z) (self : PaymentRefund) : M unit :=
  (db <- read ;;
   let self :=
     match objects_get (fun r => Nat.eqb (pr_id r) (pr_id self))
                       (refunds db) with
     | inr old_instance =>
         if negb (String.eqb (pr_status old_instance) "succeeded")
            && String.eqb (pr_status self) "succeeded"
         then refund_with_processed_at (Some now) self
         else self
     | inl _ => self
     end in
   self <- lift
     (if String.eqb (pr_currency self) EmptyString
      then match payment_transaction self with
           | None => raise DoesNotExist
           | Some parent =>
               match objects_get (fun t => Nat.eqb (pt_id t) parent)
                                 (transactions db) with
               | inr p => ret (refund_with_currency (pt_currency p) self)
               | inl e => raise e
               end
           end
      else ret self) ;;
   let clash r :=
     negb (Nat.eqb (pr_id r) (pr_id self))
     && match stripe_refund_id self with
        | Some _ => opt_eqb (stripe_refund_id r) (stripe_refund_id self)
        | None => false
        end in
   match payment_transaction self with
   | None => mraise IntegrityError
   | Some _ =>
       if existsb clash (refunds db) then mraise IntegrityError
       else write_refund self
   end)%db.

(** [PaymentWebhook.save] *)
Definition PaymentWebhook_save (self : PaymentWebhook) : M unit :=
  write_webhook self.

(** [PaymentWebhook.mark_processed] *)
Definition mark_processed (now : Z) (error : option string)
    (self : PaymentWebhook) : M unit :=
  PaymentWebhook_save
    (webhook_with_error (match error with None => true | Some _ => false end)
                        error (Some now) self).

(** [PaymentRefund.clean]: the refund-sum validation. *)
Definition counts_as_refunded (r : PaymentRefund) : bool :=
  String.eqb (pr_status r) "succeeded" || String.eqb (pr_status r) "pending".

Definition existing_refunds (db : DB) (parent self_pk : nat)
  : list PaymentRefund :=
  filter (fun r => match payment_transaction r with
                   | Some p => Nat.eqb p parent
                   | None => false
                   end
                   && counts_as_refunded r
                   && negb (Nat.eqb (pr_id r) self_pk))
         (refunds db).

Definition sum_amounts (rs : list PaymentRefund) : Z :=
  fold_right (fun r acc => pr_amount r + acc) 0 rs.

Definition PaymentRefund_clean (db : DB) (self : PaymentRefund) : py unit :=
  match payment_transaction self with
  | None => raise DoesNotExist
  | Some parent =>
      match objects_get (fun t => Nat.eqb (pt_id t) parent)
                        (transactions db) with
      | inl e => raise e
      | inr parent_row =>
          if pr_amount self =? 0 then ret tt
          else
            let total_refunded :=
              sum_amounts (existing_refunds db parent (pr_id self)) in
            if total_refunded + pr_amount self >? pt_amount parent_row
            then raise (ValidationError
                          "Refund amount exceeds remaining refundable balance")
            else ret tt
      end
  end.

(** *** Webhook handlers *)

(** The result dictionaries of [process_webhook_event]. *)
Inductive outcome : Type :=
| AlreadyProcessed (event_id : string)
| ProcessedIntent (event_type : string) (payment_intent_id : option string)
    (old_status : string) (new_status : option string)
    (local_transaction_id : nat)
| NoLocalRecordIntent (event_type : string) (payment_intent_id : option string)
| NoPaymentIntent (charge_id : option string)
| ProcessedCharge (event_type : string) (charge_id : option string)
    (payment_intent_id : string)
| NoLocalRecordCharge (payment_intent_id : string) (charge_id : option string)
| NoPaymentTransaction (refund_id : option string) (payment_intent_id : string)
| ProcessedRefund (event_type : string) (refund_id : option string)
    (payment_intent_id : option string) (created : bool)
| Logged (event_type : string) (terminal_object_id : option string)
| Unhandled (event_type : string)
| Error (message : string) (event_id : string).

(** [result.get('status')] *)
Definition outcome_status (r : outcome) : string :=
  match r with
  | AlreadyProcessed _ => "already_processed"
  | ProcessedIntent _ _ _ _ _ | ProcessedCharge _ _ _
  | ProcessedRefund _ _ _ _ => "processed"
  | NoLocalRecordIntent _ _ | NoLocalRecordCharge _ _ => "no_local_record"
  | NoPaymentIntent _ => "no_payment_intent"
  | NoPaymentTransaction _ _ => "no_payment_transaction"
  | Logged _ _ => "logged"
  | Unhandled _ => "unhandled"
  | Error _ _ => "error"
  end%string.

(** A value that must not be [None] where a method is called on it or a
    number is made of it. *)
Definition expect {A} (e : exn) (v : option A) : py A :=
  match v with
  | Some a => ret a
  | None => raise e
  end.

(** [StripePaymentService._handle_payment_intent_webhook].  The rows that the
    metrics recorder writes are not ledger rows and are left out; the
    recorder swallows its own exceptions. *)
Definition _handle_payment_intent_webhook (now : Z) (event_type : string)
    (payment_intent : StripeObject) : M outcome :=
  (let payment_intent_id := get (o_id payment_intent) in
   let new_status := get (o_status payment_intent) in
   (* amount = float(payment_intent.get('amount', 0)) / 100.0 *)
   _amount <- lift (expect TypeError (get_or (o_amount payment_intent) 0)) ;;
   (* currency = payment_intent.get('currency', 'USD').upper() *)
   _currency <- lift (expect AttributeError
                        (get_or (o_currency payment_intent) "USD"%string)) ;;
   db <- read ;;
   match objects_get
           (fun t => opt_eqb (stripe_payment_intent_id t) payment_intent_id)
           (transactions db) with
   | inl DoesNotExist =>
       mret (NoLocalRecordIntent event_type payment_intent_id)
   | inl e => mraise e
   | inr payment_transaction =>
       let old_status := pt_status payment_transaction in
       (* payment_transaction.status = new_status
          payment_transaction.stripe_status = new_status *)
       let status : option string := new_status in
       let payment_transaction :=
         with_stripe_status new_status payment_transaction in
       updated <- lift
         (if String.eqb event_type "payment_intent.succeeded" then
            ret (status, with_processed_at (Some now) payment_transaction)
          else if String.eqb event_type "payment_intent.payment_failed" then
            match o_last_payment_error payment_intent with
            | Null => raise AttributeError
            | Missing =>
                ret (status,
                     with_failure (Some "Unknown error"%string)
                       (Some (mkLastPaymentError Missing Missing))
                       payment_transaction)
            | Val err =>
                ret (status,
                     with_failure
                       (get_or (lpe_message err) "Unknown error"%string)
                       (Some err) payment_transaction)
            end
          else if String.eqb event_type "payment_intent.canceled" then
            ret (Some "canceled"%string, payment_transaction)
          else ret (status, payment_transaction)) ;;
       let '(status, payment_transaction) := updated in
       (* payment_transaction.save(): the status column is NOT NULL *)
       match status with
       | None => mraise IntegrityError
       | Some s =>
           PaymentTransaction_save now (with_status s payment_transaction) ;;;
           mret (ProcessedIntent event_type payment_intent_id old_status
                   new_status (pt_id payment_transaction))
       end
   end)%db.

(** [StripePaymentService._handle_charge_webhook] *)
Definition _handle_charge_webhook (now : Z) (event_type : string)
    (charge : StripeObject) : M outcome :=
  (let payment_intent_id := get (o_payment_intent charge) in
   let charge_id := get (o_id charge) in
   match payment_intent_id with
   | None | Some EmptyString => mret (NoPaymentIntent charge_id)
   | Some pid =>
       db <- read ;;
       match objects_get
               (fun t => opt_eqb (stripe_payment_intent_id t) (Some pid))
               (transactions db) with
       | inl DoesNotExist => mret (NoLocalRecordCharge pid charge_id)
       | inl e => mraise e
       | inr payment_transaction =>
           let payment_transaction :=
             if String.eqb event_type "charge.succeeded" then
               with_processed_at (Some now)
                 (with_status "succeeded" payment_transaction)
             else if String.eqb event_type "charge.failed" then
               with_status "failed"
                 (with_failure
                    (get_or (o_failure_message charge) "Charge failed"%string)
                    (last_payment_error payment_transaction)
                    payment_transaction)
             else payment_transaction in
           PaymentTransaction_save now payment_transaction ;;;
           mret (ProcessedCharge event_type charge_id pid)
       end
   end)%db.

(** [StripePaymentService._handle_refund_webhook].  The amount column
    receives [_cents_to_amount(refund.get('amount', 0))], that is the
    event's number of cents. *)
Definition _handle_refund_webhook (now : Z) (event_type : string)
    (refund : StripeObject) : M outcome :=
  (let refund_id := get (o_id refund) in
   let payment_intent_id := get (o_payment_intent refund) in
   db <- read ;;
   found <-
     match objects_get (fun r => opt_eqb (stripe_refund_id r) refund_id)
                       (refunds db) with
     | inr payment_refund => mret (inr (payment_refund, false))
     | inl DoesNotExist =>
         (* find the payment transaction first *)
         parent <-
           match payment_intent_id with
           | None | Some EmptyString => mret (inr None)
           | Some pid =>
               match objects_get
                       (fun t => opt_eqb (stripe_payment_intent_id t) (Some pid))
                       (transactions db) with
               | inr t => mret (inr (Some (pt_id t)))
               | inl DoesNotExist => mret (inl (NoPaymentTransaction refund_id pid))
               | inl e => mraise e
               end
           end ;;
         match parent with
         | inl early_return => mret (inl early_return)
         | inr payment_transaction =>
             (* PaymentRefund.objects.create(...) *)
             amount <- lift (expect InvalidOperation
                               (get_or (o_amount refund) 0)) ;;
             currency <- lift (expect AttributeError
                                 (get_or (o_currency refund) "usd"%string)) ;;
             reason <- lift (expect IntegrityError
                (get_or (o_reason refund) "requested_by_customer"%string)) ;;
             status <- lift (expect IntegrityError
                               (get_or (o_status refund) "pending"%string)) ;;
             pk <- fresh_id ;;
             let payment_refund :=
               mkRefund pk payment_transaction amount (Gateway.upper currency)
                        reason status refund_id None in
             PaymentRefund_save now payment_refund ;;;
             mret (inr (payment_refund, true))
         end
     | inl e => mraise e
     end ;;
   match found with
   | inl early_return => mret early_return
   | inr (payment_refund, created) =>
       (* update refund status *)
       status <-
         (if String.eqb event_type "refund.created" then mret "pending"%string
          else if String.eqb event_type "refund.updated" then
            lift (expect IntegrityError
                    (get_or (o_status refund) (pr_status payment_refund)))
          else mret (pr_status payment_refund)) ;;
       PaymentRefund_save now (refund_with_status status payment_refund) ;;;
       mret (ProcessedRefund event_type refund_id payment_intent_id created)
   end)%db.

(** [StripePaymentService._handle_terminal_webhook] *)
Definition _handle_terminal_webhook (event_type : string)
    (terminal_object : StripeObject) : M outcome :=
  mret (Logged event_type (get (o_id terminal_object))).

(** [s.startswith(p)] *)
Definition startswith (s p : string) : bool := String.prefix p s.

(** [StripePaymentService._handle_webhook_event_type] *)
Definition _handle_webhook_event_type (now : Z) (event_data : Event)
    (webhook_record : PaymentWebhook) : M outcome :=
  let event_type := e_type event_data in
  let event_object := e_object event_data in
  if startswith event_type "payment_intent." then
    _handle_payment_intent_webhook now event_type event_object
  else if startswith event_type "charge." then
    _handle_charge_webhook now event_type event_object
  else if startswith event_type "refund." then
    _handle_refund_webhook now event_type event_object
  else if startswith event_type "terminal." then
    _handle_terminal_webhook event_type event_object
  else mret (Unhandled event_type).

(** [PaymentWebhook.objects.get_or_create(stripe_event_id=..., defaults=...)] *)
Definition get_or_create_webhook (event_data : Event)
  : M (PaymentWebhook * bool) :=
  (db <- read ;;
   match objects_get
           (fun w => String.eqb (stripe_event_id w) (e_id event_data))
           (webhooks db) with
   | inr webhook_record => mret (webhook_record, false)
   | inl DoesNotExist =>
       pk <- fresh_id ;;
       let webhook_record :=
         mkWebhook pk (e_id event_data) (e_type event_data) false None
                   event_data None in
       PaymentWebhook_save webhook_record ;;;
       mret (webhook_record, true)
   | inl e => mraise e
   end)%db.

(** [StripePaymentService.process_webhook_event].  [processing_result] is
    not a column of [PaymentWebhook]: what is assigned to it lives on the
    Python object only and [save()] does not store it. *)
Definition process_webhook_event (now : Z) (event_data : Event) : M outcome :=
  let event_id := e_id event_data in
  (mtry
     (got <- get_or_create_webhook event_data ;;
      let '(webhook_record, created) := got in
      if negb created && processed webhook_record then
        mret (AlreadyProcessed event_id)
      else
        mtry
          (result <- _handle_webhook_event_type now event_data webhook_record ;;
           (* mark as processed *)
           PaymentWebhook_save
             (webhook_with_processed true (Some now) webhook_record) ;;;
           mret result)
          (fun e =>
             (* webhook_record.processing_result = {'error': str(e)} *)
             PaymentWebhook_save webhook_record ;;;
             mret (Error (exn_str e) event_id)))
     (fun e => (* no webhook_record among the locals *)
        mret (Error (exn_str e) event_id)))%db.

(** *** Other writers of [PaymentTransaction] and [PaymentRefund] rows *)

(** [StripePaymentService._map_stripe_status] *)
Definition _map_stripe_status (stripe_status : string) : string :=
  if String.eqb stripe_status "requires_payment_method" then "pending"
  else if String.eqb stripe_status "requires_confirmation" then "pending"
  else if String.eqb stripe_status "requires_action" then "pending"
  else if String.eqb stripe_status "processing" then "processing"
  else if String.eqb stripe_status "requires_capture" then "processing"
  else if String.eqb stripe_status "canceled" then "canceled"
  else if String.eqb stripe_status "succeeded" then "succeeded"
  else stripe_status.

(** The statuses a PaymentIntent can have at the processor: the keys of
    [status_map]. *)
Definition STRIPE_INTENT_STATUSES : list string :=
  ["requires_payment_method"; "requires_confirmation"; "requires_action";
   "processing"; "requires_capture"; "canceled"; "succeeded"]%string.

(** [StripePaymentService.link_transaction_to_payment]; [amount] is
    [Decimal(payment_intent_data['amount']) / 100]. *)
Definition link_transaction_to_payment (now : Z) (transaction_obj : nat)
    (payment_intent_data : Gateway.IntentData) : M PaymentTransaction :=
  (pk <- fresh_id ;;
   let payment_transaction :=
     mkTransaction pk (Gateway.intent_amount payment_intent_data)
       (Gateway.intent_currency payment_intent_data)
       (_map_stripe_status (Gateway.intent_status payment_intent_data))
       (Some (Gateway.intent_id payment_intent_data))
       (Some (Gateway.intent_status payment_intent_data))
       None None None (Some transaction_obj) in
   PaymentTransaction_save now payment_transaction ;;;
   mret payment_transaction)%db.

(** The local write of [CreatePaymentIntentView.post], after the gateway
    call returned [intent_data]; [amount] is the request's amount as the
    column stores it. *)
Definition CreatePaymentIntentView_record (now : Z) (amount : Z)
    (currency : string) (intent_data : Gateway.IntentData)
  : M PaymentTransaction :=
  (pk <- fresh_id ;;
   let payment_transaction :=
     mkTransaction pk amount (Gateway.upper currency)
       (Gateway.intent_status intent_data)
       (Some (Gateway.intent_id intent_data))
       None None None None None in
   PaymentTransaction_save now payment_transaction ;;;
   mret payment_transaction)%db.

(** The local write of [ConfirmPaymentIntentView.post], after the gateway
    confirmed the intent; a missing local row is only logged.
    [transaction_id] is the POS sale named in the request body, when the
    sale exists. *)
Definition ConfirmPaymentIntentView_record (now : Z)
    (payment_intent_id : string) (intent_data : Gateway.IntentData)
    (transaction_id : option nat) : M unit :=
  (db <- read ;;
   match objects_get
           (fun t => opt_eqb (stripe_payment_intent_id t)
                             (Some payment_intent_id))
           (transactions db) with
   | inl DoesNotExist => mret tt
   | inl e => mraise e
   | inr payment_transaction =>
       let payment_transaction :=
         with_status (Gateway.intent_status intent_data) payment_transaction in
       PaymentTransaction_save now payment_transaction ;;;
       if String.eqb (Gateway.intent_status intent_data) "succeeded" then
         match transaction_id with
         | Some pos =>
             PaymentTransaction_save now
               (with_transaction (Some pos) payment_transaction)
         | None => mret tt
         end
       else mret tt
   end)%db.

(** *** The webhook endpoint *)

Inductive response_body : Type :=
| ErrorBody (message error_code : string)
| SuccessBody (event_id event_type : string) (result : outcome).

Record HttpResponse : Type := mkResponse {
  status_code : Z;
  body : response_body
}.

Definition error_response (message : string) (status : Z) (error_code : string)
  : HttpResponse := mkResponse status (ErrorBody message error_code).

(** [json.loads] of a webhook body, as far as the view and the service read
    it; [id] and [type] may be absent. *)
Record RawEvent : Type := mkRawEvent {
  r_id : option string;
  r_type : option string;
  r_object : StripeObject
}.

Section View.

Variable hmac_sha256_hexdigest : list byte -> list byte -> string.
Variable utf8_decode : list byte -> option string.
Variable utf8_encode : string -> list byte.
Variable int_of_str : string -> option Z.
(** [json.loads]; [None] stands for [JSONDecodeError]. *)
Variable json_loads : string -> option RawEvent.

(** [StripeWebhookView.post] *)
Definition StripeWebhookView_post (settings : Signature.Settings) (now : Z)
    (payload : list byte) (signature_header : string) : M HttpResponse :=
  (mtry
     (match payload with
      | [] => mret (error_response "Empty payload" 400 "empty_payload")
      | _ =>
          if String.eqb signature_header EmptyString
             && negb (Signature.DEBUG settings) then
            mret (error_response "Missing signature" 400 "missing_signature")
          else
            verified <- lift
              (if String.eqb signature_header EmptyString then ret true
               else Signature.verify_webhook_signature hmac_sha256_hexdigest
                      utf8_decode utf8_encode int_of_str settings now payload
                      signature_header) ;;
            if negb verified then
              mret (error_response "Invalid signature" 400 "invalid_signature")
            else
              text <- lift (Signature.decode utf8_decode payload) ;;
              match json_loads text with
              | None => mret (error_response "Invalid JSON" 400 "invalid_json")
              | Some raw =>
                  match r_type raw, r_id raw with
                  | Some (String _ _ as event_type),
                    Some (String _ _ as event_id) =>
                      result <- process_webhook_event now
                                  (mkEvent event_id event_type (r_object raw)) ;;
                      if String.eqb (outcome_status result) "error" then
                        mret (error_response
                                ("Processing failed: "
                                   ++ match result with
                                      | Error m _ => m
                                      | _ => EmptyString
                                      end)
                                500 "processing_error")
                      else
                        mret (mkResponse 200
                                (SuccessBody event_id event_type result))
                  | _, _ =>
                      mret (error_response "Missing required event fields"
                              400 "invalid_event")
                  end
              end
      end)
     (fun _ => mret (error_response "Internal server error" 500
                       "internal_error")))%db.

End View.

End Ledger.

(** ** Concrete data for the examples *)

Module Examples.

Import Ledger.

(** Stand-ins for the library functions, to run the verifier on examples. *)
Definition demo_hmac (key msg : list byte) : string := "5f2b".
Definition demo_decode (b : list byte) : option string :=
  Some (string_of_list_byte b).
Definition demo_encode (s : string) : list byte := list_byte_of_string s.
Definition demo_int (s : string) : option Z :=
  if String.eqb s "1000" then Some 1000 else None.


(** A paid transaction of 100.00 USD for PaymentIntent [pi_1]. *)
Definition paid_100 : PaymentTransaction :=
  mkTransaction 1 10000 "USD" "succeeded" (Some "pi_1"%string)
    (Some "succeeded"%string) None None (Some 100) None.

(** The same transaction before payment. *)
Definition pending_100 : PaymentTransaction :=
  mkTransaction 1 10000 "USD" "pending" (Some "pi_1"%string)
    (Some "requires_payment_method"%string) None None None None.

Definition db_paid : DB := mkDB [paid_100] [] [] 2.
Definition db_pending : DB := mkDB [pending_100] [] [] 2.
Definition db_empty : DB := mkDB [] [] [] 1.

Definition no_keys : StripeObject :=
  mkObject Missing Missing Missing Missing Missing Missing Missing Missing.

(** [payment_intent.payment_failed] for [pi_1]: after a decline the intent
    is back in [requires_payment_method]. *)
Definition ev_payment_failed : Event :=
  mkEvent "evt_failed" "payment_intent.payment_failed"
    (mkObject (Val "pi_1"%string) (Val "requires_payment_method"%string)
       (Val 10000) (Val "usd"%string) Missing
       (Val (mkLastPaymentError (Val "Your card was declined."%string)
               (Val "card_declined"%string)))
       Missing Missing).

Definition ev_intent_succeeded : Event :=
  mkEvent "evt_ok" "payment_intent.succeeded"
    (mkObject (Val "pi_1"%string) (Val "succeeded"%string) (Val 10000)
       (Val "usd"%string) Missing Null Missing Missing).

(** [refund.created] for a refund of 60.00 against [pi_1]. *)
Definition ev_refund (event_id refund_id : string) (reason : field string)
  : Event :=
  mkEvent event_id "refund.created"
    (mkObject (Val refund_id) (Val "pending"%string) (Val 6000)
       (Val "usd"%string) (Val "pi_1"%string) Missing Missing reason).

(** A refund made without a reason: the processor sends ["reason": null]. *)
Definition ev_refund_no_reason : Event := ev_refund "evt_r0" "re_0" Null.

(** Refunds made locally against [paid_100]. *)
Definition refund_60 (pk : nat) (refund_id : string) : PaymentRefund :=
  mkRefund pk (Some 1%nat) 6000 "usd" "requested_by_customer" "succeeded"
    (Some refund_id) None.

Definition refund_50 (pk : nat) (refund_id : string) : PaymentRefund :=
  mkRefund pk (Some 1%nat) 5000 "usd" "requested_by_customer" "pending"
    (Some refund_id) None.

Definition raw_of (e : Event) : RawEvent :=
  mkRawEvent (Some (e_id e)) (Some (e_type e)) (e_object e).

Definition new_intent : Gateway.IntentData :=
  Gateway.mkIntent "pi_2" "requires_payment_method" 1599 "usd" "pi_2_secret".

End Examples.

(** ** Vocabulary for the ledger theorems *)

Module LedgerSpec.

Import Ledger.

(** The receipts stored for an event id. *)
Definition receipts_for (id : string) (db : DB) : list PaymentWebhook :=
  filter (fun w => String.eqb (stripe_event_id w) id) (webhooks db).

(** Primary keys of the receipts are distinct and were handed out by
    [fresh_id]. *)
Definition receipts_ok (db : DB) : Prop :=
  NoDup (map pw_id (webhooks db)) /\
  Forall (fun w => (pw_id w < next_id db)%nat) (webhooks db).

Definition set_webhooks (ws : list PaymentWebhook) (db : DB) : DB :=
  mkDB (transactions db) (refunds db) ws (next_id db).

Definition set_transactions (ts : list PaymentTransaction) (db : DB) : DB :=
  mkDB ts (refunds db) (webhooks db) (next_id db).

Definition set_refunds (rs : list PaymentRefund) (db : DB) : DB :=
  mkDB (transactions db) rs (webhooks db) (next_id db).

(** [save()] in two steps: the row as it will be written, then the
    constraints that may refuse it. *)
Definition stamped_transaction (now : Z) (self : PaymentTransaction) (db : DB)
  : PaymentTransaction :=
  match objects_get (fun t => Nat.eqb (pt_id t) (pt_id self))
                    (transactions db) with
  | inr old_instance =>
      if negb (String.eqb (pt_status old_instance) "succeeded")
         && String.eqb (pt_status self) "succeeded"
      then with_processed_at (Some now) self
      else self
  | inl _ => self
  end.

Definition transaction_clash (self : PaymentTransaction) (db : DB) : bool :=
  existsb (fun t =>
             negb (Nat.eqb (pt_id t) (pt_id self))
             && match stripe_payment_intent_id self with
                | Some _ => opt_eqb (stripe_payment_intent_id t)
                                    (stripe_payment_intent_id self)
                | None => false
                end)
          (transactions db).

Definition stamped_refund (now : Z) (self : PaymentRefund) (db : DB)
  : PaymentRefund :=
  match objects_get (fun r => Nat.eqb (pr_id r) (pr_id self)) (refunds db) with
  | inr old_instance =>
      if negb (String.eqb (pr_status old_instance) "succeeded")
         && String.eqb (pr_status self) "succeeded"
      then refund_with_processed_at (Some now) self
      else self
  | inl _ => self
  end.

Definition inherited_currency (self : PaymentRefund) (db : DB)
  : py PaymentRefund :=
  if String.eqb (pr_currency self) EmptyString
  then match payment_transaction self with
       | None => raise DoesNotExist
       | Some parent =>
           match objects_get (fun t => Nat.eqb (pt_id t) parent)
                             (transactions db) with
           | inr p => ret (refund_with_currency (pt_currency p) self)
           | inl e => raise e
           end
       end
  else ret self.

Definition refund_clash (self : PaymentRefund) (db : DB) : bool :=
  existsb (fun r =>
             negb (Nat.eqb (pr_id r) (pr_id self))
             && match stripe_refund_id self with
                | Some _ => opt_eqb (stripe_refund_id r) (stripe_refund_id self)
                | None => false
                end)
          (refunds db).

(** The row [PaymentRefund.save] writes, or the exception it raises. *)
Definition refund_to_write (now : Z) (self : PaymentRefund) (db : DB)
  : py PaymentRefund :=
  match inherited_currency (stamped_refund now self db) db with
  | inl e => inl e
  | inr r =>
      match payment_transaction r with
      | None => inl IntegrityError
      | Some _ => if refund_clash r db then inl IntegrityError else inr r
      end
  end.

(** What a handler may do to the database: it leaves the receipts alone,
    only takes fresh keys, and writes nothing to the ledger when it ends
    with an exception. *)
Definition handler_frame {A} (c : M A) : Prop :=
  forall db,
    webhooks (snd (c db)) = webhooks db /\
    (next_id db <= next_id (snd (c db)))%nat /\
    (forall e, fst (c db) = inl e -> ledger (snd (c db)) = ledger db).

(** The end of [process_webhook_event], once the handler has run with the
    receipt [w]: the receipt is saved as processed after a result, as it was
    after an exception. *)
Definition finish (now : Z) (id : string) (w : PaymentWebhook)
    (handled : py outcome * DB) : py outcome * DB :=
  match handled with
  | (inr result, db) =>
      (inr result,
       set_webhooks (upsert pw_id (webhook_with_processed true (Some now) w)
                            (webhooks db)) db)
  | (inl e, db) =>
      (inr (Error (exn_str e) id),
       set_webhooks (upsert pw_id w (webhooks db)) db)
  end.

(** One delivery of an event: the database before, what the caller got,
    the database after. *)
Record delivery : Type := mkDelivery {
  before : DB;
  answer : py outcome;
  after : DB
}.

(** The same event delivered once per element of [nows], in a row. *)
Fixpoint deliveries (ev : Event) (nows : list Z) (db : DB) : list delivery :=
  match nows with
  | [] => []
  | now :: rest =>
      let '(r, db') := process_webhook_event now ev db in
      mkDelivery db r db' :: deliveries ev rest db'
  end.

Definition final_db (db : DB) (trace : list delivery) : DB :=
  last (map after trace) db.

(** A delivery that did nothing but report the event as known. *)
Definition short_circuit (id : string) (d : delivery) : Prop :=
  after d = before d /\ answer d = ret (AlreadyProcessed id).

Definition ledger_untouched (d : delivery) : Prop :=
  ledger (after d) = ledger (before d).

(** Every stored transaction status is one of the five choices. *)
Definition statuses_valid (db : DB) : Prop :=
  Forall (fun t => valid_status (pt_status t) = true) (transactions db).

(** The status a [payment_intent.*] event would write, where it writes one,
    is one of the five choices. *)
Definition event_status_valid (ev : Event) : Prop :=
  startswith (e_type ev) "payment_intent." = true ->
  e_type ev <> "payment_intent.canceled"%string ->
  forall s, o_status (e_object ev) = Val s -> valid_status s = true.

(** The refunds that count against a transaction. *)
Definition refunded_against (parent : nat) (db : DB) : list PaymentRefund :=
  filter (fun r => match payment_transaction r with
                   | Some p => Nat.eqb p parent
                   | None => false
                   end && counts_as_refunded r)
         (refunds db).

(** The refund-sum invariant, with what keeps it meaningful: refund keys are
    distinct and no stored refund amount is negative. *)
Definition refund_sums_ok (db : DB) : Prop :=
  NoDup (map pr_id (refunds db)) /\
  Forall (fun r => 0 <= pr_amount r) (refunds db) /\
  forall t, In t (transactions db) ->
    sum_amounts (refunded_against (pt_id t) db) <= pt_amount t.

(** [Model.full_clean] for a refund: the field validator of [amount]
    ([MinValueValidator(Decimal('0.01'))]) and [clean()]; any failure
    raises. *)
Definition PaymentRefund_full_clean (db : DB) (self : PaymentRefund)
  : py unit :=
  match PaymentRefund_clean db self with
  | inl e => raise e
  | inr _ =>
      if pr_amount self <? 1
      then raise (ValidationError
                    "Ensure this value is greater than or equal to 0.01.")
      else ret tt
  end.

(** A refund write that goes through model validation, as a model form
    does: [full_clean()], then [save()] if it passed. *)
Definition validated_refund_save (now : Z) (self : PaymentRefund) : M unit :=
  (db <- read ;;
   lift (PaymentRefund_full_clean db self) ;;;
   PaymentRefund_save now self)%db.

(** A sequence of validated refund writes; a rejected one is skipped. *)
Fixpoint refund_attempts (attempts : list (Z * PaymentRefund)) (db : DB) : DB :=
  match attempts with
  | [] => db
  | (now, r) :: rest => refund_attempts rest (snd (validated_refund_save now r db))
  end.

End LedgerSpec.

(** ** Further code of the payments application *)

Module Header.

(** [c in s] for a character. *)
Fixpoint contains (c : ascii) (s : string) : bool :=
  match s with
  | EmptyString => false
  | String x s' => Ascii.eqb x c || contains c s'
  end.

(** The header the processor sends, as the tests build it:
    [f"t={timestamp},v1={signature}"]. *)
Definition signature_header (timestamp signature : string) : string :=
  ("t=" ++ timestamp ++ ",v1=" ++ signature)%string.

End Header.

Module Identity.

Import Ledger.

(** What identifies a payment at the till and at the processor: the
    columns no webhook handler assigns. *)
Definition transaction_identity (t : PaymentTransaction)
  : nat * Z * string * option string * option nat :=
  (pt_id t, pt_amount t, pt_currency t, stripe_payment_intent_id t,
   pt_transaction t).

Definition refund_identity (r : PaymentRefund)
  : nat * option nat * Z * option string :=
  (pr_id r, payment_transaction r, pr_amount r, stripe_refund_id r).

(** The refunds table after a handler ran, seen from the table before
    it: the rows that were there, with their identity, then the new
    rows. *)
Definition grown_by (extra : list (nat * option nat * Z * option string))
    (db db' : DB) : Prop :=
  map refund_identity (refunds db')
  = map refund_identity (refunds db) ++ extra /\
  NoDup (map pr_id (refunds db')).

(** A PaymentIntent id names at most one stored transaction. *)
Definition intent_ids_unique (db : DB) : Prop :=
  forall a b p, In a (transactions db) -> In b (transactions db) ->
    stripe_payment_intent_id a = Some p ->
    stripe_payment_intent_id b = Some p -> pt_id a = pt_id b.

(** The results a handler produces itself: every one but the two the
    dispatcher makes up. *)
Definition handler_result (r : outcome) : bool :=
  match r with
  | AlreadyProcessed _ | Error _ _ => false
  | _ => true
  end.

End Identity.

Module Amounts.

Import Ledger.

(** [PaymentTransaction.refunded_amount]: the sum over the succeeded
    refunds of the transaction, [Decimal('0.00')] when the aggregate is
    [None] or zero.  Like the columns, the three amounts are counted in
    cents. *)
Definition refunded_amount (db : DB) (self : PaymentTransaction) : Z :=
  sum_amounts
    (filter (fun r => match payment_transaction r with
                      | Some p => Nat.eqb p (pt_id self)
                      | None => false
                      end
                      && String.eqb (pr_status r) "succeeded")
            (refunds db)).

(** [PaymentTransaction.refundable_amount] *)
Definition refundable_amount (db : DB) (self : PaymentTransaction) : Z :=
  if negb (String.eqb (pt_status self) "succeeded") then 0
  else pt_amount self - refunded_amount db self.

(** [PaymentTransaction.net_amount] *)
Definition net_amount (db : DB) (self : PaymentTransaction) : Z :=
  pt_amount self - refunded_amount db self.

End Amounts.

(** *** Paying a sale *)

Module Sales.

Import Ledger.

Section Sale.

Variable _make_stripe_request
  : Gateway.PaymentIntentRequest -> py Gateway.IntentData.

(** [StripePaymentService.create_payment_for_transaction]:
    [transaction_obj] is the key of the sale, [total_sale] its total (a
    [Decimal], as [create_payment_intent] expects and as the tests of the
    service give it), [transaction_id] and [user_id] the two strings put
    in the metadata. *)
Definition create_payment_for_transaction (now : Z) (transaction_obj : nat)
    (total_sale : Decimal) (transaction_id user_id : string)
  : M Gateway.IntentData :=
  (intent_data <- lift
     (Gateway.create_payment_intent _make_stripe_request total_sale "usd" None
        "automatic"
        [("transaction_id"%string, transaction_id);
         ("user_id"%string, user_id)]) ;;
   (* link the payment to the transaction *)
   link_transaction_to_payment now transaction_obj intent_data ;;;
   mret intent_data)%db.

End Sale.

End Sales.

(** *** Refund endpoints *)

Module RefundAPI.

Import Ledger Amounts.

(** [a > b] on decimals: exact, whatever the exponents. *)
Definition dec_gtb (a b : Decimal) : bool :=
  let m := Z.min (expo a) (expo b) in
  coeff a * 10 ^ (expo a - m) >? coeff b * 10 ^ (expo b - m).

(** A stored amount as the [Decimal] the ORM hands out. *)
Definition dec_of_cents (cents : Z) : Decimal := mkDecimal cents (-2).

(** What [ProcessRefundAPIView.post] reads from the request body:
    [data.get('transaction_id')], [Decimal(str(data.get('amount', 0)))],
    a finite decimal or the exception of the conversion, and
    [data.get('reason', 'requested_by_customer')]. *)
Record RefundRequest : Type := mkRefundRequest {
  rq_transaction_id : option nat;
  rq_amount : py Decimal;
  rq_reason : string
}.

(** What the view reads from the result of [create_refund]:
    [refund_result.get('success')] as a truth value and
    [refund_result.get('error', 'Refund failed')]. *)
Record RefundResult : Type := mkRefundResult {
  rr_success : bool;
  rr_error : string
}.

(** [json_response({'success': ..., 'error': ...}, status=...)] *)
Record JsonBody : Type := mkJson {
  js_status : Z;
  js_success : bool;
  js_error : string
}.

Section API.

(** [stripe_service.create_refund(payment_intent_id, amount, reason)]: the
    call to the processor; it returns the refund or raises. *)
Variable create_refund : option string -> Decimal -> string -> py RefundResult.

(** [str(e)] for the [AttributeError] of an assignment to a property
    without a setter; the wording is the interpreter's. *)
Variable no_setter_message : string.

(** [ProcessRefundAPIView.post]; [data] is [json.loads(request.body)], which
    may raise.  [get_object_or_404] raises [Http404], which the handler of
    [Exception] turns into a 500 like any other exception.
    [PaymentRefund.objects.create(original_payment=...)] assigns to the
    read-only property [original_payment] and raises [AttributeError],
    which ends in the same handler. *)
Definition ProcessRefundAPIView_post (data : py RefundRequest) : M JsonBody :=
  (mtry
     (data <- lift data ;;
      amount <- lift (rq_amount data) ;;
      db <- read ;;
      match match rq_transaction_id data with
            | Some pk => objects_get (fun t => Nat.eqb (pt_id t) pk)
                                     (transactions db)
            | None => raise DoesNotExist
            end with
      | inl DoesNotExist =>
          mret (mkJson 500 false
                  "No PaymentTransaction matches the given query.")
      | inl e => mraise e
      | inr transaction =>
          if negb (String.eqb (pt_status transaction) "succeeded") then
            mret (mkJson 400 false "Can only refund successful payments")
          else if dec_gtb amount
                    (dec_of_cents (refundable_amount db transaction)) then
            mret (mkJson 400 false "Refund amount exceeds refundable amount")
          else
            (* process refund through Stripe *)
            refund_result <- lift
              (create_refund (stripe_payment_intent_id transaction) amount
                 (rq_reason data)) ;;
            if negb (rr_success refund_result) then
              mret (mkJson 400 false (rr_error refund_result))
            else
              (* create refund record *)
              mret (mkJson 500 false no_setter_message)
      end)
     (fun e => mret (mkJson 500 false (exn_str e))))%db.

End API.

(** [refund_data], the refund the processor returns to
    [CreateRefundView.post]. *)
Record RefundData : Type := mkRefundData {
  rd_id : string;
  rd_amount : Z;
  rd_currency : string;
  rd_reason : option string;
  rd_status : string
}.

(** The local write of [CreateRefundView.post], after the processor has
    made the refund: the transaction of the PaymentIntent is looked up,
    [None] when there is none, and the refund row is created.  [reason] is
    a NOT NULL column. *)
Definition CreateRefundView_record (now : Z) (payment_intent_id : string)
    (refund_data : RefundData) : M PaymentRefund :=
  (db <- read ;;
   original_payment <-
     match objects_get
             (fun t => opt_eqb (stripe_payment_intent_id t)
                               (Some payment_intent_id))
             (transactions db) with
     | inr t => mret (Some (pt_id t))
     | inl DoesNotExist => mret None
     | inl e => mraise e
     end ;;
   pk <- fresh_id ;;
   reason <- lift (expect IntegrityError (rd_reason refund_data)) ;;
   let payment_refund :=
     mkRefund pk original_payment (rd_amount refund_data)
       (Gateway.upper (rd_currency refund_data)) reason
       (rd_status refund_data) (Some (rd_id refund_data)) None in
   PaymentRefund_save now payment_refund ;;;
   mret payment_refund)%db.

End RefundAPI.

(** *** Payment methods *)

Module Methods.

Record PaymentMethod : Type := mkMethod {
  pm_id : nat;
  pm_name : string;
  stripe_payment_method_type : string;
  is_active : bool
}.

Definition STRIPE_PAYMENT_METHOD_TYPES : list (string * string) :=
  [("card", "Credit/Debit Card"); ("us_bank_account", "US Bank Account");
   ("sepa_debit", "SEPA Direct Debit"); ("ideal", "iDEAL");
   ("sofort", "Sofort"); ("bancontact", "Bancontact");
   ("giropay", "Giropay"); ("p24", "Przelewy24"); ("eps", "EPS");
   ("fpx", "FPX"); ("grabpay", "GrabPay"); ("alipay", "Alipay");
   ("wechat_pay", "WeChat Pay")]%string.

(** [get_stripe_payment_method_type_display()] *)
Definition get_stripe_payment_method_type_display (self : PaymentMethod)
  : string :=
  match find (fun c => String.eqb (fst c) (stripe_payment_method_type self))
             STRIPE_PAYMENT_METHOD_TYPES with
  | Some (_, label) => label
  | None => stripe_payment_method_type self
  end.

(** [PaymentMethod.clean], against the rows of the table. *)
Definition PaymentMethod_clean (rows : list PaymentMethod)
    (self : PaymentMethod) : py unit :=
  if is_active self then
    let existing :=
      filter (fun m =>
                String.eqb (stripe_payment_method_type m)
                           (stripe_payment_method_type self)
                && is_active m
                && negb (Nat.eqb (pm_id m) (pm_id self)))
             rows in
    match existing with
    | _ :: _ =>
        raise (ValidationError
                 ("An active payment method already exists for "
                    ++ get_stripe_payment_method_type_display self))
    | [] => ret tt
    end
  else ret tt.

(** At most one active payment method for each Stripe type. *)
Definition one_active_per_type (rows : list PaymentMethod) : Prop :=
  forall a b, In a rows -> In b rows ->
    is_active a = true -> is_active b = true ->
    stripe_payment_method_type a = stripe_payment_method_type b ->
    pm_id a = pm_id b.

End Methods.

Module MoreExamples.

Import Ledger.

(** An event of a type no handler is registered for. *)
Definition ev_customer_created : Event :=
  mkEvent "evt_c1" "customer.created" Examples.no_keys.

(** [payment_intent.succeeded] for a PaymentIntent the till does not know. *)
Definition ev_unknown_intent : Event :=
  mkEvent "evt_u1" "payment_intent.succeeded"
    (mkObject (Val "pi_9"%string) (Val "succeeded"%string) (Val 2500)
       (Val "usd"%string) Missing Null Missing Missing).

(** [refund.created] for a refund of a PaymentIntent the till does not
    know. *)
Definition ev_orphan_refund : Event :=
  mkEvent "evt_o1" "refund.created"
    (mkObject (Val "re_9"%string) (Val "succeeded"%string) (Val 2500)
       (Val "usd"%string) (Val "pi_9"%string) Missing Missing
       (Val "requested_by_customer"%string)).

(** [charge.refunded] and [charge.failed] for the charge of [pi_1]. *)
Definition ev_charge (event_id event_type : string) : Event :=
  mkEvent event_id event_type
    (mkObject (Val "ch_1"%string) (Val "succeeded"%string) (Val 10000)
       (Val "usd"%string) (Val "pi_1"%string) Missing Missing Missing).

(** [refund.updated]: the refund [re_1] has succeeded. *)
Definition ev_refund_updated : Event :=
  mkEvent "evt_r2" "refund.updated"
    (mkObject (Val "re_1"%string) (Val "succeeded"%string) (Val 9999)
       (Val "usd"%string) (Val "pi_1"%string) Missing Missing
       (Val "requested_by_customer"%string)).

Definition db_refunding : DB :=
  mkDB [Examples.paid_100] [Examples.refund_50 2 "re_1"] [] 3.

(** The receipt of an event whose handler raised, and a database that
    holds it. *)
Definition receipt_r0 : PaymentWebhook :=
  mkWebhook 2 "evt_r0" "refund.created" false None
    Examples.ev_refund_no_reason None.

Definition db_unprocessed : DB := mkDB [Examples.paid_100] [] [receipt_r0] 3.

(** A processor that accepts every PaymentIntent. *)
Definition accepting (r : Gateway.PaymentIntentRequest)
  : py Gateway.IntentData :=
  ret (Gateway.mkIntent "pi_7" "requires_payment_method"
         (Gateway.req_amount r) (Gateway.req_currency r) "pi_7_secret").

(** A request to refund 120.00 of the payment [paid_100]. *)
Definition over_refund_request : RefundAPI.RefundRequest :=
  RefundAPI.mkRefundRequest (Some 1%nat) (ret (mkDecimal 12000 (-2)))
    "requested_by_customer".

(** A processor that reports every refund as made. *)
Definition refunding (payment_intent_id : option string) (amount : Decimal)
    (reason : string) : py RefundAPI.RefundResult :=
  ret (RefundAPI.mkRefundResult true EmptyString).

Definition refund_re_1 : RefundAPI.RefundData :=
  RefundAPI.mkRefundData "re_1" 5000 "usd"
    (Some "requested_by_customer"%string) "succeeded".

Definition card : Methods.PaymentMethod :=
  Methods.mkMethod 1 "Card" "card" true.

Definition card_again : Methods.PaymentMethod :=
  Methods.mkMethod 2 "Card (new)" "card" true.

Definition ideal : Methods.PaymentMethod :=
  Methods.mkMethod 3 "iDEAL" "ideal" true.

End MoreExamples.

(** ** Facts about the decimal arithmetic *)

Section DecimalFacts.

(** Equal products of powers whose exponents agree by linear arithmetic. *)
Ltac pow_eq := solve [repeat (f_equal; try lia)].

Lemma pow10_pos (k : Z) : 0 <= k -> 0 < 10 ^ k.
Proof. intros. apply Z.pow_pos_nonneg; lia. Qed.

Lemma pow10_split (a b : Z) : 0 <= a -> 0 <= b -> 10 ^ (a + b) = 10 ^ a * 10 ^ b.
Proof. intros. apply Z.pow_add_r; assumption. Qed.

Lemma pow10_lt_inv (a b : Z) : 0 <= a -> 0 <= b -> 10 ^ a < 10 ^ b -> a < b.
Proof. intros Ha Hb H. apply (Z.pow_lt_mono_r_iff 10); lia. Qed.

Lemma ndigits_fuel_spec (fuel : nat) :
  forall c, 0 <= c < 10 * 2 ^ Z.of_nat fuel ->
    let n := ndigits_fuel fuel c in
    1 <= n /\ c < 10 ^ n /\ (0 < c -> 10 ^ (n - 1) <= c).
Proof.
  induction fuel as [|f IH]; intros c Hc; cbn [ndigits_fuel].
  - change (2 ^ Z.of_nat 0) with 1 in Hc. cbn. lia.
  - destruct (Z.ltb_spec c 10) as [Hlt|Hge].
    + cbn. lia.
    + assert (Hpow : 2 ^ Z.of_nat (S f) = 2 * 2 ^ Z.of_nat f).
      { rewrite Nat2Z.inj_succ. apply Z.pow_succ_r. lia. }
      assert (Hq : 0 <= c / 10 < 10 * 2 ^ Z.of_nat f).
      { split. { apply Z.div_pos; lia. }
        apply Z.div_lt_upper_bound; lia. }
      specialize (IH _ Hq). cbv zeta in IH.
      set (m := ndigits_fuel f (c / 10)) in *.
      destruct IH as (H1 & H2 & H3).
      assert (Hc10 : 0 < c / 10).
      { apply Z.div_str_pos; lia. }
      specialize (H3 Hc10).
      replace (1 + m - 1) with m by lia.
      replace (1 + m) with (m - 1 + 1 + 1) by lia.
      rewrite (pow10_split (m - 1 + 1) 1) by lia.
      replace (m - 1 + 1) with m by lia.
      change (10 ^ 1) with 10.
      pose proof (Z.mul_div_le c 10 ltac:(lia)).
      pose proof (Z.mod_pos_bound c 10 ltac:(lia)).
      pose proof (Z.div_mod c 10 ltac:(lia)).
      assert (H10m : 10 ^ m = 10 * 10 ^ (m - 1)).
      { replace m with (1 + (m - 1)) at 1 by lia.
        rewrite pow10_split by lia. reflexivity. }
      repeat split; try lia.
Qed.

Lemma ndigits_spec (c : Z) :
  0 <= c ->
  1 <= ndigits c /\ c < 10 ^ ndigits c /\ (0 < c -> 10 ^ (ndigits c - 1) <= c).
Proof.
  intros Hc. unfold ndigits. apply ndigits_fuel_spec.
  destruct (Z.eq_dec c 0) as [->|Hnz]; [cbn; lia|].
  pose proof (Z.log2_spec c ltac:(lia)) as [_ Hup].
  pose proof (Z.log2_nonneg c).
  rewrite Z2Nat.id by assumption.
  rewrite Z.pow_succ_r in Hup by assumption. lia.
Qed.

Lemma ndigits_le_prec (c : Z) : 0 <= c < 10 ^ prec -> ndigits c <= prec.
Proof.
  intros [H0 Hlt].
  destruct (Z.eq_dec c 0) as [->|Hnz]; [vm_compute; discriminate|].
  destruct (ndigits_spec c H0) as (H1 & _ & H3).
  specialize (H3 ltac:(lia)).
  assert (10 ^ (ndigits c - 1) < 10 ^ prec) by lia.
  apply pow10_lt_inv in H; unfold prec in *; lia.
Qed.

Lemma abs_sgn_mul (c : Z) : Z.sgn c * Z.abs c = c.
Proof. destruct c; cbn; lia. Qed.

(** Rounding to the context precision changes nothing when the coefficient
    is a number of at most [prec] digits followed by zeros. *)
Lemma fix_exact (d : Decimal) (m j v k : Z) :
  0 <= j -> coeff d = m * 10 ^ j -> Z.abs m < 10 ^ prec ->
  represents d v k -> represents (fix_ d) v k.
Proof.
  intros Hj Hc Hm [Hk Hv]. unfold fix_.
  set (a := Z.abs (coeff d)).
  destruct (Z.leb_spec (ndigits a - prec) 0) as [Hle|Hgt]; [split; assumption|].
  set (k' := ndigits a - prec) in *.
  assert (Ha0 : 0 <= a) by (subst a; lia).
  destruct (ndigits_spec a Ha0) as (Hn1 & Hup & Hlow).
  assert (Hapos : 0 < a).
  { destruct (Z.eq_dec a 0) as [E|]; [|lia].
    exfalso. unfold k' in Hgt. rewrite E in Hgt.
    change (ndigits 0) with 1 in Hgt. unfold prec in Hgt. lia. }
  specialize (Hlow Hapos).
  pose proof (pow10_pos j Hj) as Hpj.
  assert (Haeq : a = Z.abs m * 10 ^ j).
  { subst a. rewrite Hc, Z.abs_mul. f_equal. lia. }
  assert (Hk'j : k' <= j).
  { assert (Hlt : 10 ^ (ndigits a - 1) < 10 ^ (prec + j)).
    { rewrite (pow10_split prec j) by (unfold prec; lia).
      assert (Z.abs m * 10 ^ j < 10 ^ prec * 10 ^ j)
        by (apply Z.mul_lt_mono_pos_r; lia).
      lia. }
    apply pow10_lt_inv in Hlt; unfold prec in *; lia. }
  pose proof (pow10_pos k' ltac:(lia)) as Hpk'.
  assert (Hafac : a = Z.abs m * 10 ^ (j - k') * 10 ^ k').
  { rewrite Haeq, <- Z.mul_assoc, <- pow10_split by lia.
    do 2 f_equal. lia. }
  assert (Hr : a mod 10 ^ k' = 0).
  { rewrite Hafac. apply Z.mod_mul. lia. }
  assert (Hq : a / 10 ^ k' = Z.abs m * 10 ^ (j - k')).
  { rewrite Hafac at 1. apply Z.div_mul. lia. }
  rewrite Hr.
  replace (10 ^ k' <? 2 * 0) with false by (symmetry; apply Z.ltb_ge; lia).
  replace (2 * 0 =? 10 ^ k') with false by (symmetry; apply Z.eqb_neq; lia).
  cbn [orb andb].
  assert (Hqlt : a / 10 ^ k' < 10 ^ prec).
  { apply Z.div_lt_upper_bound; [lia|].
    rewrite <- pow10_split by (unfold prec; lia).
    replace (k' + prec) with (ndigits a) by (subst k'; lia). exact Hup. }
  replace (a / 10 ^ k' =? 10 ^ prec) with false
    by (symmetry; apply Z.eqb_neq; lia).
  split; cbn [coeff expo]; [lia|].
  rewrite <- Hv.
  replace (expo d + k' - k) with (k' + (expo d - k)) by lia.
  rewrite pow10_split by lia.
  rewrite Hq.
  transitivity (Z.sgn (coeff d) * (Z.abs m * 10 ^ (j - k') * 10 ^ k')
                * 10 ^ (expo d - k)); [ring|].
  rewrite <- Hafac. unfold a. rewrite abs_sgn_mul. reflexivity.
Qed.

Lemma fix_small (d : Decimal) : Z.abs (coeff d) < 10 ^ prec -> fix_ d = d.
Proof.
  intros H. unfold fix_.
  pose proof (ndigits_le_prec (Z.abs (coeff d)) ltac:(lia)).
  destruct (Z.leb_spec (ndigits (Z.abs (coeff d)) - prec) 0); [reflexivity|lia].
Qed.

(** Two decimals that represent the same scaled value compare equal. *)
Lemma represents_eqb (a b : Decimal) (v k : Z) :
  represents a v k -> represents b v k -> dec_eqb a b = true.
Proof.
  intros [Ha Hva] [Hb Hvb]. unfold dec_eqb.
  set (m := Z.min (expo a) (expo b)).
  assert (Hm : k <= m) by (subst m; lia).
  apply Z.eqb_eq.
  pose proof (pow10_pos (m - k) ltac:(lia)) as Hp.
  apply (Z.mul_cancel_r _ _ (10 ^ (m - k))); [lia|].
  rewrite <- !Z.mul_assoc, <- !pow10_split by (subst m; lia).
  replace (expo a - m + (m - k)) with (expo a - k) by lia.
  replace (expo b - m + (m - k)) with (expo b - k) by lia.
  congruence.
Qed.

(** [int()] of a decimal whose value is the whole number [n]. *)
Lemma represents_to_int (d : Decimal) (n k : Z) :
  k <= 0 -> represents d (n * 10 ^ (- k)) k -> dec_to_int d = n.
Proof.
  intros Hk [Hke Hv]. unfold dec_to_int.
  pose proof (pow10_pos (- k) ltac:(lia)) as Hpk.
  destruct (Z.leb_spec 0 (expo d)) as [He|He].
  - apply (Z.mul_cancel_r _ _ (10 ^ (- k))); [lia|].
    rewrite <- Hv, <- Z.mul_assoc, <- pow10_split by lia.
    replace (expo d + - k) with (expo d - k) by lia. reflexivity.
  - pose proof (pow10_pos (- expo d) ltac:(lia)) as Hpe.
    assert (Hc : coeff d = n * 10 ^ (- expo d)).
    { apply (Z.mul_cancel_r _ _ (10 ^ (expo d - k))).
      { pose proof (pow10_pos (expo d - k) ltac:(lia)). lia. }
      rewrite Hv, <- Z.mul_assoc, <- pow10_split by lia.
      replace (- expo d + (expo d - k)) with (- k) by lia. reflexivity. }
    rewrite Hc. apply Z.quot_mul. lia.
Qed.

Lemma represents_rescale (d : Decimal) (v k k' : Z) :
  represents d v k -> k' <= k -> represents d (v * 10 ^ (k - k')) k'.
Proof.
  intros [Hk Hv] Hk'. split; [lia|].
  rewrite <- Hv, <- Z.mul_assoc, <- pow10_split by lia.
  replace (expo d - k + (k - k')) with (expo d - k') by lia. reflexivity.
Qed.

(** The coefficient that [_fix] returns always fits the precision. *)
Lemma fix_bound (d : Decimal) : Z.abs (coeff (fix_ d)) < 10 ^ prec.
Proof.
  unfold fix_. set (a := Z.abs (coeff d)).
  assert (Ha0 : 0 <= a) by (subst a; lia).
  destruct (ndigits_spec a Ha0) as (Hn1 & Hup & _).
  destruct (Z.leb_spec (ndigits a - prec) 0) as [Hle|Hgt].
  - fold a. eapply Z.lt_le_trans; [exact Hup|].
    apply Z.pow_le_mono_r; lia.
  - set (k := ndigits a - prec) in *.
    pose proof (pow10_pos k ltac:(lia)) as Hpk.
    assert (Hq : 0 <= a / 10 ^ k < 10 ^ prec).
    { split; [apply Z.div_pos; lia|].
      apply Z.div_lt_upper_bound; [lia|].
      rewrite <- pow10_split by (unfold prec; lia).
      replace (k + prec) with (ndigits a) by (subst k; lia). exact Hup. }
    set (q' := if _ : bool then a / 10 ^ k + 1 else a / 10 ^ k).
    assert (Hq' : 0 <= q' <= 10 ^ prec) by (subst q'; destruct (_ || _); lia).
    assert (Hs : Z.abs (Z.sgn (coeff d)) <= 1) by (destruct (coeff d); cbn; lia).
    destruct (Z.eqb_spec q' (10 ^ prec)) as [E|NE]; cbn [coeff];
      rewrite Z.abs_mul.
    + assert (0 < 10 ^ (prec - 1) < 10 ^ prec) by (vm_compute; split; reflexivity).
      rewrite (Z.abs_eq (10 ^ (prec - 1))) by lia. nia.
    + rewrite (Z.abs_eq q') by lia. nia.
Qed.

Lemma pow10_rescale (a b x y z : Z) :
  0 <= x -> 0 <= y -> 0 <= x + z -> 0 <= y + z ->
  a * 10 ^ x = b * 10 ^ y -> a * 10 ^ (x + z) = b * 10 ^ (y + z).
Proof.
  intros Hx Hy Hxz Hyz H.
  destruct (Z_le_gt_dec 0 z) as [Hz|Hz].
  - rewrite !pow10_split, !Z.mul_assoc, H by lia. reflexivity.
  - pose proof (pow10_pos (- z) ltac:(lia)).
    apply (Z.mul_cancel_r _ _ (10 ^ (- z))); [lia|].
    rewrite <- !Z.mul_assoc, <- !pow10_split by lia.
    replace (x + z + - z) with x by lia.
    replace (y + z + - z) with y by lia. exact H.
Qed.

Lemma strip_zeros_spec (fuel : nat) :
  forall c e, 0 < c ->
    let d := strip_zeros fuel c e in
    0 < coeff d /\ e <= expo d <= e + Z.of_nat fuel /\
    coeff d * 10 ^ (expo d - e) = c /\
    (expo d = e + Z.of_nat fuel \/ coeff d mod 10 <> 0).
Proof.
  induction fuel as [|f IH]; intros c e Hc; cbn [strip_zeros].
  - cbn [coeff expo]. rewrite Z.sub_diag. cbn. repeat split; lia.
  - destruct (Z.eqb_spec (c mod 10) 0) as [E|NE].
    + assert (Hc10 : c = c / 10 * 10).
      { pose proof (Z.div_mod c 10 ltac:(lia)). lia. }
      assert (Hq : 0 < c / 10) by lia.
      specialize (IH (c / 10) (e + 1) Hq). cbv zeta in IH.
      set (d := strip_zeros f (c / 10) (e + 1)) in *.
      destruct IH as (H1 & H2 & H3 & H4).
      rewrite Nat2Z.inj_succ.
      split; [exact H1|]. split; [lia|]. split.
      * replace (expo d - e) with (expo d - (e + 1) + 1) by lia.
        rewrite pow10_split, Z.mul_assoc, H3 by lia.
        change (10 ^ 1) with 10. lia.
      * destruct H4; [left; lia|right; assumption].
    + cbn [coeff expo]. rewrite Z.sub_diag. cbn. repeat split; lia.
Qed.

Lemma ndigits_100 : ndigits 100 = 3.
Proof. reflexivity. Qed.

(** Dividing a whole number of cents of at most [prec] significant digits by
    100 is exact: the quotient represents [n / 100]. *)
Lemma cents_to_amount_represents (n m j : Z) :
  0 < n -> 0 <= j -> n = m * 10 ^ j -> m < 10 ^ prec ->
  represents (_cents_to_amount n) n (-2).
Proof.
  intros Hn Hj Hnm Hm.
  pose proof (pow10_pos j Hj) as Hpj.
  assert (Hmpos : 0 < m) by nia.
  destruct (ndigits_spec n ltac:(lia)) as (Hnd1 & Hup & Hlow).
  specialize (Hlow Hn).
  assert (Hndj : ndigits n <= prec + j).
  { assert (Hlt : 10 ^ (ndigits n - 1) < 10 ^ (prec + j)).
    { rewrite (pow10_split prec j) by (unfold prec; lia).
      assert (m * 10 ^ j < 10 ^ prec * 10 ^ j)
        by (apply Z.mul_lt_mono_pos_r; lia).
      lia. }
    apply pow10_lt_inv in Hlt; unfold prec in *; lia. }
  unfold _cents_to_amount, dec_div, dec_of_int. cbn [coeff expo].
  rewrite (Z.abs_eq n), (Z.sgn_pos n) by lia.
  change (Z.abs 100) with 100. change (Z.sgn 100) with 1.
  rewrite ndigits_100.
  destruct (Z.eqb_spec n 0) as [E|_]; [lia|].
  set (shift := 3 - ndigits n + prec + 1).
  set (u := j + shift - 2).
  assert (Hu : 2 <= u) by (subst u shift; unfold prec in *; lia).
  pose proof (pow10_pos u ltac:(lia)) as Hpu.
  assert (Hqr : (if 0 <=? shift
                 then (n * 10 ^ shift / 100, (n * 10 ^ shift) mod 100)
                 else (n / (100 * 10 ^ (- shift)), n mod (100 * 10 ^ (- shift))))
                = (m * 10 ^ u, 0)).
  { destruct (Z.leb_spec 0 shift) as [Hs|Hs].
    - assert (E : n * 10 ^ shift = m * 10 ^ u * 100).
      { rewrite Hnm, <- !Z.mul_assoc, <- pow10_split by lia.
        change 100 with (10 ^ 2). rewrite <- pow10_split by lia.
        subst u. pow_eq. }
      rewrite E, Z.div_mul, Z.mod_mul by lia. reflexivity.
    - assert (E100 : 100 * 10 ^ (- shift) = 10 ^ (2 - shift)).
      { change 100 with (10 ^ 2). rewrite <- pow10_split by lia.
        pow_eq. }
      pose proof (pow10_pos (2 - shift) ltac:(lia)).
      assert (E : n = m * 10 ^ u * 10 ^ (2 - shift)).
      { rewrite Hnm, <- !Z.mul_assoc, <- pow10_split by lia.
        subst u. pow_eq. }
      rewrite E100. rewrite E at 1 2.
      rewrite Z.div_mul, Z.mod_mul by lia. reflexivity. }
  rewrite Hqr. cbn [Z.eqb]. rewrite Z.mul_1_l.
  replace (0 - 0 - (0 - 0 - shift)) with shift by lia.
  replace (0 - 0 - shift) with (- shift) by lia.
  pose proof (strip_zeros_spec (Z.to_nat shift) (m * 10 ^ u) (- shift)
                ltac:(nia)) as Hs.
  cbv zeta in Hs.
  set (d := strip_zeros (Z.to_nat shift) (m * 10 ^ u) (- shift)) in *.
  destruct Hs as (Hcpos & Hexp & Hval & Hstop).
  set (t := expo d - - shift) in *.
  assert (Ht : 0 <= t) by (subst t; lia).
  assert (Hfuel : Z.of_nat (Z.to_nat shift) = Z.max 0 shift) by lia.
  (* the stripping never goes below two decimal places *)
  assert (Hexp2 : -2 <= expo d).
  { destruct (Z_le_gt_dec (-2) (expo d)) as [|Hlt]; [assumption|exfalso].
    destruct Hstop as [Hstop|Hstop]; [lia|].
    apply Hstop.
    assert (Htu : t < u) by (subst t u; lia).
    pose proof (pow10_rescale (coeff d) m t u (- t) ltac:(lia) ltac:(lia)
                  ltac:(lia) ltac:(lia) Hval) as Hc.
    rewrite Z.add_opp_diag_r, Z.mul_1_r in Hc.
    rewrite Hc.
    replace (u + - t) with (u - t - 1 + 1) by lia.
    rewrite pow10_split, Z.mul_assoc by lia.
    change (10 ^ 1) with 10. apply Z.mod_mul. lia. }
  assert (Hrep : represents (mkDecimal (coeff d) (expo d)) n (-2)).
  { split; cbn [coeff expo]; [lia|].
    pose proof (pow10_rescale (coeff d) m t u (2 - shift) ltac:(lia) ltac:(lia)
                  ltac:(subst t; lia) ltac:(subst u; lia) Hval) as Hc.
    replace (t + (2 - shift)) with (expo d - -2) in Hc by (subst t; lia).
    replace (u + (2 - shift)) with j in Hc by (subst u; lia).
    rewrite Hc. symmetry. exact Hnm. }
  destruct (Z_le_gt_dec t u) as [Htu|Htu].
  - apply (fix_exact _ m (u - t)); cbn [coeff expo]; try lia; [|exact Hrep].
    pose proof (pow10_rescale (coeff d) m t u (- t) ltac:(lia) ltac:(lia)
                  ltac:(lia) ltac:(lia) Hval) as Hc.
    rewrite Z.add_opp_diag_r, Z.mul_1_r in Hc. rewrite Hc.
    pow_eq.
  - rewrite fix_small; [exact Hrep|]. cbn [coeff].
    pose proof (pow10_rescale (coeff d) m t u (- u) ltac:(lia) ltac:(lia)
                  ltac:(lia) ltac:(lia) Hval) as Hc.
    rewrite Z.add_opp_diag_r, Z.mul_1_r in Hc.
    pose proof (pow10_pos (t + - u) ltac:(lia)). nia.
Qed.

End DecimalFacts.

(** ** Facts about tables and writes *)

Section TableFacts.

Import Ledger LedgerSpec.

Context {R : Type} (pk : R -> nat).

Lemma existsb_pk_false (new : R) (rows : list R) :
  existsb (fun r => Nat.eqb (pk r) (pk new)) rows = false <->
  ~ In (pk new) (map pk rows).
Proof.
  induction rows as [|r rows IH]; cbn.
  - split; [intros _ []|reflexivity].
  - rewrite orb_false_iff, IH, Nat.eqb_neq. tauto.
Qed.

Lemma upsert_fresh (new : R) (rows : list R) :
  ~ In (pk new) (map pk rows) -> upsert pk new rows = rows ++ [new].
Proof.
  intros H. unfold upsert.
  apply existsb_pk_false in H. rewrite H. reflexivity.
Qed.

Lemma upsert_present (new : R) (rows : list R) :
  In (pk new) (map pk rows) ->
  upsert pk new rows =
    map (fun r => if Nat.eqb (pk r) (pk new) then new else r) rows.
Proof.
  intros H. unfold upsert.
  destruct (existsb _ rows) eqn:E; [reflexivity|].
  apply existsb_pk_false in E. contradiction.
Qed.

Lemma upsert_keys (new : R) (rows : list R) :
  map pk (upsert pk new rows) =
    if existsb (fun r => Nat.eqb (pk r) (pk new)) rows
    then map pk rows else map pk rows ++ [pk new].
Proof.
  unfold upsert. destruct (existsb _ rows).
  - rewrite map_map. apply map_ext. intros r.
    destruct (Nat.eqb_spec (pk r) (pk new)); congruence.
  - rewrite map_app. reflexivity.
Qed.

Lemma upsert_NoDup (new : R) (rows : list R) :
  NoDup (map pk rows) -> NoDup (map pk (upsert pk new rows)).
Proof.
  intros H. rewrite upsert_keys.
  destruct (existsb _ rows) eqn:E; [exact H|].
  apply existsb_pk_false in E.
  apply NoDup_app; [exact H|repeat constructor; intros []|].
  intros x Hx [<-|[]]. contradiction.
Qed.

Lemma upsert_In (new x : R) (rows : list R) :
  In x (upsert pk new rows) -> x = new \/ (In x rows /\ pk x <> pk new).
Proof.
  unfold upsert. destruct (existsb _ rows) eqn:Hex.
  - rewrite in_map_iff. intros (r & Hr & Hin).
    destruct (Nat.eqb_spec (pk r) (pk new)); [left; congruence|].
    right. subst x. split; assumption.
  - apply existsb_pk_false in Hex.
    rewrite in_app_iff. intros [Hin|[<-|[]]]; [|left; reflexivity].
    right. split; [exact Hin|].
    intros E. apply Hex. rewrite <- E. apply in_map. exact Hin.
Qed.

Lemma upsert_In_new (new : R) (rows : list R) : In new (upsert pk new rows).
Proof.
  unfold upsert. destruct (existsb _ rows) eqn:Hex.
  - apply existsb_exists in Hex as (r & Hin & E).
    apply in_map_iff. exists r. rewrite E. split; [reflexivity|exact Hin].
  - apply in_app_iff. right. left. reflexivity.
Qed.

Lemma upsert_Forall (P : R -> Prop) (new : R) (rows : list R) :
  Forall P rows -> P new -> Forall P (upsert pk new rows).
Proof.
  intros Hrows Hnew. apply Forall_forall. intros x Hx.
  apply upsert_In in Hx as [->|[Hin _]]; [exact Hnew|].
  rewrite Forall_forall in Hrows. auto.
Qed.

(** Rows with distinct keys are determined by their key. *)
Lemma key_determines_row (rows : list R) (a b : R) :
  NoDup (map pk rows) -> In a rows -> In b rows -> pk a = pk b -> a = b.
Proof.
  induction rows as [|r rows IH]; cbn; [intros _ []|].
  intros Hnd Ha Hb E. inversion Hnd as [|? ? Hnotin Hnd']; subst.
  destruct Ha as [->|Ha], Hb as [->|Hb]; auto.
  - exfalso. apply Hnotin. rewrite E. apply in_map. exact Hb.
  - exfalso. apply Hnotin. rewrite <- E. apply in_map. exact Ha.
Qed.

(** Replacing a row by one that a filter treats alike leaves the number of
    rows the filter keeps unchanged. *)
Lemma upsert_filter_length (f : R -> bool) (old new : R) (rows : list R) :
  NoDup (map pk rows) -> In old rows -> pk old = pk new -> f old = f new ->
  List.length (filter f (upsert pk new rows)) = List.length (filter f rows).
Proof.
  intros Hnd Hin Hpk Hf.
  rewrite upsert_present by (rewrite <- Hpk; apply in_map; exact Hin).
  assert (Hsame : forall r, In r rows ->
            f (if Nat.eqb (pk r) (pk new) then new else r) = f r).
  { intros r Hr. destruct (Nat.eqb_spec (pk r) (pk new)) as [E|]; [|reflexivity].
    rewrite <- Hf. f_equal. symmetry.
    apply (key_determines_row rows); auto. congruence. }
  clear Hnd Hin. induction rows as [|r rows IH]; [reflexivity|].
  cbn [map filter]. rewrite Hsame by (left; reflexivity).
  assert (IH' := IH (fun x Hx => Hsame x (or_intror Hx))).
  destruct (f r); cbn [List.length]; congruence.
Qed.

Lemma upsert_filter_fresh (f : R -> bool) (new : R) (rows : list R) :
  ~ In (pk new) (map pk rows) ->
  filter f (upsert pk new rows) =
    filter f rows ++ (if f new then [new] else []).
Proof.
  intros H. rewrite upsert_fresh by exact H.
  rewrite filter_app. reflexivity.
Qed.

Lemma singleton_of_length (l : list R) (x : R) :
  List.length l = 1%nat -> In x l -> l = [x].
Proof.
  destruct l as [|a [|b l]]; cbn; try discriminate.
  intros _ [->|[]]. reflexivity.
Qed.

End TableFacts.

Section WriteFacts.

Import Ledger LedgerSpec.

Lemma PaymentTransaction_save_eq (now : Z) (t : PaymentTransaction) (db : DB) :
  PaymentTransaction_save now t db =
    let t' := stamped_transaction now t db in
    if transaction_clash t' db then (inl IntegrityError, db)
    else (inr tt, set_transactions (upsert pt_id t' (transactions db)) db).
Proof.
  unfold PaymentTransaction_save, mbind, read, mraise, write_transaction,
    stamped_transaction, transaction_clash, set_transactions.
  cbv zeta.
  destruct (objects_get _ (transactions db)) as [e|old];
    [|destruct (_ && _)]; destruct (existsb _ _); reflexivity.
Qed.

Lemma PaymentRefund_save_eq (now : Z) (r : PaymentRefund) (db : DB) :
  PaymentRefund_save now r db =
    match refund_to_write now r db with
    | inl e => (inl e, db)
    | inr r' => (inr tt, set_refunds (upsert pr_id r' (refunds db)) db)
    end.
Proof.
  unfold PaymentRefund_save, refund_to_write, mbind, read, lift, mraise,
    write_refund, set_refunds.
  fold (stamped_refund now r db).
  set (r1 := stamped_refund now r db).
  fold (inherited_currency r1 db).
  destruct (inherited_currency r1 db) as [e|r2]; [reflexivity|].
  fold (refund_clash r2 db).
  destruct (payment_transaction r2); [|reflexivity].
  destruct (refund_clash r2 db); reflexivity.
Qed.

Lemma stamped_transaction_fields (now : Z) (t : PaymentTransaction) (db : DB) :
  let t' := stamped_transaction now t db in
  pt_id t' = pt_id t /\ pt_status t' = pt_status t /\
  pt_amount t' = pt_amount t /\
  stripe_payment_intent_id t' = stripe_payment_intent_id t.
Proof.
  unfold stamped_transaction.
  destruct (objects_get _ _) as [e|old]; [|destruct (_ && _)];
    repeat split.
Qed.

Lemma refund_to_write_fields (now : Z) (r r' : PaymentRefund) (db : DB) :
  refund_to_write now r db = inr r' ->
  pr_id r' = pr_id r /\ pr_status r' = pr_status r /\
  pr_amount r' = pr_amount r /\ payment_transaction r' = payment_transaction r /\
  stripe_refund_id r' = stripe_refund_id r /\
  payment_transaction r <> None /\ refund_clash r' db = false.
Proof.
  unfold refund_to_write, inherited_currency, stamped_refund.
  set (r1 := match objects_get _ (refunds db) with inr _ => _ | inl _ => r end).
  assert (H1 : pr_id r1 = pr_id r /\ pr_status r1 = pr_status r /\
               pr_amount r1 = pr_amount r /\
               payment_transaction r1 = payment_transaction r /\
               stripe_refund_id r1 = stripe_refund_id r /\
               pr_currency r1 = pr_currency r).
  { subst r1. destruct (objects_get _ _) as [e|old]; [|destruct (_ && _)];
      repeat split. }
  destruct H1 as (E1 & E2 & E3 & E4 & E5 & E6).
  destruct (String.eqb (pr_currency r1) EmptyString).
  - destruct (payment_transaction r1) as [parent|] eqn:Hp; [|discriminate].
    destruct (objects_get _ (transactions db)) as [e|p]; [discriminate|].
    cbn. rewrite Hp.
    destruct (refund_clash _ db) eqn:Hc; [discriminate|].
    intros [= <-]. cbn. rewrite <- E4.
    repeat split; try assumption; try congruence.
  - cbn. destruct (payment_transaction r1) as [parent|] eqn:Hp; [|discriminate].
    destruct (refund_clash r1 db) eqn:Hc; [discriminate|].
    intros [= <-]. rewrite <- E4.
    repeat split; try assumption; congruence.
Qed.

End WriteFacts.

Section HandlerFacts.

Import Ledger LedgerSpec.

Lemma transaction_save_frame (now : Z) (t : PaymentTransaction) (db : DB) :
  let out := PaymentTransaction_save now t db in
  webhooks (snd out) = webhooks db /\ next_id (snd out) = next_id db /\
  refunds (snd out) = refunds db /\
  (forall e, fst out = inl e -> snd out = db).
Proof.
  rewrite PaymentTransaction_save_eq. cbv zeta.
  destruct (transaction_clash _ db); cbn; repeat split; discriminate.
Qed.

Lemma refund_save_frame (now : Z) (r : PaymentRefund) (db : DB) :
  let out := PaymentRefund_save now r db in
  webhooks (snd out) = webhooks db /\ next_id (snd out) = next_id db /\
  transactions (snd out) = transactions db /\
  (forall e, fst out = inl e -> snd out = db).
Proof.
  rewrite PaymentRefund_save_eq. cbv zeta.
  destruct (refund_to_write now r db); cbn; repeat split; discriminate.
Qed.

Ltac break_match :=
  match goal with
  | |- context [match ?x with _ => _ end] => destruct x eqn:?
  end.

(** Case analysis on a scrutinee that contains no further match. *)
Ltac break_inner :=
  match goal with
  | |- context [match ?x with _ => _ end] =>
      lazymatch x with
      | context [match _ with _ => _ end] => fail
      | _ => destruct x eqn:?
      end
  end.

Lemma intent_handler_frame (now : Z) (event_type : string)
    (payment_intent : StripeObject) :
  handler_frame (_handle_payment_intent_webhook now event_type payment_intent).
Proof.
  intros db. unfold _handle_payment_intent_webhook.
  unfold mbind, lift, read, mret, mraise, expect.
  repeat (break_match; cbn [fst snd]);
    try (repeat split; (reflexivity || lia || discriminate)).
  all: match goal with
       | H : PaymentTransaction_save ?n ?t ?d = _ |- _ =>
           pose proof (transaction_save_frame n t d) as Hf;
           cbv zeta in Hf; rewrite H in Hf; cbn [fst snd] in Hf;
           destruct Hf as (Hw & Hn & Hr & He)
       end.
  all: repeat split; try congruence; try lia.
  all: intros e' _; rewrite (He _ eq_refl); reflexivity.
Qed.

Lemma charge_handler_frame (now : Z) (event_type : string)
    (charge : StripeObject) :
  handler_frame (_handle_charge_webhook now event_type charge).
Proof.
  intros db. unfold _handle_charge_webhook.
  unfold mbind, lift, read, mret, mraise, expect.
  repeat (break_match; cbn [fst snd]);
    try (repeat split; (reflexivity || lia || discriminate)).
  all: match goal with
       | H : PaymentTransaction_save ?n ?t ?d = _ |- _ =>
           pose proof (transaction_save_frame n t d) as Hf;
           cbv zeta in Hf; rewrite H in Hf; cbn [fst snd] in Hf;
           destruct Hf as (Hw & Hn & Hr & He)
       end.
  all: repeat split; try congruence; try lia.
  all: intros e' _; rewrite (He _ eq_refl); reflexivity.
Qed.

(** A refund that [save()] accepted is accepted again, whatever its new
    status, once it has been written. *)
Lemma refund_save_again (now now' : Z) (r r' : PaymentRefund) (s : string)
    (db : DB) :
  refund_to_write now r db = inr r' ->
  exists r'',
    refund_to_write now' (refund_with_status s r)
      (set_refunds (upsert pr_id r' (refunds db)) db) = inr r''.
Proof.
  intros H.
  destruct (refund_to_write_fields _ _ _ _ H) as (E1 & _ & _ & E4 & E5 & Hp & Hc).
  revert H. unfold refund_to_write.
  set (db' := set_refunds _ db).
  assert (Hcur : forall x y : PaymentRefund,
            pr_currency x = pr_currency y ->
            payment_transaction x = payment_transaction y ->
            forall z, inherited_currency x db = inr z ->
            exists z', inherited_currency y db' = inr z' /\
                       (pr_id x = pr_id y -> pr_id z' = pr_id z) /\
                       (stripe_refund_id x = stripe_refund_id y ->
                        stripe_refund_id z' = stripe_refund_id z) /\
                       payment_transaction z' = payment_transaction z).
  { intros x y Ec Ept z. unfold inherited_currency. rewrite <- Ec, <- Ept.
    change (transactions db') with (transactions db).
    destruct (String.eqb (pr_currency x) EmptyString).
    - destruct (payment_transaction x) eqn:Hx; [|discriminate].
      destruct (objects_get _ (transactions db)); [discriminate|].
      intros [= <-]. eexists. split; [reflexivity|]. cbn.
      repeat split; auto; congruence.
    - intros [= <-]. exists y. repeat split; auto; congruence. }
  assert (Hst : forall n (x : PaymentRefund) d,
            pr_currency (stamped_refund n x d) = pr_currency x /\
            payment_transaction (stamped_refund n x d) = payment_transaction x /\
            pr_id (stamped_refund n x d) = pr_id x /\
            stripe_refund_id (stamped_refund n x d) = stripe_refund_id x).
  { intros n x d. unfold stamped_refund.
    destruct (objects_get _ _); [|destruct (_ && _)]; repeat split. }
  destruct (inherited_currency (stamped_refund now r db) db) as [e|z] eqn:Hz;
    [discriminate|].
  destruct (payment_transaction z) eqn:Hpz; [|discriminate].
  destruct (refund_clash z db) eqn:Hcz; [discriminate|].
  intros [= <-].
  destruct (Hst now r db) as (S1 & S2 & S3 & S4).
  destruct (Hst now' (refund_with_status s r) db') as (T1 & T2 & T3 & T4).
  cbn in T1, T2, T3, T4.
  destruct (Hcur (stamped_refund now r db)
                 (stamped_refund now' (refund_with_status s r) db')
                 ltac:(congruence) ltac:(congruence) z Hz)
    as (z' & Hz' & Hid & Hrid & Hpt).
  rewrite Hz'. rewrite Hpt, Hpz.
  specialize (Hid ltac:(congruence)). specialize (Hrid ltac:(congruence)).
  assert (Hclash : refund_clash z' db' = false).
  { unfold refund_clash. rewrite Hid, Hrid.
    apply not_true_is_false. intros Hex.
    apply existsb_exists in Hex as (x & Hin & Hx).
    change (refunds db') with (upsert pr_id z (refunds db)) in Hin.
    apply upsert_In in Hin as [->|[Hin Hne]].
    - rewrite Nat.eqb_refl in Hx. discriminate.
    - unfold refund_clash in Hcz.
      assert (existsb (fun r0 =>
                negb (Nat.eqb (pr_id r0) (pr_id z)) &&
                match stripe_refund_id z with
                | Some _ => opt_eqb (stripe_refund_id r0) (stripe_refund_id z)
                | None => false
                end) (refunds db) = true)
        by (apply existsb_exists; exists x; split; assumption).
      congruence. }
  rewrite Hclash. eauto.
Qed.

Lemma refund_handler_frame (now : Z) (event_type : string)
    (refund : StripeObject) :
  handler_frame (_handle_refund_webhook now event_type refund).
Proof.
  intros db. unfold _handle_refund_webhook.
  unfold mbind, lift, read, mret, mraise, expect, fresh_id.
  repeat (break_inner; cbn [fst snd ret raise]);
    try (repeat split; (reflexivity || lia || discriminate)).
  all: repeat match goal with
       | H : PaymentRefund_save ?n ?t ?d = _ |- _ =>
           let Hf := fresh "Hf" in
           pose proof (refund_save_frame n t d) as Hf;
           cbv zeta in Hf; rewrite H in Hf; cbn [fst snd] in Hf;
           destruct Hf as (? & ? & ? & ?);
           rewrite PaymentRefund_save_eq in H
       end.
  all: repeat match goal with
       | H : (_, _) = (_, _) |- _ => inversion H; subst; clear H
       end.
  all: cbn [webhooks next_id transactions refunds] in *.
  all: try (repeat split; try congruence; try lia;
            intros; unfold ledger;
            repeat match goal with
                   | H : forall e, inl ?x = inl e -> _ |- _ =>
                       specialize (H _ eq_refl)
                   end; subst; cbn; congruence).
  (* what is left: the refund row was created, and the second [save()] or
     the status read before it is supposed to have failed *)
  all: exfalso.
  all: try (destruct (o_status refund); discriminate).
  all: match goal with
       | H1 : match refund_to_write ?n ?r ?d1 with _ => _ end = (inr _, ?d),
         H2 : match refund_to_write ?n' (refund_with_status ?s ?r) ?d with
              | _ => _ end = (inl _, _) |- _ =>
           destruct (refund_to_write n r d1) as [?|r'] eqn:Hw1;
             [discriminate H1|];
           destruct (refund_save_again n n' r r' s d1 Hw1) as [r'' Hw2];
           inversion H1; subst d;
           match type of H2 with
           | match ?t with _ => _ end = _ =>
               let Ht := fresh "Ht" in
               assert (Ht : t = inr r'') by exact Hw2;
               rewrite Ht in H2; discriminate H2
           end
       end.
Qed.

Lemma dispatch_frame (now : Z) (ev : Event) (w : PaymentWebhook) :
  handler_frame (_handle_webhook_event_type now ev w).
Proof.
  unfold _handle_webhook_event_type.
  destruct (startswith _ "payment_intent."); [apply intent_handler_frame|].
  destruct (startswith _ "charge."); [apply charge_handler_frame|].
  destruct (startswith _ "refund."); [apply refund_handler_frame|].
  destruct (startswith _ "terminal.");
    intros db; cbn; repeat split; (lia || discriminate).
Qed.

(** [process_webhook_event], case by case on the receipts already stored
    for the event id. *)
Lemma process_webhook_event_eq (now : Z) (ev : Event) (db : DB) :
  process_webhook_event now ev db =
    match receipts_for (e_id ev) db with
    | [] =>
        let w0 := mkWebhook (next_id db) (e_id ev) (e_type ev) false None ev
                    None in
        finish now (e_id ev) w0
          (_handle_webhook_event_type now ev w0
             (mkDB (transactions db) (refunds db)
                   (upsert pw_id w0 (webhooks db)) (S (next_id db))))
    | [w] =>
        if processed w then (inr (AlreadyProcessed (e_id ev)), db)
        else finish now (e_id ev) w (_handle_webhook_event_type now ev w db)
    | _ => (inr (Error (exn_str MultipleObjectsReturned) (e_id ev)), db)
    end.
Proof.
  unfold process_webhook_event, get_or_create_webhook, mtry, mbind, read,
    fresh_id, PaymentWebhook_save, write_webhook, mret, mraise, objects_get,
    receipts_for, finish, set_webhooks.
  destruct (filter _ (webhooks db)) as [|w [|w' ws]]; cbn.
  - destruct (_handle_webhook_event_type _ _ _ _) as [[e|r] db']; reflexivity.
  - destruct (processed w); cbn; [reflexivity|].
    destruct (_handle_webhook_event_type _ _ _ _) as [[e|r] db']; reflexivity.
  - reflexivity.
Qed.

(** [process_webhook_event] never lets an exception through. *)
Lemma process_webhook_event_returns (now : Z) (ev : Event) (db : DB) :
  exists r, fst (process_webhook_event now ev db) = inr r.
Proof.
  rewrite process_webhook_event_eq. unfold finish.
  destruct (receipts_for _ db) as [|w [|w' ws]]; cbv zeta.
  - destruct (_handle_webhook_event_type _ _ _ _) as [[e|r] db']; cbn; eauto.
  - destruct (processed w); cbn; eauto.
    destruct (_handle_webhook_event_type _ _ _ _) as [[e|r] db']; cbn; eauto.
  - cbn. eauto.
Qed.

End HandlerFacts.
(** ** The money codec: round trips and rejection *)

Section CodecTheorems.

Ltac pow_eq_goal := solve [repeat (f_equal; try lia)].

Lemma mul100_represents (d : Decimal) (v k : Z) :
  Z.abs (coeff d) < 10 ^ prec ->
  represents d v k ->
  represents (dec_mul d (dec_of_int 100)) (v * 100) k.
Proof.
  intros Hc [Hk Hv]. unfold dec_mul, dec_of_int. cbn [coeff expo].
  apply (fix_exact _ (coeff d) 2); cbn [coeff expo];
    [lia|reflexivity|exact Hc|].
  split; cbn [coeff expo]; [lia|].
  rewrite Z.add_0_r, <- Hv. ring.
Qed.




(** What [_amount_to_cents] computes when the coefficient fits the context
    precision: the whole part of [amount * 100], cut toward zero. *)
Lemma amount_to_cents_value (A : Decimal) :
  Z.abs (coeff A) < 10 ^ prec ->
  _amount_to_cents A =
    if 0 <=? expo A + 2 then coeff A * 10 ^ (expo A + 2)
    else Z.quot (coeff A) (10 ^ (- (expo A + 2))).
Proof.
  intros Hc. unfold _amount_to_cents.
  assert (Hrep : represents (dec_mul A (dec_of_int 100)) (coeff A * 100) (expo A)).
  { apply mul100_represents; [exact Hc|].
    split; [lia|]. rewrite Z.sub_diag. apply Z.mul_1_r. }
  destruct (Z.leb_spec 0 (expo A + 2)) as [He|He].
  - destruct (Z_le_gt_dec 0 (expo A)) as [He0|He0].
    + apply (represents_to_int _ _ 0); [lia|].
      apply (represents_rescale _ _ _ 0) in Hrep; [|lia].
      destruct Hrep as [Hk Hv]. split; [exact Hk|].
      rewrite Hv. change (10 ^ (- 0)) with 1.
      rewrite Z.sub_0_r, pow10_split by lia. change (10 ^ 2) with 100. ring.
    + apply (represents_to_int _ _ (expo A)); [lia|].
      destruct Hrep as [Hk Hv]. split; [exact Hk|].
      rewrite Hv, <- Z.mul_assoc, <- pow10_split by lia.
      replace (expo A + 2 + - expo A) with 2 by lia. reflexivity.
  - pose proof (pow10_pos (- (expo A + 2)) ltac:(lia)) as Hp.
    unfold dec_to_int.
    destruct Hrep as [Hk Hv].
    set (d := dec_mul A (dec_of_int 100)) in *.
    pose proof (pow10_pos (expo d - expo A) ltac:(lia)) as Hpd.
    assert (Hc100 : coeff A * 100 = coeff d * 10 ^ (expo d - expo A)) by lia.
    assert (Hsplit : 10 ^ (- expo A) = 10 ^ (- (expo A + 2)) * 100).
    { change 100 with (10 ^ 2). rewrite <- pow10_split by lia.
      f_equal. lia. }
    destruct (Z.leb_spec 0 (expo d)) as [Hd|Hd].
    { assert (HcA : coeff A = coeff d * 10 ^ expo d * 10 ^ (- (expo A + 2))).
      { apply (Z.mul_cancel_r _ _ 100); [lia|].
        rewrite Hc100, <- (Z.mul_assoc _ _ 100), <- Hsplit.
        rewrite <- Z.mul_assoc, <- pow10_split by lia.
        pow_eq_goal. }
      rewrite HcA at 1. rewrite Z.quot_mul by lia. reflexivity. }
    assert (Hsplit' : 10 ^ (- expo A) = 10 ^ (expo d - expo A) * 10 ^ (- expo d)).
    { rewrite <- pow10_split by lia. f_equal. lia. }
    pose proof (pow10_pos (- expo d) ltac:(lia)) as Hpe.
    transitivity (Z.quot (coeff A * 100) (10 ^ (- expo A))).
    + rewrite Hc100, Hsplit', (Z.mul_comm (10 ^ (expo d - expo A))).
      rewrite Z.quot_mul_cancel_r by lia. reflexivity.
    + rewrite Hsplit. rewrite Z.quot_mul_cancel_r by lia. reflexivity.
Qed.







End CodecTheorems.
(** ** The signature verifier *)

Section VerifierTheorems.

Import Signature.

Variable hmac_sha256_hexdigest : list byte -> list byte -> string.
Variable utf8_decode : list byte -> option string.
Variable utf8_encode : string -> list byte.
Variable int_of_str : string -> option Z.

Let verify := verify_webhook_signature hmac_sha256_hexdigest utf8_decode
                utf8_encode int_of_str.
Let body_of := verify_body hmac_sha256_hexdigest utf8_decode utf8_encode
                 int_of_str.

Lemma truthy_some (s : option string) :
  truthy s = true -> exists c t, s = Some (String c t).
Proof. destruct s as [[|c t]|]; cbn; try discriminate. eauto. Qed.

Lemma py_or_secret (a b : option string) (secret : string) :
  py_or a b = Some secret -> secret <> EmptyString ->
  exists c t, py_or a b = Some (String c t) /\ secret = String c t.
Proof.
  intros H Hne. rewrite H. destruct secret as [|c t]; [congruence|eauto].
Qed.

(** What it takes for the [try] block to answer [True]. *)
Lemma verify_body_true (secret : string) (now : Z) (payload : list byte)
    (header : string) :
  body_of secret now payload header = ret true <->
  exists ts sig body webhook_time,
    well_formed_header header ts sig /\
    utf8_decode payload = Some body /\
    is_ascii sig = true /\
    sig = hmac_sha256_hexdigest (utf8_encode secret)
            (utf8_encode (ts ++ "." ++ body)) /\
    int_of_str ts = Some webhook_time /\
    Z.abs (now - webhook_time) <= 300.
Proof.
  unfold body_of, verify_body, well_formed_header, decode, to_int,
    compare_digest. split.
  - destruct (parse_items (split "," header) []) as [e|d] eqn:Hp;
      cbn [bind ret raise]; [discriminate|].
    destruct (dict_get "t" d) as [[|c1 t1]|] eqn:Ht; try discriminate.
    destruct (dict_get "v1" d) as [[|c2 t2]|] eqn:Hv; try discriminate.
    destruct (utf8_decode payload) as [body|] eqn:Hd; cbn [bind ret raise];
      [|discriminate].
    set (expected := hmac_sha256_hexdigest (utf8_encode secret) _).
    destruct (is_ascii expected && is_ascii (String c2 t2)) eqn:Ha;
      cbn [bind ret raise]; [|discriminate].
    destruct (String.eqb_spec expected (String c2 t2)) as [He|He];
      cbn [negb]; [|discriminate].
    destruct (int_of_str (String c1 t1)) as [wt|] eqn:Hi; cbn [bind ret raise];
      [|discriminate].
    destruct (Z.gtb_spec (Z.abs (now - wt)) 300) as [Hgt|Hle]; [discriminate|].
    intros _. exists (String c1 t1), (String c2 t2), body, wt.
    apply andb_true_iff in Ha as [_ Ha].
    repeat split; try assumption; try congruence.
    + exists d. repeat split; try assumption; discriminate.
    + symmetry. exact He.
  - intros (ts & sig & body & wt & (d & Hp & Ht & Hv & Hts & Hsig)
            & Hd & Ha & He & Hi & Hle).
    rewrite Hp. cbn [bind ret raise]. rewrite Ht, Hv.
    destruct ts as [|c1 t1]; [congruence|].
    destruct sig as [|c2 t2]; [congruence|].
    rewrite Hd. cbn [bind ret raise]. rewrite <- He, Ha. cbn [andb bind ret raise].
    rewrite String.eqb_refl. cbn [negb]. rewrite Hi. cbn [bind ret raise].
    destruct (Z.gtb_spec (Z.abs (now - wt)) 300); [lia|reflexivity].
Qed.

(** C5.  With a webhook secret configured, [verify_webhook_signature] always
    returns a boolean and never raises, and it returns [True] exactly when
    the header parses into non-empty [t] and [v1] values, the [v1] digest
    equals HMAC-SHA256(secret, "<t>.<raw body>") (compared by
    [hmac.compare_digest]) and [t] lies within 300 seconds of the current
    time.  So a malformed header, a digest mismatch or a timestamp more than
    300 seconds away each give [False]. *)
Theorem verify_webhook_signature_rejects (settings : Settings)
    (secret : string) (now : Z) (payload : list byte) (header : string) :
  py_or (STRIPE_WEBHOOK_ENDPOINT_SECRET settings)
        (STRIPE_WEBHOOK_SECRET settings) = Some secret ->
  secret <> EmptyString ->
  (exists b, verify settings now payload header = ret b) /\
  (verify settings now payload header = ret true <->
   exists ts sig body webhook_time,
     well_formed_header header ts sig /\
     utf8_decode payload = Some body /\
     is_ascii sig = true /\
     sig = hmac_sha256_hexdigest (utf8_encode secret)
             (utf8_encode (ts ++ "." ++ body)) /\
     int_of_str ts = Some webhook_time /\
     Z.abs (now - webhook_time) <= 300).
Proof.
  intros Hs Hne.
  destruct (py_or_secret _ _ _ Hs Hne) as (c & t & Hor & ->).
  unfold verify, verify_webhook_signature. rewrite Hor.
  rewrite <- verify_body_true. fold body_of.
  destruct (body_of (String c t) now payload header) as [e|b] eqn:Hb;
    cbn [try_except].
  - split; [exists false; reflexivity|]. split; discriminate.
  - split; [exists b; reflexivity|]. reflexivity.
Qed.

(** C4 (as amended).  When neither [STRIPE_WEBHOOK_ENDPOINT_SECRET] nor
    [STRIPE_WEBHOOK_SECRET] is set, [verify_webhook_signature] accepts every
    payload with every header, whatever the other settings are: no flag is
    consulted, [DEBUG] included. *)
Theorem verify_without_secret_accepts_all (settings : Settings) (now : Z)
    (payload : list byte) (header : string) :
  truthy (STRIPE_WEBHOOK_ENDPOINT_SECRET settings) = false ->
  truthy (STRIPE_WEBHOOK_SECRET settings) = false ->
  verify settings now payload header = ret true.
Proof.
  intros H1 H2. unfold verify, verify_webhook_signature, py_or.
  rewrite H1.
  destruct (STRIPE_WEBHOOK_SECRET settings) as [[|c t]|];
    [reflexivity|discriminate|reflexivity].
Qed.

End VerifierTheorems.

Lemma verify_webhook_signature_rejects_witness :
  exists b,
    Signature.verify_webhook_signature Examples.demo_hmac Examples.demo_decode Examples.demo_encode
      Examples.demo_int (Signature.mkSettings None (Some "whsec_1"%string) false) 2000
      [] "t=1000,v1=5f2b" = ret b.
Proof.
  apply (verify_webhook_signature_rejects Examples.demo_hmac Examples.demo_decode Examples.demo_encode
           Examples.demo_int (Signature.mkSettings None (Some "whsec_1"%string) false)
           "whsec_1" 2000 [] "t=1000,v1=5f2b");
    [reflexivity|discriminate].
Defined.

Lemma verify_without_secret_accepts_all_witness :
  Signature.verify_webhook_signature Examples.demo_hmac Examples.demo_decode Examples.demo_encode
    Examples.demo_int (Signature.mkSettings None (Some EmptyString) true) 2000
    [] "no signature at all" = ret true.
Proof.
  apply (verify_without_secret_accepts_all Examples.demo_hmac Examples.demo_decode Examples.demo_encode
           Examples.demo_int (Signature.mkSettings None (Some EmptyString) true));
    reflexivity.
Defined.

(** C4, counterexample: a configuration that merely omits the secret and has
    [DEBUG = False] accepts a forged header, and the endpoint then applies
    the event to the ledger and answers 200. *)
Lemma production_settings_without_secret_accept_forgery :
  let settings := Signature.mkSettings None None false in
  let posted :=
    Ledger.StripeWebhookView_post Examples.demo_hmac Examples.demo_decode
      Examples.demo_encode Examples.demo_int
      (fun _ => Some (Examples.raw_of Examples.ev_intent_succeeded))
      settings 2000 (list_byte_of_string "{}") "t=1,v1=forged"
      Examples.db_pending in
  Signature.DEBUG settings = false /\
  Signature.verify_webhook_signature Examples.demo_hmac Examples.demo_decode
    Examples.demo_encode Examples.demo_int settings 2000 [] "t=1,v1=forged"
  = ret true /\
  option_map Ledger.status_code
    (match fst posted with inr resp => Some resp | inl _ => None end)
  = Some 200 /\
  map Ledger.pt_status (Ledger.transactions (snd posted))
  = ["succeeded"%string].
Proof. repeat split; reflexivity. Qed.
(** ** The ledger on concrete events *)

Section LedgerExamples.

Import Ledger Examples.


(** C3, counterexample: the second delivery of an event does not return the
    outcome of the first one, it returns [already_processed]. *)
Lemma redelivery_returns_already_processed :
  let first := process_webhook_event 200 ev_intent_succeeded db_pending in
  let second := process_webhook_event 260 ev_intent_succeeded (snd first) in
  fst first = ret (ProcessedIntent "payment_intent.succeeded"
                     (Some "pi_1"%string) "pending" (Some "succeeded"%string) 1) /\
  fst second = ret (AlreadyProcessed "evt_ok") /\
  fst second <> fst first.
Proof. repeat split; try reflexivity. cbn. discriminate. Qed.



(** C9, the defect.  A [refund.created] event for a refund without a reason
    makes the handler raise.  The dispatcher catches the exception and
    answers with an error outcome, the receipt stays unprocessed, a
    redelivery runs the handler again and the endpoint answers 500; but the
    message never reaches the receipt: [processing_error] is still empty. *)
Theorem handler_error_is_not_recorded_on_the_receipt :
  let first := process_webhook_event 200 ev_refund_no_reason db_paid in
  let second := process_webhook_event 260 ev_refund_no_reason (snd first) in
  fst first = ret (Error "NOT NULL constraint failed" "evt_r0") /\
  map (fun w => (stripe_event_id w, processed w, processing_error w))
      (webhooks (snd first)) = [("evt_r0"%string, false, None)] /\
  ledger (snd first) = ledger db_paid /\
  fst second = ret (Error "NOT NULL constraint failed" "evt_r0") /\
  map (fun w => (stripe_event_id w, processed w, processing_error w))
      (webhooks (snd second)) = [("evt_r0"%string, false, None)] /\
  option_map status_code
    (match fst (StripeWebhookView_post demo_hmac demo_decode demo_encode
                  demo_int (fun _ => Some (raw_of ev_refund_no_reason))
                  (Signature.mkSettings None None true) 200
                  (list_byte_of_string "{}") EmptyString db_paid)
     with inr resp => Some resp | inl _ => None end) = Some 500.
Proof. repeat split; reflexivity. Qed.

End LedgerExamples.
(** ** Redelivery of webhook events *)

Section Idempotency.

Import Ledger LedgerSpec.

Variable ev : Event.

Let id := e_id ev.

(** What the receipts table satisfies between deliveries. *)
Let receipts_inv (db : DB) : Prop :=
  receipts_ok db /\ (List.length (receipts_for id db) <= 1)%nat.

Lemma receipt_in_table (w : PaymentWebhook) (db : DB) :
  In w (receipts_for id db) ->
  In w (webhooks db) /\ String.eqb (stripe_event_id w) id = true.
Proof. unfold receipts_for. apply filter_In. Qed.

(** A delivery to a database whose receipt is already processed. *)
Lemma processed_short_circuits (now : Z) (w : PaymentWebhook) (db : DB) :
  receipts_for id db = [w] -> processed w = true ->
  process_webhook_event now ev db = (inr (AlreadyProcessed id), db).
Proof.
  intros Hr Hp. rewrite process_webhook_event_eq. fold id.
  rewrite Hr, Hp. reflexivity.
Qed.

(** The receipt written at the end of a delivery. *)
Lemma finish_receipts (now : Z) (w w' : PaymentWebhook) (db db3 : DB) :
  NoDup (map pw_id (webhooks db3)) ->
  Forall (fun x => (pw_id x < next_id db3)%nat) (webhooks db3) ->
  In w (webhooks db3) -> pw_id w' = pw_id w ->
  stripe_event_id w' = stripe_event_id w ->
  String.eqb (stripe_event_id w) id = true ->
  let db4 := set_webhooks (upsert pw_id w' (webhooks db3)) db3 in
  receipts_ok db4 /\
  List.length (receipts_for id db4) = List.length (receipts_for id db3) /\
  In w' (receipts_for id db4).
Proof.
  intros Hnd Hlt Hin Hpk Hid Hm db4. unfold receipts_ok, receipts_for.
  cbn [webhooks next_id db4 set_webhooks].
  split; [split|split].
  - apply upsert_NoDup. exact Hnd.
  - apply upsert_Forall; [exact Hlt|].
    rewrite Hpk. rewrite Forall_forall in Hlt. auto.
  - apply (upsert_filter_length pw_id _ w w'); auto. congruence.
  - apply filter_In. split; [apply upsert_In_new|congruence].
Qed.

(** One delivery keeps a single receipt for the event, and either leaves
    the ledger as it was or leaves the receipt processed. *)
Lemma delivery_step (now : Z) (db : DB) :
  receipts_inv db ->
  let db' := snd (process_webhook_event now ev db) in
  receipts_inv db' /\
  List.length (receipts_for id db') = 1%nat /\
  (ledger db' = ledger db \/
   exists w, In w (receipts_for id db') /\ processed w = true).
Proof.
  intros [[Hnd Hlt] Hlen]. cbv zeta.
  rewrite process_webhook_event_eq. fold id.
  destruct (receipts_for id db) as [|w [|w2 ws]] eqn:Hr.
  - (* first sight of the event: a receipt is created *)
    cbv zeta.
    set (w0 := mkWebhook (next_id db) id (e_type ev) false None ev None).
    assert (Hfresh : ~ In (pw_id w0) (map pw_id (webhooks db))).
    { intros Hin. apply in_map_iff in Hin as (x & Hx & Hin).
      rewrite Forall_forall in Hlt. specialize (Hlt _ Hin).
      cbn in Hx. lia. }
    set (db2 := mkDB _ _ (upsert pw_id w0 (webhooks db)) _).
    destruct (dispatch_frame now ev w0 db2) as (Hw & Hn & Herr).
    destruct (_handle_webhook_event_type now ev w0 db2) as [res db3].
    cbn [fst snd] in Hw, Hn, Herr.
    assert (Hnd3 : NoDup (map pw_id (webhooks db3))).
    { rewrite Hw. apply upsert_NoDup. exact Hnd. }
    assert (Hlt3 : Forall (fun x => (pw_id x < next_id db3)%nat) (webhooks db3)).
    { rewrite Hw. apply upsert_Forall.
      - eapply Forall_impl; [|exact Hlt]. cbn. intros x Hx.
        cbn [next_id db2] in Hn. lia.
      - cbn [next_id db2 pw_id w0] in *. lia. }
    assert (Hin3 : In w0 (webhooks db3))
      by (rewrite Hw; apply upsert_In_new).
    assert (Hlen3 : List.length (receipts_for id db3) = 1%nat).
    { unfold receipts_for. rewrite Hw. cbn [webhooks db2].
      rewrite upsert_filter_fresh by exact Hfresh.
      fold (receipts_for id db). rewrite Hr. cbn [stripe_event_id w0].
      rewrite String.eqb_refl. reflexivity. }
    assert (Hm : String.eqb (stripe_event_id w0) id = true)
      by apply String.eqb_refl.
    unfold finish. destruct res as [e|r]; cbn [snd].
    + destruct (finish_receipts now w0 w0 db db3 Hnd3 Hlt3 Hin3 eq_refl eq_refl Hm)
        as (Hok & Hl & _).
      repeat split; try apply Hok; try lia.
      left. exact (Herr e eq_refl).
    + destruct (finish_receipts now w0 (webhook_with_processed true (Some now) w0)
                  db db3 Hnd3 Hlt3 Hin3 eq_refl eq_refl Hm) as (Hok & Hl & Hin).
      repeat split; try apply Hok; try lia.
      right. eexists. split; [exact Hin|reflexivity].
  - (* a receipt exists *)
    assert (Hw : In w (receipts_for id db)) by (rewrite Hr; left; reflexivity).
    destruct (receipt_in_table _ _ Hw) as [Hin Hm].
    destruct (processed w) eqn:Hp; cbn [snd].
    + repeat split; try assumption; try (rewrite Hr; cbn; lia).
      right. exists w. rewrite Hr. split; [left; reflexivity|exact Hp].
    + destruct (dispatch_frame now ev w db) as (Hwh & Hn & Herr).
      destruct (_handle_webhook_event_type now ev w db) as [res db3].
      cbn [fst snd] in Hwh, Hn, Herr.
      assert (Hnd3 : NoDup (map pw_id (webhooks db3))) by (rewrite Hwh; exact Hnd).
      assert (Hlt3 : Forall (fun x => (pw_id x < next_id db3)%nat)
                            (webhooks db3)).
      { rewrite Hwh. eapply Forall_impl; [|exact Hlt]. cbn. intros. lia. }
      assert (Hin3 : In w (webhooks db3)) by (rewrite Hwh; exact Hin).
      assert (Hlen3 : List.length (receipts_for id db3) = 1%nat)
        by (unfold receipts_for; rewrite Hwh; fold (receipts_for id db);
            rewrite Hr; reflexivity).
      unfold finish. destruct res as [e|r]; cbn [snd].
      * destruct (finish_receipts now w w db db3 Hnd3 Hlt3 Hin3 eq_refl eq_refl Hm)
          as (Hok & Hl & _).
        repeat split; try apply Hok; try lia.
        left. exact (Herr e eq_refl).
      * destruct (finish_receipts now w (webhook_with_processed true (Some now) w)
                    db db3 Hnd3 Hlt3 Hin3 eq_refl eq_refl Hm) as (Hok & Hl & Hi).
        repeat split; try apply Hok; try lia.
        right. eexists. split; [exact Hi|reflexivity].
  - cbn in Hlen. lia.
Qed.

(** The dispatcher never writes [processing_error]: if no receipt carries
    an error message before a delivery, none does after it, whatever the
    handler did. *)
Lemma delivery_records_no_error (now : Z) (db : DB) :
  Forall (fun w => processing_error w = None) (webhooks db) ->
  Forall (fun w => processing_error w = None)
         (webhooks (snd (process_webhook_event now ev db))).
Proof.
  intros Hnone. rewrite process_webhook_event_eq. fold id.
  assert (Hfin : forall w h,
            Forall (fun x => processing_error x = None) (webhooks (snd h)) ->
            processing_error w = None ->
            Forall (fun x => processing_error x = None)
                   (webhooks (snd (finish now id w h)))).
  { intros w [[e|r] d] Hd Hw; cbn [finish snd webhooks set_webhooks];
      apply upsert_Forall; assumption. }
  destruct (receipts_for id db) as [|w [|w2 ws]] eqn:Hr; cbv zeta.
  - apply Hfin; [|reflexivity].
    match goal with
    | |- context [_handle_webhook_event_type ?n ?e ?w ?d] =>
        destruct (dispatch_frame n e w d) as (Hw & _); rewrite Hw
    end.
    cbn [webhooks]. apply upsert_Forall; [exact Hnone|reflexivity].
  - assert (Hin : In w (webhooks db)).
    { apply (receipt_in_table w db). rewrite Hr. left. reflexivity. }
    assert (Hw0 : processing_error w = None)
      by (rewrite Forall_forall in Hnone; auto).
    destruct (processed w); [exact Hnone|].
    apply Hfin; [|exact Hw0].
    destruct (dispatch_frame now ev w db) as (Hw & _). rewrite Hw. exact Hnone.
  - exact Hnone.
Qed.

Lemma last_default {A} (l : list A) (d1 d2 : A) :
  l <> [] -> last l d1 = last l d2.
Proof.
  induction l as [|a [|b l] IH]; [congruence|reflexivity|].
  intros _. cbn [last] in *. apply IH. discriminate.
Qed.

Lemma final_db_cons (db : DB) (d : delivery) (trace : list delivery) :
  final_db db (d :: trace) = final_db (after d) trace.
Proof.
  unfold final_db. destruct trace as [|d' trace]; [reflexivity|].
  cbn [map]. change (last (after d :: after d' :: map after trace) db)
    with (last (after d' :: map after trace) db).
  apply last_default. discriminate.
Qed.

Lemma deliveries_cons (now : Z) (rest : list Z) (db : DB) :
  deliveries ev (now :: rest) db =
    mkDelivery db (fst (process_webhook_event now ev db))
               (snd (process_webhook_event now ev db))
    :: deliveries ev rest (snd (process_webhook_event now ev db)).
Proof.
  cbn [deliveries]. destruct (process_webhook_event now ev db). reflexivity.
Qed.

(** Once the receipt is processed, deliveries change nothing. *)
Lemma processed_stays (nows : list Z) (w : PaymentWebhook) (db : DB) :
  receipts_for id db = [w] -> processed w = true ->
  Forall (short_circuit id) (deliveries ev nows db) /\
  final_db db (deliveries ev nows db) = db.
Proof.
  intros Hr Hp. induction nows as [|now rest IH]; [split; [constructor|reflexivity]|].
  rewrite deliveries_cons, final_db_cons.
  rewrite (processed_short_circuits now w db Hr Hp). cbn [fst snd after].
  destruct IH as [IH1 IH2]. split; [|exact IH2].
  constructor; [split; reflexivity|exact IH1].
Qed.

Lemma deliveries_spec (nows : list Z) :
  forall db, receipts_inv db ->
    let trace := deliveries ev nows db in
    receipts_inv (final_db db trace) /\
    (nows <> [] -> List.length (receipts_for id (final_db db trace)) = 1%nat) /\
    Forall (fun d => exists r, answer d = ret r) trace /\
    Forall (fun d =>
              (exists w, In w (receipts_for id (before d)) /\ processed w = true) ->
              short_circuit id d) trace /\
    exists k, Forall ledger_untouched (firstn k trace) /\
              Forall (short_circuit id) (skipn (S k) trace).
Proof.
  induction nows as [|now rest IH]; intros db Hinv; cbv zeta.
  - cbn. split; [exact Hinv|]. split; [congruence|].
    split; [constructor|]. split; [constructor|].
    exists 0%nat. split; constructor.
  - rewrite deliveries_cons, final_db_cons. cbn [after].
    destruct (delivery_step now db Hinv) as (Hinv' & Hlen' & Hdisj).
    set (db' := snd (process_webhook_event now ev db)) in *.
    destruct (IH db' Hinv') as (I1 & I2 & I3 & I4 & k & I5 & I6).
    split; [exact I1|]. split; [|split; [|split]].
    + intros _. destruct rest as [|now' rest']; [exact Hlen'|].
      apply I2. discriminate.
    + constructor; [apply process_webhook_event_returns|exact I3].
    + constructor; [|exact I4]. cbn [before]. intros (w & Hw & Hp).
      assert (Hr : receipts_for id db = [w]).
      { destruct Hinv as [_ Hle].
        destruct (receipts_for id db) as [|a [|b l]]; cbn in Hw, Hle;
          [contradiction| |lia].
        destruct Hw as [->|[]]. reflexivity. }
      unfold short_circuit, db'. cbn [after before answer].
      rewrite (processed_short_circuits now w db Hr Hp). split; reflexivity.
    + destruct Hdisj as [Hsame|(w & Hw & Hp)].
      * exists (S k). cbn [firstn skipn]. split; [|exact I6].
        constructor; [exact Hsame|exact I5].
      * exists 0%nat. cbn [firstn skipn]. split; [constructor|].
        apply (processed_stays rest w db'); [|exact Hp].
        apply singleton_of_length; assumption.
Qed.

(** C3 (as amended).  Deliver the same event any number of times, at least
    once, to a database that holds at most one receipt for its id.  Then one
    receipt exists for the id; every delivery returns an outcome; a delivery
    that finds the receipt processed changes nothing in the database and
    returns [already_processed] (not the outcome of the first processing);
    and at most one delivery changes the ledger: the deliveries before it
    leave the ledger as it was, those after it are such short circuits. *)
Theorem redelivery_is_idempotent (nows : list Z) (db : DB) :
  receipts_ok db ->
  (List.length (receipts_for (e_id ev) db) <= 1)%nat ->
  nows <> [] ->
  let trace := deliveries ev nows db in
  List.length (receipts_for (e_id ev) (final_db db trace)) = 1%nat /\
  Forall (fun d => exists r, answer d = ret r) trace /\
  Forall (fun d =>
            (exists w, In w (receipts_for (e_id ev) (before d)) /\
                       processed w = true) ->
            short_circuit (e_id ev) d) trace /\
  exists k, Forall ledger_untouched (firstn k trace) /\
            Forall (short_circuit (e_id ev)) (skipn (S k) trace).
Proof.
  intros Hok Hlen Hne.
  destruct (deliveries_spec nows db (conj Hok Hlen)) as (_ & H2 & H3 & H4 & H5).
  repeat split; auto.
Qed.

End Idempotency.

Lemma redelivery_is_idempotent_witness :
  let trace :=
    LedgerSpec.deliveries Examples.ev_intent_succeeded [200; 260; 900]
      Examples.db_pending in
  List.length (LedgerSpec.receipts_for "evt_ok"
                 (LedgerSpec.final_db Examples.db_pending trace)) = 1%nat.
Proof.
  apply (redelivery_is_idempotent Examples.ev_intent_succeeded [200; 260; 900]
           Examples.db_pending).
  - split; constructor.
  - cbn. lia.
  - discriminate.
Defined.
(** ** The status column of payment transactions *)

Section StatusDomain.

Import Ledger LedgerSpec.

Ltac break_inner :=
  match goal with
  | |- context [match ?x with _ => _ end] =>
      lazymatch x with
      | context [match _ with _ => _ end] => fail
      | _ => destruct x eqn:?
      end
  end.

Lemma transaction_save_statuses (now : Z) (t : PaymentTransaction) (db : DB) :
  statuses_valid db -> valid_status (pt_status t) = true ->
  statuses_valid (snd (PaymentTransaction_save now t db)).
Proof.
  intros Hdb Ht. rewrite PaymentTransaction_save_eq. cbv zeta.
  destruct (transaction_clash _ db); cbn [snd]; [exact Hdb|].
  unfold statuses_valid. cbn [transactions set_transactions].
  apply upsert_Forall; [exact Hdb|].
  destruct (stamped_transaction_fields now t db) as (_ & -> & _). exact Ht.
Qed.

Lemma objects_get_In {R} (f : R -> bool) (rows : list R) (r : R) :
  objects_get f rows = inr r -> In r rows /\ f r = true.
Proof.
  unfold objects_get. destruct (filter f rows) as [|a [|b l]] eqn:E;
    try discriminate.
  intros [= <-]. apply filter_In. rewrite E. left. reflexivity.
Qed.

Lemma stored_status_valid (f : PaymentTransaction -> bool) (db : DB)
    (t : PaymentTransaction) :
  statuses_valid db -> objects_get f (transactions db) = inr t ->
  valid_status (pt_status t) = true.
Proof.
  intros Hdb Hg. apply objects_get_In in Hg as [Hin _].
  unfold statuses_valid in Hdb. rewrite Forall_forall in Hdb. auto.
Qed.

Ltac use_save :=
  match goal with
  | Hdb : statuses_valid ?d,
    H : PaymentTransaction_save ?n ?t ?d = (_, ?d') |- statuses_valid ?d' =>
      let Hs := fresh "Hs" in
      assert (Hs : statuses_valid (snd (PaymentTransaction_save n t d)));
      [apply transaction_save_statuses; [exact Hdb|cbn [pt_status with_status
         with_processed_at with_failure with_stripe_status with_transaction]]
      |rewrite H in Hs; exact Hs]
  end.

Lemma intent_handler_statuses (now : Z) (event_type : string)
    (payment_intent : StripeObject) (db : DB) :
  statuses_valid db ->
  (event_type <> "payment_intent.canceled"%string ->
   forall s, o_status payment_intent = Val s -> valid_status s = true) ->
  statuses_valid
    (snd (_handle_payment_intent_webhook now event_type payment_intent db)).
Proof.
  intros Hdb Hev. unfold _handle_payment_intent_webhook.
  unfold mbind, lift, read, mret, mraise, expect.
  repeat (break_inner; cbn [fst snd ret raise]); try exact Hdb.
  all: repeat match goal with
       | H : (_, _) = (_, _) |- _ => inversion H; subst; clear H
       | H : inr _ = inr _ |- _ => inversion H; subst; clear H
       end.
  all: try use_save; try reflexivity.
  all: try (unfold get in *; destruct (o_status payment_intent) eqn:Hst;
            try discriminate;
            match goal with
            | H : Some _ = Some _ |- _ => inversion H; subst; clear H
            end;
            apply (Hev ltac:(first
                     [ intros ->; discriminate
                     | apply String.eqb_neq; assumption ]) _ eq_refl)).
Qed.

Lemma charge_handler_statuses (now : Z) (event_type : string)
    (charge : StripeObject) (db : DB) :
  statuses_valid db ->
  statuses_valid (snd (_handle_charge_webhook now event_type charge db)).
Proof.
  intros Hdb. unfold _handle_charge_webhook.
  unfold mbind, lift, read, mret, mraise, expect.
  repeat (break_inner; cbn [fst snd ret raise]); try exact Hdb.
  all: try use_save; try reflexivity.
  all: eapply stored_status_valid; eassumption.
Qed.

Lemma refund_handler_transactions (now : Z) (event_type : string)
    (refund : StripeObject) (db : DB) :
  transactions (snd (_handle_refund_webhook now event_type refund db))
  = transactions db.
Proof.
  unfold _handle_refund_webhook.
  unfold mbind, lift, read, mret, mraise, expect, fresh_id.
  repeat (break_inner; cbn [fst snd ret raise]); try reflexivity.
  all: repeat match goal with
       | H : PaymentRefund_save ?n ?t ?d = _ |- _ =>
           let Hf := fresh "Hf" in
           pose proof (refund_save_frame n t d) as Hf;
           cbv zeta in Hf; rewrite H in Hf; cbn [fst snd] in Hf;
           destruct Hf as (_ & _ & ? & _); clear H
       end.
  all: cbn [transactions] in *; congruence.
Qed.

Lemma dispatch_statuses (now : Z) (ev : Event) (w : PaymentWebhook) (db : DB) :
  statuses_valid db -> event_status_valid ev ->
  statuses_valid (snd (_handle_webhook_event_type now ev w db)).
Proof.
  intros Hdb Hev. unfold _handle_webhook_event_type.
  destruct (startswith _ "payment_intent.") eqn:Hpi.
  { apply intent_handler_statuses; [exact Hdb|]. intros Hne. apply Hev; assumption. }
  destruct (startswith _ "charge."); [apply charge_handler_statuses; exact Hdb|].
  destruct (startswith _ "refund.").
  { unfold statuses_valid. rewrite refund_handler_transactions. exact Hdb. }
  destruct (startswith _ "terminal."); exact Hdb.
Qed.

Lemma process_statuses (now : Z) (ev : Event) (db : DB) :
  statuses_valid db -> event_status_valid ev ->
  statuses_valid (snd (process_webhook_event now ev db)).
Proof.
  intros Hdb Hev. rewrite process_webhook_event_eq.
  assert (Hfin : forall w h, statuses_valid (snd h) ->
            statuses_valid (snd (finish now (e_id ev) w h))).
  { intros w [[e|r] d] H; exact H. }
  destruct (receipts_for _ db) as [|w [|w' ws]]; cbv zeta.
  - apply Hfin. apply dispatch_statuses; [exact Hdb|exact Hev].
  - destruct (processed w); [exact Hdb|].
    apply Hfin. apply dispatch_statuses; [exact Hdb|exact Hev].
  - exact Hdb.
Qed.

Lemma map_stripe_status_valid (s : string) :
  In s STRIPE_INTENT_STATUSES -> valid_status (_map_stripe_status s) = true.
Proof.
  cbn. intros H.
  repeat (destruct H as [<-|H]; [reflexivity|]). contradiction.
Qed.


End StatusDomain.

(** ** Status transitions driven by webhooks *)

Section StatusOverwrite.

Import Ledger LedgerSpec.

Lemma no_clash_when_unique (t t' : PaymentTransaction) (pid : string) (db : DB) :
  filter (fun x => opt_eqb (stripe_payment_intent_id x) (Some pid))
         (transactions db) = [t] ->
  pt_id t' = pt_id t -> stripe_payment_intent_id t' = Some pid ->
  transaction_clash t' db = false.
Proof.
  intros Hf Hid Hpid. unfold transaction_clash. rewrite Hpid, Hid.
  apply not_true_is_false. intros Hex.
  apply existsb_exists in Hex as (x & Hin & Hx).
  apply andb_true_iff in Hx as [Hne Heq].
  assert (Hx : In x [t]).
  { rewrite <- Hf. apply filter_In. split; assumption. }
  destruct Hx as [<-|[]]. rewrite Nat.eqb_refl in Hne. discriminate.
Qed.

(** What the [payment_intent.*] handler does to the transaction of the
    PaymentIntent an event names. *)
Lemma intent_handler_overwrites (now : Z) (event_type : string)
    (payment_intent : StripeObject) (db : DB) (t : PaymentTransaction)
    (pid s : string) :
  o_id payment_intent = Val pid -> o_status payment_intent = Val s ->
  o_amount payment_intent <> Null -> o_currency payment_intent <> Null ->
  (event_type = "payment_intent.payment_failed"%string ->
   o_last_payment_error payment_intent <> Null) ->
  filter (fun x => opt_eqb (stripe_payment_intent_id x) (Some pid))
         (transactions db) = [t] ->
  exists t',
    _handle_payment_intent_webhook now event_type payment_intent db =
      (inr (ProcessedIntent event_type (Some pid) (pt_status t) (Some s)
              (pt_id t)),
       set_transactions (upsert pt_id t' (transactions db)) db) /\
    pt_id t' = pt_id t /\
    pt_status t' =
      (if String.eqb event_type "payment_intent.canceled" then "canceled"
       else s)%string.
Proof.
  intros Hid Hst Ham Hcu Hlpe Hf.
  assert (Hget : objects_get
                   (fun x => opt_eqb (stripe_payment_intent_id x) (Some pid))
                   (transactions db) = inr t)
    by (unfold objects_get; rewrite Hf; reflexivity).
  assert (Hpid : stripe_payment_intent_id t = Some pid).
  { assert (Hin : In t [t]) by (left; reflexivity).
    rewrite <- Hf in Hin. apply filter_In in Hin as [_ Hin].
    destruct (stripe_payment_intent_id t) as [p|]; [|discriminate].
    cbn in Hin. apply String.eqb_eq in Hin. congruence. }
  unfold _handle_payment_intent_webhook, mbind, lift, read, mret, mraise,
    expect.
  rewrite Hid, Hst. cbn [get].
  destruct (o_amount payment_intent) as [| |a]; [|congruence|].
  all: destruct (o_currency payment_intent) as [| |c]; [|congruence|].
  all: cbn [get_or]; rewrite Hget.
  all: destruct (String.eqb event_type "payment_intent.succeeded") eqn:E1.
  all: destruct (String.eqb_spec event_type "payment_intent.payment_failed")
         as [E2|E2].
  all: destruct (String.eqb event_type "payment_intent.canceled") eqn:E3.
  all: destruct (o_last_payment_error payment_intent) as [| |err] eqn:El.
  all: try (exfalso; exact (Hlpe E2 eq_refl)).
  all: try (exfalso; apply String.eqb_eq in E1; subst event_type;
            (discriminate E2 || (cbn in E3; discriminate E3))).
  all: try (exfalso; subst event_type; cbn in E3; discriminate E3).
  all: try rewrite E3.
  all: cbn [ret raise].
  all: rewrite PaymentTransaction_save_eq; cbv zeta.
  all: match goal with
       | |- context [transaction_clash (stamped_transaction ?n ?x ?d) ?d] =>
           destruct (stamped_transaction_fields n x d) as (F1 & F2 & _ & F4);
           cbn [pt_id pt_status stripe_payment_intent_id with_status
                with_processed_at with_failure with_stripe_status] in F1, F2, F4;
           rewrite (no_clash_when_unique t (stamped_transaction n x d) pid d Hf)
             by congruence;
           exists (stamped_transaction n x d)
       end.
  all: split; [reflexivity|split; [exact F1|exact F2]].
Qed.


End StatusOverwrite.

(** ** The refund-sum invariant *)

Section RefundSum.

Import Ledger LedgerSpec.

Lemma sum_amounts_app (l1 l2 : list PaymentRefund) :
  sum_amounts (l1 ++ l2) = sum_amounts l1 + sum_amounts l2.
Proof.
  unfold sum_amounts. induction l1 as [|r l1 IH]; cbn; [reflexivity|].
  rewrite IH. ring.
Qed.

Lemma sum_amounts_nonneg (l : list PaymentRefund) :
  Forall (fun r => 0 <= pr_amount r) l -> 0 <= sum_amounts l.
Proof. unfold sum_amounts. induction 1; cbn; lia. Qed.

(** A narrower filter gives a smaller sum when no amount is negative. *)
Lemma sum_filter_narrow (f g : PaymentRefund -> bool) (rows : list PaymentRefund) :
  Forall (fun r => 0 <= pr_amount r) rows ->
  sum_amounts (filter (fun r => f r && g r) rows) <= sum_amounts (filter f rows).
Proof.
  unfold sum_amounts. induction 1 as [|r rows Hr _ IH]; cbn; [lia|].
  destruct (f r), (g r); cbn; lia.
Qed.

(** The sum a filter sees after [new] has been written: the other rows it
    keeps, and [new] if it keeps it. *)
Lemma sum_filter_upsert (f : PaymentRefund -> bool) (new : PaymentRefund)
    (rows : list PaymentRefund) :
  NoDup (map pr_id rows) ->
  sum_amounts (filter f (upsert pr_id new rows)) =
    sum_amounts (filter (fun r => f r && negb (Nat.eqb (pr_id r) (pr_id new)))
                        rows)
    + (if f new then pr_amount new else 0).
Proof.
  intros Hnd. unfold upsert.
  assert (Hgen : sum_amounts
            (filter f (map (fun r => if Nat.eqb (pr_id r) (pr_id new)
                                     then new else r) rows)) =
          sum_amounts
            (filter (fun r => f r && negb (Nat.eqb (pr_id r) (pr_id new))) rows)
          + (if existsb (fun r => Nat.eqb (pr_id r) (pr_id new)) rows
             then if f new then pr_amount new else 0 else 0)).
  { induction rows as [|r rows IH]; [reflexivity|].
    inversion Hnd as [|? ? Hnotin Hnd']; subst. specialize (IH Hnd').
    cbn [map filter existsb].
    destruct (Nat.eqb_spec (pr_id r) (pr_id new)) as [E|NE].
    - assert (Hex : existsb (fun x => Nat.eqb (pr_id x) (pr_id new)) rows = false).
      { apply existsb_pk_false. rewrite <- E. exact Hnotin. }
      rewrite Hex in IH. rewrite andb_false_r. cbn [orb negb].
      destruct (f new); unfold sum_amounts in *; cbn [fold_right] in *; lia.
    - rewrite andb_true_r. cbn [orb negb].
      destruct (f r); unfold sum_amounts in *; cbn [fold_right] in *; lia. }
  destruct (existsb _ rows) eqn:Hex; [exact Hgen|].
  rewrite filter_app, sum_amounts_app. f_equal.
  - f_equal. apply filter_ext_in. intros r Hr.
    apply existsb_pk_false in Hex.
    destruct (Nat.eqb_spec (pr_id r) (pr_id new)) as [E|NE];
      [|rewrite andb_true_r; reflexivity].
    exfalso. apply Hex. rewrite <- E. apply in_map. exact Hr.
  - cbn [filter]. destruct (f new); cbn; lia.
Qed.

Lemma objects_get_unique {R} (f : R -> bool) (rows : list R) (r x : R) :
  objects_get f rows = inr r -> In x rows -> f x = true -> x = r.
Proof.
  unfold objects_get. destruct (filter f rows) as [|a [|b l]] eqn:E;
    try discriminate.
  intros [= <-] Hin Hf.
  assert (H : In x (filter f rows)) by (apply filter_In; split; assumption).
  rewrite E in H. destruct H as [<-|[]]. reflexivity.
Qed.

Lemma validated_refund_save_eq (now : Z) (self : PaymentRefund) (db : DB) :
  validated_refund_save now self db =
    match PaymentRefund_full_clean db self with
    | inl e => (inl e, db)
    | inr _ =>
        match refund_to_write now self db with
        | inl e => (inl e, db)
        | inr r' => (inr tt, set_refunds (upsert pr_id r' (refunds db)) db)
        end
    end.
Proof.
  unfold validated_refund_save, mbind, read, lift.
  destruct (PaymentRefund_full_clean db self); [reflexivity|].
  apply PaymentRefund_save_eq.
Qed.

(** What [full_clean()] has checked when it passes. *)
Lemma full_clean_passed (db : DB) (self : PaymentRefund) (u : unit) :
  PaymentRefund_full_clean db self = inr u ->
  exists parent p,
    payment_transaction self = Some parent /\
    objects_get (fun t => Nat.eqb (pt_id t) parent) (transactions db) = inr p /\
    1 <= pr_amount self /\
    sum_amounts (existing_refunds db parent (pr_id self)) + pr_amount self
      <= pt_amount p.
Proof.
  unfold PaymentRefund_full_clean, PaymentRefund_clean.
  destruct (payment_transaction self) as [parent|]; [|discriminate].
  destruct (objects_get _ (transactions db)) as [e|p] eqn:Hp; [discriminate|].
  destruct (Z.eqb_spec (pr_amount self) 0) as [E0|NE0].
  - cbn. destruct (Z.ltb_spec (pr_amount self) 1); [discriminate|lia].
  - destruct (Z.gtb_spec (sum_amounts (existing_refunds db parent (pr_id self))
                          + pr_amount self) (pt_amount p)); [discriminate|].
    cbn. destruct (Z.ltb_spec (pr_amount self) 1); [discriminate|].
    intros _. exists parent, p. repeat split; try assumption; lia.
Qed.

Lemma validated_save_preserves (now : Z) (self : PaymentRefund) (db : DB) :
  refund_sums_ok db ->
  refund_sums_ok (snd (validated_refund_save now self db)).
Proof.
  intros (Hnd & Hpos & Hsum). rewrite validated_refund_save_eq.
  destruct (PaymentRefund_full_clean db self) as [e|u] eqn:Hclean;
    [repeat split; assumption|].
  destruct (refund_to_write now self db) as [e|r'] eqn:Hw;
    [repeat split; assumption|].
  cbn [snd].
  destruct (full_clean_passed db self u Hclean)
    as (parent & p & Hpar & Hp & Hamt & Hle).
  destruct (refund_to_write_fields now self r' db Hw)
    as (Eid & Est & Eam & Ept & _ & _ & _).
  unfold refund_sums_ok. cbn [refunds transactions set_refunds].
  split; [apply upsert_NoDup; exact Hnd|].
  split; [apply upsert_Forall; [exact Hpos|lia]|].
  intros t Ht. unfold refunded_against. cbn [refunds set_refunds].
  rewrite sum_filter_upsert by exact Hnd.
  set (f := fun r : PaymentRefund =>
              match payment_transaction r with
              | Some p0 => Nat.eqb p0 (pt_id t)
              | None => false
              end && counts_as_refunded r).
  destruct (f r') eqn:Hfr;
    (pose proof Hfr as Hfr'; unfold f in Hfr'; rewrite Hfr'; clear Hfr').
  - (* the new refund counts against [t]: this is the sum [clean] bounded *)
    assert (Hpt : parent = pt_id t).
    { unfold f in Hfr. rewrite Ept, Hpar in Hfr.
      apply andb_true_iff in Hfr as [Hfr _]. apply Nat.eqb_eq in Hfr. exact Hfr. }
    assert (Htp : t = p).
    { apply (objects_get_unique _ _ _ _ Hp Ht). apply Nat.eqb_eq. congruence. }
    subst t. subst parent. unfold existing_refunds in Hle. rewrite Eid, Eam.
    exact Hle.
  - specialize (Hsum t Ht). unfold refunded_against in Hsum. fold f in Hsum.
    pose proof (sum_filter_narrow f
                  (fun r => negb (Nat.eqb (pr_id r) (pr_id r')))
                  (refunds db) Hpos) as Hn.
    cbv beta in Hn. unfold f in Hn, Hsum. lia.
Qed.

Lemma refund_attempts_preserve (attempts : list (Z * PaymentRefund)) :
  forall db, refund_sums_ok db ->
    refund_sums_ok (refund_attempts attempts db) /\
    transactions (refund_attempts attempts db) = transactions db.
Proof.
  induction attempts as [|[now r] rest IH]; intros db Hok; [split; auto|].
  cbn [refund_attempts].
  destruct (IH _ (validated_save_preserves now r db Hok)) as [I1 I2].
  split; [exact I1|]. rewrite I2, validated_refund_save_eq.
  destruct (PaymentRefund_full_clean db r); [reflexivity|].
  destruct (refund_to_write now r db); reflexivity.
Qed.

(** A refund that would take the sum over the payment is refused by
    [clean()], and a refused write changes nothing. *)
Lemma validated_save_rejects (now : Z) (self : PaymentRefund) (db : DB) :
  let out := validated_refund_save now self db in
  (forall e, fst out = inl e -> snd out = db) /\
  (forall parent p,
     payment_transaction self = Some parent ->
     objects_get (fun t => Nat.eqb (pt_id t) parent) (transactions db) = inr p ->
     pr_amount self <> 0 ->
     pt_amount p
       < sum_amounts (existing_refunds db parent (pr_id self)) + pr_amount self ->
     out = (inl (ValidationError
                   "Refund amount exceeds remaining refundable balance"), db)).
Proof.
  cbv zeta. rewrite validated_refund_save_eq. split.
  - destruct (PaymentRefund_full_clean db self); [reflexivity|].
    destruct (refund_to_write now self db); [reflexivity|discriminate].
  - intros parent p Hpar Hp Hnz Hgt.
    unfold PaymentRefund_full_clean, PaymentRefund_clean.
    rewrite Hpar, Hp.
    destruct (Z.eqb_spec (pr_amount self) 0); [contradiction|].
    destruct (Z.gtb_spec (sum_amounts (existing_refunds db parent (pr_id self))
                          + pr_amount self) (pt_amount p)); [reflexivity|lia].
Qed.

Lemma refund_to_write_plain (now : Z) (r : PaymentRefund) (db : DB)
    (parent : nat) (rid : string) :
  pr_currency r <> EmptyString -> payment_transaction r = Some parent ->
  stripe_refund_id r = Some rid ->
  filter (fun x => opt_eqb (stripe_refund_id x) (Some rid)) (refunds db) = [] ->
  refund_to_write now r db = inr (stamped_refund now r db).
Proof.
  intros Hcur Hpar Hrid Hnone. unfold refund_to_write, inherited_currency.
  assert (Hst : pr_currency (stamped_refund now r db) = pr_currency r /\
                payment_transaction (stamped_refund now r db) = Some parent /\
                stripe_refund_id (stamped_refund now r db) = Some rid).
  { unfold stamped_refund.
    destruct (objects_get _ _); [|destruct (_ && _)]; repeat split; assumption. }
  destruct Hst as (S1 & S2 & S3).
  rewrite S1. apply String.eqb_neq in Hcur. rewrite Hcur. cbn. rewrite S2.
  assert (Hc : refund_clash (stamped_refund now r db) db = false).
  { unfold refund_clash. rewrite S3. apply not_true_is_false. intros Hex.
    apply existsb_exists in Hex as (x & Hin & Hx).
    apply andb_true_iff in Hx as [_ Hx].
    assert (H : In x (filter (fun x => opt_eqb (stripe_refund_id x) (Some rid))
                             (refunds db)))
      by (apply filter_In; split; assumption).
    rewrite Hnone in H. exact H. }
  rewrite Hc. reflexivity.
Qed.

(** The [refund.*] handler on a [refund.created] event for a refund it does
    not know yet: the refund is recorded as pending against the transaction
    of its PaymentIntent.  No sum is consulted. *)
Lemma refund_handler_records (now : Z) (refund : StripeObject) (db : DB)
    (t : PaymentTransaction) (rid pid c reason st : string) (a : Z) :
  o_id refund = Val rid -> o_payment_intent refund = Val pid ->
  o_amount refund = Val a -> o_currency refund = Val c ->
  o_reason refund = Val reason -> o_status refund = Val st ->
  pid <> EmptyString -> Gateway.upper c <> EmptyString ->
  filter (fun x => opt_eqb (stripe_refund_id x) (Some rid)) (refunds db) = [] ->
  filter (fun x => opt_eqb (stripe_payment_intent_id x) (Some pid))
         (transactions db) = [t] ->
  let out := _handle_refund_webhook now "refund.created" refund db in
  fst out = ret (ProcessedRefund "refund.created" (Some rid) (Some pid) true) /\
  exists r,
    In r (refunds (snd out)) /\ payment_transaction r = Some (pt_id t) /\
    pr_amount r = a /\ pr_status r = "pending"%string /\
    stripe_refund_id r = Some rid.
Proof.
  intros Hid Hpi Ham Hcu Hre Hst Hpid Hc Hnone Hf. cbv zeta.
  unfold _handle_refund_webhook, mbind, lift, read, mret, mraise, expect,
    fresh_id, objects_get.
  rewrite Hid, Hpi, Ham, Hcu, Hre, Hst. cbn [get get_or].
  rewrite Hnone. destruct pid as [|ch pid']; [congruence|].
  rewrite Hf. cbn [ret raise String.eqb Ascii.eqb Bool.eqb andb].
  set (db1 := mkDB _ _ _ (S (next_id db))).
  set (r0 := mkRefund _ _ _ _ _ _ _ _).
  assert (Hw1 : refund_to_write now r0 db1 = inr (stamped_refund now r0 db1))
    by (apply (refund_to_write_plain now r0 db1 (pt_id t) rid);
        [exact Hc|reflexivity|reflexivity|exact Hnone]).
  rewrite PaymentRefund_save_eq, Hw1.
  destruct (refund_save_again now now r0 _ "pending" db1 Hw1) as [r2 Hw2].
  rewrite PaymentRefund_save_eq, Hw2. cbn [fst snd].
  split; [reflexivity|].
  destruct (refund_to_write_fields _ _ _ _ Hw2) as (E1 & E2 & E3 & E4 & E5 & _).
  exists r2. cbn [refunds set_refunds].
  split; [apply upsert_In_new|]. repeat split; assumption.
Qed.

Lemma refund_webhook_records (now : Z) (ev : Event) (db : DB)
    (t : PaymentTransaction) (rid pid c reason st : string) (a : Z) :
  receipts_for (e_id ev) db = [] ->
  e_type ev = "refund.created"%string ->
  o_id (e_object ev) = Val rid -> o_payment_intent (e_object ev) = Val pid ->
  o_amount (e_object ev) = Val a -> o_currency (e_object ev) = Val c ->
  o_reason (e_object ev) = Val reason -> o_status (e_object ev) = Val st ->
  pid <> EmptyString -> Gateway.upper c <> EmptyString ->
  filter (fun x => opt_eqb (stripe_refund_id x) (Some rid)) (refunds db) = [] ->
  filter (fun x => opt_eqb (stripe_payment_intent_id x) (Some pid))
         (transactions db) = [t] ->
  let out := process_webhook_event now ev db in
  fst out = ret (ProcessedRefund "refund.created" (Some rid) (Some pid) true) /\
  exists r,
    In r (refunds (snd out)) /\ payment_transaction r = Some (pt_id t) /\
    pr_amount r = a /\ pr_status r = "pending"%string /\
    stripe_refund_id r = Some rid.
Proof.
  intros Hnew Hty Hid Hpi Ham Hcu Hre Hst Hpid Hc Hnone Hf. cbv zeta.
  rewrite process_webhook_event_eq, Hnew. cbv zeta.
  unfold _handle_webhook_event_type. rewrite Hty.
  change (startswith "refund.created" "payment_intent.") with false.
  change (startswith "refund.created" "charge.") with false.
  change (startswith "refund.created" "refund.") with true.
  cbv iota.
  set (db2 := mkDB _ _ _ _).
  destruct (refund_handler_records now (e_object ev) db2 t rid pid c reason st a
              Hid Hpi Ham Hcu Hre Hst Hpid Hc Hnone Hf) as (Hres & r & Hr).
  destruct (_handle_refund_webhook now "refund.created" (e_object ev) db2)
    as [res db3].
  cbn [fst snd] in Hres, Hr. rewrite Hres. cbn [finish fst snd].
  split; [reflexivity|]. exists r. exact Hr.
Qed.


End RefundSum.


(** The second scenario of the model tests: 60.00 is already refunded on a
    payment of 100.00, and a refund of 50.00 is refused. *)
Example over_refund_is_refused :
  let db := snd (LedgerSpec.validated_refund_save 200
                   (Examples.refund_60 2 "re_1") Examples.db_paid) in
  map Ledger.pr_amount (Ledger.refunds db) = [6000] /\
  LedgerSpec.validated_refund_save 201 (Examples.refund_50 3 "re_2") db =
    (inl (ValidationError "Refund amount exceeds remaining refundable balance"),
     db).
Proof. split; reflexivity. Qed.
(** ** Headers the verifier accepts *)

Section HeaderFacts.

Import Signature Header.

Lemma split_without_separator (sep : ascii) (s : string) :
  contains sep s = false -> split sep s = [s].
Proof.
  induction s as [|c s IH]; cbn; [reflexivity|].
  intros H. apply orb_false_iff in H as [Hc Hs].
  rewrite Hc, (IH Hs). reflexivity.
Qed.

Lemma split_at_separator (sep : ascii) (a b : string) :
  contains sep a = false ->
  split sep (a ++ String sep b) = a :: split sep b.
Proof.
  induction a as [|c a IH]; cbn.
  - intros _. rewrite Ascii.eqb_refl. reflexivity.
  - intros H. apply orb_false_iff in H as [Hc Ha].
    rewrite Hc, (IH Ha). reflexivity.
Qed.

Lemma contains_app (c : ascii) (a b : string) :
  contains c (a ++ b) = contains c a || contains c b.
Proof.
  induction a as [|x a IH]; cbn; [reflexivity|].
  rewrite IH, orb_assoc. reflexivity.
Qed.

(** A header built from a timestamp and a digest that contain no comma
    parses into exactly these two values. *)
Lemma signature_header_parses (ts sig : string) :
  contains "," ts = false -> contains "," sig = false ->
  ts <> EmptyString -> sig <> EmptyString ->
  well_formed_header (signature_header ts sig) ts sig.
Proof.
  intros Hts Hsig Hnts Hnsig. unfold well_formed_header, signature_header.
  exists [("v1"%string, sig); ("t"%string, ts)].
  repeat split; try assumption.
  change ("t=" ++ ts ++ ",v1=" ++ sig)%string
    with (("t=" ++ ts) ++ String "," ("v1=" ++ sig))%string.
  rewrite split_at_separator
    by (rewrite contains_app, Hts; reflexivity).
  rewrite split_without_separator
    by (rewrite contains_app, Hsig; reflexivity).
  reflexivity.
Qed.

End HeaderFacts.

Section Acceptance.

Import Signature Header.

Variable hmac_sha256_hexdigest : list byte -> list byte -> string.
Variable utf8_decode : list byte -> option string.
Variable utf8_encode : string -> list byte.
Variable int_of_str : string -> option Z.

(** X1.  A header [t=<ts>,v1=<digest>] whose digest is the HMAC-SHA256 of
    ["<ts>.<body>"] under the configured secret, and whose timestamp is
    within 300 seconds of the current time, is accepted. *)
Theorem signed_header_is_accepted (settings : Settings) (secret : string)
    (now : Z) (payload : list byte) (ts sig body : string) (webhook_time : Z) :
  py_or (STRIPE_WEBHOOK_ENDPOINT_SECRET settings)
        (STRIPE_WEBHOOK_SECRET settings) = Some secret ->
  secret <> EmptyString ->
  contains "," ts = false -> contains "," sig = false ->
  ts <> EmptyString -> sig <> EmptyString ->
  utf8_decode payload = Some body ->
  is_ascii sig = true ->
  sig = hmac_sha256_hexdigest (utf8_encode secret)
          (utf8_encode (ts ++ "." ++ body)) ->
  int_of_str ts = Some webhook_time ->
  Z.abs (now - webhook_time) <= 300 ->
  verify_webhook_signature hmac_sha256_hexdigest utf8_decode utf8_encode
    int_of_str settings now payload (signature_header ts sig) = ret true.
Proof.
  intros Hs Hne Hts Hsig Hnts Hnsig Hd Ha He Hi Hle.
  destruct (py_or_secret _ _ _ Hs Hne) as (c & t & Hor & ->).
  unfold verify_webhook_signature. rewrite Hor.
  assert (Hb : verify_body hmac_sha256_hexdigest utf8_decode utf8_encode
                 int_of_str (String c t) now payload (signature_header ts sig)
               = ret true).
  { apply verify_body_true. exists ts, sig, body, webhook_time.
    repeat split; try assumption.
    apply signature_header_parses; assumption. }
  rewrite Hb. reflexivity.
Qed.

End Acceptance.

Lemma signed_header_is_accepted_witness :
  Signature.verify_webhook_signature Examples.demo_hmac Examples.demo_decode
    Examples.demo_encode Examples.demo_int
    (Signature.mkSettings None (Some "whsec_1"%string) false) 1200 []
    (Header.signature_header "1000" "5f2b") = ret true.
Proof.
  apply (signed_header_is_accepted Examples.demo_hmac Examples.demo_decode
           Examples.demo_encode Examples.demo_int
           (Signature.mkSettings None (Some "whsec_1"%string) false)
           "whsec_1" 1200 [] "1000" "5f2b" EmptyString 1000);
    try reflexivity; try discriminate.
Defined.
(** ** What the webhook handlers do, case by case *)

Ltac break_leaf :=
  match goal with
  | |- context [match ?x with _ => _ end] =>
      lazymatch x with
      | context [match _ with _ => _ end] => fail
      | _ => destruct x eqn:?
      end
  end.

Section HandlerCases.

Import Ledger LedgerSpec Identity.

Lemma objects_get_none {R} (f : R -> bool) (rows : list R) :
  objects_get f rows = inl DoesNotExist -> filter f rows = [].
Proof.
  unfold objects_get. destruct (filter f rows) as [|a [|b l]];
    [reflexivity|discriminate|discriminate].
Qed.

Lemma objects_get_found {R} (f : R -> bool) (rows : list R) (r : R) :
  objects_get f rows = inr r -> filter f rows = [r].
Proof.
  unfold objects_get. destruct (filter f rows) as [|a [|b l]];
    [discriminate| |discriminate].
  intros [= <-]. reflexivity.
Qed.

Lemma stamped_transaction_identity (now : Z) (t : PaymentTransaction) (db : DB) :
  transaction_identity (stamped_transaction now t db) = transaction_identity t.
Proof.
  unfold stamped_transaction.
  destruct (objects_get _ _) as [e|old]; [|destruct (_ && _)]; reflexivity.
Qed.

(** A [save()] of a transaction either fails and writes nothing, or writes
    the stamped row. *)
Lemma transaction_save_cases (now : Z) (t : PaymentTransaction) (db : DB)
    (res : py unit) (db' : DB) :
  PaymentTransaction_save now t db = (res, db') ->
  (res = inl IntegrityError /\ db' = db) \/
  (res = inr tt /\
   db' = set_transactions
           (upsert pt_id (stamped_transaction now t db) (transactions db)) db).
Proof.
  rewrite PaymentTransaction_save_eq. cbv zeta.
  destruct (transaction_clash _ db); intros [= <- <-]; auto.
Qed.

(** The [payment_intent.*] handler either leaves the database as it was,
    or rewrites the one transaction of the PaymentIntent, keeping its
    identity. *)
Lemma intent_handler_cases (now : Z) (event_type : string)
    (payment_intent : StripeObject) (db : DB) :
  let pid := get (o_id payment_intent) in
  let out := _handle_payment_intent_webhook now event_type payment_intent db in
  (snd out = db /\
   forall r, fst out = inr r ->
     r = NoLocalRecordIntent event_type pid /\
     filter (fun t => opt_eqb (stripe_payment_intent_id t) pid)
            (transactions db) = []) \/
  (exists t t',
     filter (fun t => opt_eqb (stripe_payment_intent_id t) pid)
            (transactions db) = [t] /\
     transaction_identity t' = transaction_identity t /\
     snd out = set_transactions (upsert pt_id t' (transactions db)) db /\
     fst out = inr (ProcessedIntent event_type pid (pt_status t)
                      (get (o_status payment_intent)) (pt_id t))).
Proof.
  cbv zeta. unfold _handle_payment_intent_webhook.
  unfold mbind, lift, read, mret, mraise, expect.
  repeat (break_leaf; cbn [fst snd ret raise]).
  all: try solve [left; split; [reflexivity|intros ? [=]]].
  all: try solve [left; split; [reflexivity|]; intros ? [= <-]; split;
                  [reflexivity|apply objects_get_none; assumption]].
  all: match goal with
       | H : PaymentTransaction_save _ _ _ = _ |- _ =>
           apply transaction_save_cases in H;
           destruct H as [[Hres Hdb]|[Hres Hdb]];
           try discriminate Hres; rewrite Hdb
       end.
  all: try solve [left; split; [reflexivity|intros ? [=]]].
  all: right.
  all: match goal with
       | H : objects_get _ _ = inr ?t |- _ =>
           apply objects_get_found in H; exists t
       end.
  all: eexists; split; [eassumption|].
  all: split; [|split; [reflexivity|]].
  all: try (rewrite stamped_transaction_identity; reflexivity).
  all: repeat match goal with
       | H : inr _ = inr _ |- _ => injection H as H; subst
       | H : (_, _) = (_, _) |- _ => injection H as ? ?; subst
       end.
  all: try reflexivity.
Qed.

Lemma intent_handler_result (now : Z) (event_type : string)
    (payment_intent : StripeObject) (db : DB) (r : outcome) :
  fst (_handle_payment_intent_webhook now event_type payment_intent db) = inr r ->
  handler_result r = true.
Proof.
  destruct (intent_handler_cases now event_type payment_intent db)
    as [[_ H]|(t & t' & _ & _ & _ & H)]; intros Hr.
  - destruct (H r Hr) as [-> _]. reflexivity.
  - rewrite H in Hr. injection Hr as <-. reflexivity.
Qed.

(** The [charge.*] handler, likewise. *)
Lemma charge_handler_cases (now : Z) (event_type : string)
    (charge : StripeObject) (db : DB) :
  let out := _handle_charge_webhook now event_type charge db in
  (snd out = db /\
   forall r, fst out = inr r ->
     r = NoPaymentIntent (get (o_id charge)) \/
     exists pid, r = NoLocalRecordCharge pid (get (o_id charge))) \/
  (exists pid t,
     get (o_payment_intent charge) = Some pid /\
     filter (fun t => opt_eqb (stripe_payment_intent_id t) (Some pid))
            (transactions db) = [t] /\
     let updated :=
       if String.eqb event_type "charge.succeeded" then
         with_processed_at (Some now) (with_status "succeeded" t)
       else if String.eqb event_type "charge.failed" then
         with_status "failed"
           (with_failure
              (get_or (o_failure_message charge) "Charge failed"%string)
              (last_payment_error t) t)
       else t in
     snd out = set_transactions
                 (upsert pt_id (stamped_transaction now updated db)
                    (transactions db)) db /\
     fst out = inr (ProcessedCharge event_type (get (o_id charge)) pid)).
Proof.
  cbv zeta. unfold _handle_charge_webhook.
  unfold mbind, lift, read, mret, mraise, expect.
  repeat (break_leaf; cbn [fst snd ret raise]).
  all: try solve [left; split; [reflexivity|intros ? [=]]].
  all: try solve [left; split; [reflexivity|]; intros ? [= <-]; eauto].
  all: match goal with
       | H : PaymentTransaction_save _ _ _ = _ |- _ =>
           apply transaction_save_cases in H;
           destruct H as [[Hres Hdb]|[Hres Hdb]];
           try discriminate Hres; rewrite Hdb
       end.
  all: try solve [left; split; [reflexivity|intros ? [=]]].
  all: right.
  all: match goal with
       | H : objects_get _ _ = inr ?t |- _ =>
           apply objects_get_found in H; eexists; exists t
       end.
  all: split; [reflexivity|]; split; [eassumption|].
  all: split; reflexivity.
Qed.

Lemma charge_handler_result (now : Z) (event_type : string)
    (charge : StripeObject) (db : DB) (r : outcome) :
  fst (_handle_charge_webhook now event_type charge db) = inr r ->
  handler_result r = true.
Proof.
  destruct (charge_handler_cases now event_type charge db)
    as [[_ H]|(pid & t & _ & _ & _ & H)]; intros Hr.
  - destruct (H r Hr) as [->|[pid ->]]; reflexivity.
  - rewrite H in Hr. injection Hr as <-. reflexivity.
Qed.

Lemma refund_handler_result (now : Z) (event_type : string)
    (refund : StripeObject) (db : DB) (r : outcome) :
  fst (_handle_refund_webhook now event_type refund db) = inr r ->
  handler_result r = true.
Proof.
  unfold _handle_refund_webhook.
  unfold mbind, lift, read, mret, mraise, expect, fresh_id.
  repeat (break_leaf; cbn [fst snd ret raise]).
  all: intros [= <-]; reflexivity.
Qed.

(** No handler answers for the dispatcher. *)
Lemma dispatch_result (now : Z) (ev : Event) (w : PaymentWebhook) (db : DB)
    (r : outcome) :
  fst (_handle_webhook_event_type now ev w db) = inr r ->
  handler_result r = true.
Proof.
  unfold _handle_webhook_event_type.
  destruct (startswith _ "payment_intent."); [apply intent_handler_result|].
  destruct (startswith _ "charge."); [apply charge_handler_result|].
  destruct (startswith _ "refund."); [apply refund_handler_result|].
  destruct (startswith _ "terminal."); intros [= <-]; reflexivity.
Qed.

(** Writing, under its key, a row that agrees with the stored one on [g]
    leaves the [g]-column of the table as it was. *)
Lemma upsert_map_same {R A} (pk : R -> nat) (g : R -> A) (old new : R)
    (rows : list R) :
  NoDup (map pk rows) -> In old rows -> pk new = pk old -> g new = g old ->
  map g (upsert pk new rows) = map g rows.
Proof.
  intros Hnd Hin Hpk Hg.
  rewrite upsert_present by (rewrite Hpk; apply in_map; exact Hin).
  rewrite map_map. apply map_ext_in. intros r Hr.
  destruct (Nat.eqb_spec (pk r) (pk new)) as [E|]; [|reflexivity].
  rewrite Hg. f_equal. apply (key_determines_row pk rows); auto. congruence.
Qed.

Lemma filter_singleton_In {R} (f : R -> bool) (rows : list R) (r : R) :
  filter f rows = [r] -> In r rows /\ f r = true.
Proof.
  intros H. apply filter_In. rewrite H. left. reflexivity.
Qed.

Lemma dispatch_identity (now : Z) (ev : Event) (w : PaymentWebhook) (db : DB) :
  NoDup (map pt_id (transactions db)) ->
  map transaction_identity
      (transactions (snd (_handle_webhook_event_type now ev w db)))
  = map transaction_identity (transactions db).
Proof.
  intros Hnd. unfold _handle_webhook_event_type.
  destruct (startswith _ "payment_intent.").
  { destruct (intent_handler_cases now (e_type ev) (e_object ev) db)
      as [[-> _]|(t & t' & Hf & Hi & -> & _)]; [reflexivity|].
    apply filter_singleton_In in Hf as [Hin _].
    cbn [transactions set_transactions].
    apply (upsert_map_same pt_id transaction_identity t t'); auto.
    unfold transaction_identity in Hi. congruence. }
  destruct (startswith _ "charge.").
  { destruct (charge_handler_cases now (e_type ev) (e_object ev) db)
      as [[-> _]|(pid & t & _ & Hf & Hs & _)]; [reflexivity|].
    cbv zeta in Hs. rewrite Hs.
    apply filter_singleton_In in Hf as [Hin _].
    cbn [transactions set_transactions].
    assert (Hi : transaction_identity
                   (stamped_transaction now
                      (if String.eqb (e_type ev) "charge.succeeded" then
                         with_processed_at (Some now) (with_status "succeeded" t)
                       else if String.eqb (e_type ev) "charge.failed" then
                         with_status "failed"
                           (with_failure
                              (get_or (o_failure_message (e_object ev))
                                 "Charge failed"%string)
                              (last_payment_error t) t)
                       else t) db) = transaction_identity t).
    { rewrite stamped_transaction_identity.
      destruct (String.eqb _ "charge.succeeded"); [reflexivity|].
      destruct (String.eqb _ "charge.failed"); reflexivity. }
    apply (upsert_map_same pt_id transaction_identity t); auto.
    unfold transaction_identity in Hi. congruence. }
  destruct (startswith _ "refund.").
  { rewrite refund_handler_transactions. reflexivity. }
  destruct (startswith _ "terminal."); reflexivity.
Qed.

End HandlerCases.

(** ** What one delivery can and cannot do *)

Section DeliveryFacts.

Import Ledger LedgerSpec Identity.

(** A delivery always returns a result; the result is the handler's own,
    or the ledger is as it was. *)
Lemma delivery_cases (now : Z) (ev : Event) (db : DB) :
  let out := process_webhook_event now ev db in
  exists r, fst out = inr r /\
            (handler_result r = true \/ ledger (snd out) = ledger db).
Proof.
  cbv zeta. rewrite process_webhook_event_eq.
  assert (Hfin : forall w d0,
            ledger d0 = ledger db ->
            let out := finish now (e_id ev) w
                         (_handle_webhook_event_type now ev w d0) in
            exists r, fst out = inr r /\
                      (handler_result r = true \/ ledger (snd out) = ledger db)).
  { intros w d0 Hd0.
    destruct (dispatch_frame now ev w d0) as (_ & _ & Herr).
    pose proof (dispatch_result now ev w d0) as Hres.
    destruct (_handle_webhook_event_type now ev w d0) as [[e|r'] d1];
      cbn [finish fst snd] in *; eexists; (split; [reflexivity|]).
    - right. rewrite <- Hd0. exact (Herr e eq_refl).
    - left. apply Hres. reflexivity. }
  destruct (receipts_for _ db) as [|w [|w' ws]]; cbv zeta.
  - apply Hfin. reflexivity.
  - destruct (processed w); [cbn; eauto|]. apply Hfin. reflexivity.
  - cbn. eauto.
Qed.

(** X2.  An [error] result means that nothing was written to the ledger:
    the only results with status ['error'] are those the dispatcher builds
    from an exception, and a handler that raises has written no
    transaction and no refund. *)
Theorem error_result_leaves_ledger_unchanged (now : Z) (ev : Event) (db : DB)
    (r : outcome) :
  fst (process_webhook_event now ev db) = ret r ->
  outcome_status r = "error"%string ->
  ledger (snd (process_webhook_event now ev db)) = ledger db.
Proof.
  intros Hr Hst.
  destruct (delivery_cases now ev db) as (r' & Hr' & [Hh|Hl]); [|exact Hl].
  rewrite Hr in Hr'. injection Hr' as <-.
  destruct r; cbn in Hst, Hh; discriminate.
Qed.

(** X3.  A webhook delivery never adds or removes a payment transaction and
    never changes the amount, the currency, the PaymentIntent id or the
    sale of one: it can only touch the status columns. *)
Theorem webhooks_keep_transaction_identity (now : Z) (ev : Event) (db : DB) :
  NoDup (map pt_id (transactions db)) ->
  map transaction_identity
      (transactions (snd (process_webhook_event now ev db)))
  = map transaction_identity (transactions db).
Proof.
  intros Hnd. rewrite process_webhook_event_eq.
  assert (Hfin : forall w h,
            transactions (snd (finish now (e_id ev) w h))
            = transactions (snd h)).
  { intros w [[e|r] d]; reflexivity. }
  destruct (receipts_for _ db) as [|w [|w' ws]]; cbv zeta.
  - rewrite Hfin. rewrite dispatch_identity by exact Hnd. reflexivity.
  - destruct (processed w); [reflexivity|].
    rewrite Hfin. apply dispatch_identity. exact Hnd.
  - reflexivity.
Qed.

End DeliveryFacts.

Lemma error_result_leaves_ledger_unchanged_witness :
  Ledger.ledger
    (snd (Ledger.process_webhook_event 200 Examples.ev_refund_no_reason
            Examples.db_paid))
  = Ledger.ledger Examples.db_paid.
Proof.
  apply (error_result_leaves_ledger_unchanged 200 Examples.ev_refund_no_reason
           Examples.db_paid
           (Ledger.Error "NOT NULL constraint failed" "evt_r0"));
    reflexivity.
Defined.

Lemma webhooks_keep_transaction_identity_witness :
  map Identity.transaction_identity
      (Ledger.transactions
         (snd (Ledger.process_webhook_event 200 Examples.ev_payment_failed
                 Examples.db_paid)))
  = map Identity.transaction_identity (Ledger.transactions Examples.db_paid).
Proof.
  apply (webhooks_keep_transaction_identity 200 Examples.ev_payment_failed
           Examples.db_paid).
  repeat constructor. intros [].
Defined.
(** ** First deliveries, handler by handler *)

Section FirstDelivery.

Import Ledger LedgerSpec Identity Amounts.

Lemma refund_prefix_excludes (s : string) :
  startswith s "refund." = true ->
  startswith s "payment_intent." = false /\ startswith s "charge." = false.
Proof.
  unfold startswith. destruct s as [|c s]; cbn [String.prefix];
    [discriminate|].
  destruct (ascii_dec "r" c) as [<-|]; [|discriminate]. intros _.
  split; reflexivity.
Qed.

Lemma charge_prefix_excludes (s : string) :
  startswith s "charge." = true -> startswith s "payment_intent." = false.
Proof.
  unfold startswith. destruct s as [|c s]; cbn [String.prefix];
    [discriminate|].
  destruct (ascii_dec "c" c) as [<-|]; [|discriminate]. intros _.
  reflexivity.
Qed.

(** The first delivery of an event whose handler returns a result: the
    caller gets the result, and the event has one receipt, processed. *)
Lemma first_delivery (now : Z) (ev : Event) (db : DB) (r : outcome) (d1 : DB) :
  receipts_ok db -> receipts_for (e_id ev) db = [] ->
  let w0 := mkWebhook (next_id db) (e_id ev) (e_type ev) false None ev None in
  _handle_webhook_event_type now ev w0
    (mkDB (transactions db) (refunds db) (upsert pw_id w0 (webhooks db))
          (S (next_id db))) = (inr r, d1) ->
  let out := process_webhook_event now ev db in
  fst out = inr r /\ ledger (snd out) = ledger d1 /\
  receipts_for (e_id ev) (snd out)
  = [webhook_with_processed true (Some now) w0].
Proof.
  intros [Hnd Hlt] Hr w0 Hh. cbv zeta.
  rewrite process_webhook_event_eq, Hr. cbv zeta. fold w0.
  set (db0 := mkDB _ _ _ _) in *.
  destruct (dispatch_frame now ev w0 db0) as (Hw & Hn & _).
  rewrite Hh in *. cbn [fst snd finish] in *.
  split; [reflexivity|]. split; [reflexivity|].
  assert (Hfresh : ~ In (pw_id w0) (map pw_id (webhooks db))).
  { intros Hin. apply in_map_iff in Hin as (x & Hx & Hin).
    rewrite Forall_forall in Hlt. specialize (Hlt _ Hin). cbn in Hx. lia. }
  assert (Hnd1 : NoDup (map pw_id (webhooks d1)))
    by (rewrite Hw; apply upsert_NoDup; exact Hnd).
  assert (Hlt1 : Forall (fun x => (pw_id x < next_id d1)%nat) (webhooks d1)).
  { rewrite Hw. apply upsert_Forall.
    - eapply Forall_impl; [|exact Hlt]. cbn. intros x Hx.
      cbn [next_id db0] in Hn. lia.
    - cbn [next_id db0 pw_id w0] in *. lia. }
  assert (Hin1 : In w0 (webhooks d1)) by (rewrite Hw; apply upsert_In_new).
  assert (Hlen1 : List.length (receipts_for (e_id ev) d1) = 1%nat).
  { unfold receipts_for. rewrite Hw. cbn [webhooks db0].
    rewrite upsert_filter_fresh by exact Hfresh.
    fold (receipts_for (e_id ev) db). rewrite Hr. cbn [stripe_event_id w0].
    rewrite String.eqb_refl. reflexivity. }
  destruct (finish_receipts ev now w0 (webhook_with_processed true (Some now) w0)
              db d1 Hnd1 Hlt1 Hin1 eq_refl eq_refl (String.eqb_refl _))
    as (_ & Hl & Hin).
  apply singleton_of_length; [lia|exact Hin].
Qed.

(** An event whose receipt is processed is answered without a look at the
    ledger. *)
Lemma known_event_is_skipped (now : Z) (ev : Event) (db db2 : DB)
    (w : PaymentWebhook) :
  receipts_for (e_id ev) db = [w] -> processed w = true ->
  webhooks db2 = webhooks db ->
  process_webhook_event now ev db2 = (inr (AlreadyProcessed (e_id ev)), db2).
Proof.
  intros Hr Hp Hw. apply (processed_short_circuits ev now w); [|exact Hp].
  unfold receipts_for in *. rewrite Hw. exact Hr.
Qed.

(** X4.  An event whose type starts with none of [payment_intent.],
    [charge.] and [refund.] is acknowledged and nothing else: the ledger
    stays as it was, the result is [logged] for a [terminal.] event and
    [unhandled] otherwise, and the event is left with one receipt, marked
    processed. *)
Theorem unrouted_event_is_only_acknowledged (now : Z) (ev : Event) (db : DB) :
  receipts_ok db -> receipts_for (e_id ev) db = [] ->
  startswith (e_type ev) "payment_intent." = false ->
  startswith (e_type ev) "charge." = false ->
  startswith (e_type ev) "refund." = false ->
  let out := process_webhook_event now ev db in
  fst out = ret (if startswith (e_type ev) "terminal."
                 then Logged (e_type ev) (get (o_id (e_object ev)))
                 else Unhandled (e_type ev)) /\
  ledger (snd out) = ledger db /\
  map processed (receipts_for (e_id ev) (snd out)) = [true].
Proof.
  intros Hok Hr H1 H2 H3.
  assert (Hh : forall w d,
            _handle_webhook_event_type now ev w d
            = (inr (if startswith (e_type ev) "terminal."
                    then Logged (e_type ev) (get (o_id (e_object ev)))
                    else Unhandled (e_type ev)), d)).
  { intros w d. unfold _handle_webhook_event_type. rewrite H1, H2, H3.
    destruct (startswith _ "terminal."); reflexivity. }
  destruct (first_delivery now ev db _ _ Hok Hr (Hh _ _)) as (Hf & Hl & Hrec).
  cbv zeta. rewrite Hf, Hl, Hrec. repeat split.
Qed.


(** X6.  A [refund.*] event for a refund the till does not know, of a
    PaymentIntent the till has no transaction for, creates nothing: the
    result is [no_payment_transaction], the ledger stays as it was, and
    the event is marked processed, so that it is not looked at again. *)
Theorem orphan_refund_event_creates_nothing (now : Z) (ev : Event) (db : DB)
    (pid : string) :
  receipts_ok db -> receipts_for (e_id ev) db = [] ->
  startswith (e_type ev) "refund." = true ->
  filter (fun r => opt_eqb (stripe_refund_id r) (get (o_id (e_object ev))))
         (refunds db) = [] ->
  o_payment_intent (e_object ev) = Val pid -> pid <> EmptyString ->
  filter (fun t => opt_eqb (stripe_payment_intent_id t) (Some pid))
         (transactions db) = [] ->
  let out := process_webhook_event now ev db in
  fst out = ret (NoPaymentTransaction (get (o_id (e_object ev))) pid) /\
  ledger (snd out) = ledger db /\
  forall now' db2, webhooks db2 = webhooks (snd out) ->
    process_webhook_event now' ev db2
    = (ret (AlreadyProcessed (e_id ev)), db2).
Proof.
  intros Hok Hr Hre Hfr Hpi Hne Hft.
  destruct (refund_prefix_excludes _ Hre) as [H1 H2].
  assert (Hh : forall w d,
            transactions d = transactions db -> refunds d = refunds db ->
            _handle_webhook_event_type now ev w d
            = (inr (NoPaymentTransaction (get (o_id (e_object ev))) pid), d)).
  { intros w d Hdt Hdr. unfold _handle_webhook_event_type.
    rewrite H1, H2, Hre.
    unfold _handle_refund_webhook, mbind, lift, read, mret, expect.
    unfold objects_get. rewrite Hdt, Hdr, Hfr, Hpi.
    cbn [get raise]. destruct pid as [|c pid]; [congruence|].
    rewrite Hft. reflexivity. }
  edestruct (first_delivery now ev db) as (Hres & Hl & Hrec);
    [exact Hok|exact Hr|apply Hh; reflexivity|].
  cbv zeta. split; [exact Hres|]. split; [exact Hl|].
  intros now' db2 Hw.
  apply (known_event_is_skipped now' ev _ db2 _ Hrec eq_refl Hw).
Qed.

End FirstDelivery.

Lemma receipts_ok_without_receipts (ts : list Ledger.PaymentTransaction)
    (rs : list Ledger.PaymentRefund) (n : nat) :
  LedgerSpec.receipts_ok (Ledger.mkDB ts rs [] n).
Proof. split; constructor. Qed.

Lemma unrouted_event_is_only_acknowledged_witness :
  let out := Ledger.process_webhook_event 200 MoreExamples.ev_customer_created
               Examples.db_paid in
  fst out = ret (Ledger.Unhandled "customer.created") /\
  Ledger.ledger (snd out) = Ledger.ledger Examples.db_paid /\
  map Ledger.processed (LedgerSpec.receipts_for "evt_c1" (snd out)) = [true].
Proof.
  apply (unrouted_event_is_only_acknowledged 200
           MoreExamples.ev_customer_created Examples.db_paid);
    try reflexivity.
  apply receipts_ok_without_receipts.
Defined.


Lemma orphan_refund_event_creates_nothing_witness :
  let out := Ledger.process_webhook_event 200 MoreExamples.ev_orphan_refund
               Examples.db_paid in
  fst out = ret (Ledger.NoPaymentTransaction (Some "re_9"%string) "pi_9") /\
  Ledger.ledger (snd out) = Ledger.ledger Examples.db_paid /\
  forall now' db2, Ledger.webhooks db2 = Ledger.webhooks (snd out) ->
    Ledger.process_webhook_event now' MoreExamples.ev_orphan_refund db2
    = (ret (Ledger.AlreadyProcessed "evt_o1"), db2).
Proof.
  apply (orphan_refund_event_creates_nothing 200 MoreExamples.ev_orphan_refund
           Examples.db_paid "pi_9");
    try reflexivity; try discriminate.
  apply receipts_ok_without_receipts.
Defined.
(** ** Payments and charges *)

Section PaymentEvents.

Import Ledger LedgerSpec Identity Amounts.

Lemma upsert_stored {R} (pk : R -> nat) (t : R) (rows : list R) :
  NoDup (map pk rows) -> In t rows -> upsert pk t rows = rows.
Proof.
  intros Hnd Hin. rewrite upsert_present by (apply in_map; exact Hin).
  rewrite <- (map_id rows) at 2. apply map_ext_in. intros r Hr.
  destruct (Nat.eqb_spec (pk r) (pk t)) as [E|]; [|reflexivity].
  symmetry. apply (key_determines_row pk rows); auto.
Qed.

(** [save()] stamps nothing on a row that is written back as it is
    stored. *)
Lemma stamped_transaction_stored (now : Z) (t : PaymentTransaction) (db : DB) :
  NoDup (map pt_id (transactions db)) -> In t (transactions db) ->
  stamped_transaction now t db = t.
Proof.
  intros Hnd Hin. unfold stamped_transaction.
  destruct (objects_get _ _) as [e|old] eqn:Hg; [reflexivity|].
  apply objects_get_In in Hg as [Hold Hpk]. apply Nat.eqb_eq in Hpk.
  assert (old = t) as -> by (apply (key_determines_row pt_id _ _ _ Hnd); auto).
  destruct (String.eqb (pt_status t) "succeeded"); reflexivity.
Qed.

(** The ledger after a delivery is the ledger after the handler. *)
Lemma delivery_ledger (now : Z) (ev : Event) (db : DB) :
  (forall w d, ledger d = ledger db ->
     ledger (snd (_handle_webhook_event_type now ev w d)) = ledger db) ->
  ledger (snd (process_webhook_event now ev db)) = ledger db.
Proof.
  intros H. rewrite process_webhook_event_eq.
  assert (Hfin : forall w h, ledger (snd (finish now (e_id ev) w h))
                             = ledger (snd h)).
  { intros w [[e|r] d]; reflexivity. }
  destruct (receipts_for _ db) as [|w [|w' ws]]; cbv zeta.
  - rewrite Hfin. apply H. reflexivity.
  - destruct (processed w); [reflexivity|]. rewrite Hfin. apply H. reflexivity.
  - reflexivity.
Qed.

(** X7.  Of the [charge.*] events only [charge.succeeded] and
    [charge.failed] change anything: any other one ([charge.refunded],
    [charge.dispute.created], ...) leaves every transaction and every
    refund as it was. *)
Theorem other_charge_events_change_nothing (now : Z) (ev : Event) (db : DB) :
  NoDup (map pt_id (transactions db)) ->
  startswith (e_type ev) "charge." = true ->
  e_type ev <> "charge.succeeded"%string ->
  e_type ev <> "charge.failed"%string ->
  ledger (snd (process_webhook_event now ev db)) = ledger db.
Proof.
  intros Hnd Hch Hs Hf. apply delivery_ledger. intros w d Hd.
  unfold _handle_webhook_event_type.
  rewrite (charge_prefix_excludes _ Hch), Hch.
  injection Hd as Hdt Hdr.
  destruct (charge_handler_cases now (e_type ev) (e_object ev) d)
    as [[-> _]|(pid & t & _ & Hfl & Hsnd & _)].
  { unfold ledger. congruence. }
  cbv zeta in Hsnd. rewrite Hsnd.
  apply String.eqb_neq in Hs, Hf. rewrite Hs, Hf.
  apply filter_singleton_In in Hfl as [Hin _].
  assert (Hnd' : NoDup (map pt_id (transactions d))) by (rewrite Hdt; exact Hnd).
  rewrite stamped_transaction_stored by assumption.
  unfold ledger. cbn [transactions refunds set_transactions].
  rewrite upsert_stored by assumption.
  congruence.
Qed.

(** What the [charge.*] handler writes for the two events it knows. *)
Lemma charge_handler_writes (now : Z) (event_type : string)
    (charge : StripeObject) (db : DB) (t : PaymentTransaction) (pid : string) :
  o_payment_intent charge = Val pid -> pid <> EmptyString ->
  filter (fun x => opt_eqb (stripe_payment_intent_id x) (Some pid))
         (transactions db) = [t] ->
  exists t',
    _handle_charge_webhook now event_type charge db
    = (inr (ProcessedCharge event_type (get (o_id charge)) pid),
       set_transactions (upsert pt_id t' (transactions db)) db) /\
    transaction_identity t' = transaction_identity t /\
    (event_type = "charge.succeeded"%string ->
     pt_status t' = "succeeded"%string /\ pt_processed_at t' = Some now) /\
    (event_type = "charge.failed"%string ->
     pt_status t' = "failed"%string /\
     pt_failure_reason t'
     = get_or (o_failure_message charge) "Charge failed"%string).
Proof.
  intros Hpi Hne Hf.
  assert (Hpid : stripe_payment_intent_id t = Some pid).
  { apply filter_singleton_In in Hf as [_ Hm].
    destruct (stripe_payment_intent_id t) as [p|]; [|discriminate].
    cbn in Hm. apply String.eqb_eq in Hm. congruence. }
  unfold _handle_charge_webhook, mbind, read, mret, mraise.
  rewrite Hpi. cbn [get]. destruct pid as [|c pid]; [congruence|].
  unfold objects_get at 1. rewrite Hf. cbn [ret].
  rewrite PaymentTransaction_save_eq. cbv zeta.
  match goal with
  | |- context [transaction_clash (stamped_transaction ?n ?x ?d) ?d] =>
      pose proof (stamped_transaction_identity n x d) as Hi;
      destruct (stamped_transaction_fields n x d) as (F1 & F2 & _ & F4);
      assert (Hx : transaction_identity x = transaction_identity t /\
                   pt_id x = pt_id t /\ stripe_payment_intent_id x = Some (String c pid))
        by (destruct (String.eqb event_type "charge.succeeded");
            [|destruct (String.eqb event_type "charge.failed")];
            repeat split; assumption);
      destruct Hx as (Hx1 & Hx2 & Hx3);
      rewrite (no_clash_when_unique t (stamped_transaction n x d)
                 (String c pid) d Hf) by congruence;
      exists (stamped_transaction n x d)
  end.
  split; [reflexivity|]. split; [congruence|].
  split; intros ->; cbn [String.eqb Ascii.eqb Bool.eqb] in *.
  - split; [rewrite F2; reflexivity|].
    unfold stamped_transaction.
    destruct (objects_get _ _) as [e|old]; [|destruct (_ && _)]; reflexivity.
  - split; [rewrite F2; reflexivity|].
    unfold stamped_transaction.
    destruct (objects_get _ _) as [e|old]; [|destruct (_ && _)]; reflexivity.
Qed.

(** X8.  A [charge.succeeded] or [charge.failed] event for the
    PaymentIntent of a local transaction sets the status of that
    transaction to [succeeded] or [failed], whatever it was; the first
    stamps [processed_at], the second records the failure message of the
    charge, ['Charge failed'] when the event has none. *)
Theorem charge_event_sets_status (now : Z) (ev : Event) (db : DB)
    (t : PaymentTransaction) (pid : string) :
  receipts_for (e_id ev) db = [] ->
  e_type ev = "charge.succeeded"%string \/ e_type ev = "charge.failed"%string ->
  o_payment_intent (e_object ev) = Val pid -> pid <> EmptyString ->
  filter (fun x => opt_eqb (stripe_payment_intent_id x) (Some pid))
         (transactions db) = [t] ->
  let out := process_webhook_event now ev db in
  fst out = ret (ProcessedCharge (e_type ev) (get (o_id (e_object ev))) pid) /\
  exists t',
    In t' (transactions (snd out)) /\
    transaction_identity t' = transaction_identity t /\
    (forall x, In x (transactions (snd out)) -> pt_id x = pt_id t -> x = t') /\
    (e_type ev = "charge.succeeded"%string ->
     pt_status t' = "succeeded"%string /\ pt_processed_at t' = Some now) /\
    (e_type ev = "charge.failed"%string ->
     pt_status t' = "failed"%string /\
     pt_failure_reason t'
     = get_or (o_failure_message (e_object ev)) "Charge failed"%string).
Proof.
  intros Hnew Hty Hpi Hne Hf. cbv zeta.
  rewrite process_webhook_event_eq, Hnew. cbv zeta.
  unfold _handle_webhook_event_type.
  assert (Hch : startswith (e_type ev) "charge." = true)
    by (destruct Hty as [-> | ->]; reflexivity).
  rewrite (charge_prefix_excludes _ Hch), Hch.
  set (db2 := mkDB _ _ _ _).
  destruct (charge_handler_writes now (e_type ev) (e_object ev) db2 t pid
              Hpi Hne Hf) as (t' & Hh & Hi & Hs1 & Hs2).
  rewrite Hh. cbn [finish fst snd]. split; [reflexivity|].
  exists t'. cbn [transactions set_webhooks set_transactions db2].
  split; [apply upsert_In_new|]. split; [exact Hi|].
  split; [|split; assumption].
  intros x Hx Hxid. apply upsert_In in Hx as [Hx|[_ Hn]]; [exact Hx|].
  unfold transaction_identity in Hi. congruence.
Qed.

(** What the [payment_intent.*] handler writes for
    [payment_intent.succeeded]. *)
Lemma intent_succeeded_writes (now : Z) (payment_intent : StripeObject)
    (db : DB) (t : PaymentTransaction) (pid s : string) :
  o_id payment_intent = Val pid -> o_status payment_intent = Val s ->
  o_amount payment_intent <> Null -> o_currency payment_intent <> Null ->
  filter (fun x => opt_eqb (stripe_payment_intent_id x) (Some pid))
         (transactions db) = [t] ->
  exists t',
    _handle_payment_intent_webhook now "payment_intent.succeeded"
      payment_intent db
    = (inr (ProcessedIntent "payment_intent.succeeded" (Some pid)
              (pt_status t) (Some s) (pt_id t)),
       set_transactions (upsert pt_id t' (transactions db)) db) /\
    transaction_identity t' = transaction_identity t /\
    pt_status t' = s /\ stripe_status t' = Some s /\
    pt_processed_at t' = Some now.
Proof.
  intros Hid Hst Ham Hcu Hf.
  assert (Hpid : stripe_payment_intent_id t = Some pid).
  { apply filter_singleton_In in Hf as [_ Hm].
    destruct (stripe_payment_intent_id t) as [p|]; [|discriminate].
    cbn in Hm. apply String.eqb_eq in Hm. congruence. }
  unfold _handle_payment_intent_webhook, mbind, lift, read, mret, mraise,
    expect.
  rewrite Hid, Hst. cbn [get].
  destruct (o_amount payment_intent) as [| |a]; [|congruence|].
  all: destruct (o_currency payment_intent) as [| |c]; [|congruence|].
  all: cbn [get_or]; unfold objects_get at 1; rewrite Hf.
  all: cbn [ret String.eqb Ascii.eqb Bool.eqb].
  all: rewrite PaymentTransaction_save_eq; cbv zeta.
  all: match goal with
       | |- context [transaction_clash (stamped_transaction ?n ?x ?d) ?d] =>
           pose proof (stamped_transaction_identity n x d) as Hi;
           destruct (stamped_transaction_fields n x d) as (F1 & F2 & _ & F4);
           cbn [pt_id pt_status stripe_payment_intent_id with_status
                with_processed_at with_stripe_status] in F1, F2, F4;
           rewrite (no_clash_when_unique t (stamped_transaction n x d) pid d Hf)
             by congruence;
           exists (stamped_transaction n x d)
       end.
  all: split; [reflexivity|]; split; [exact Hi|]; split; [exact F2|].
  all: unfold stamped_transaction.
  all: destruct (objects_get _ _) as [e|old]; [|destruct (_ && _)];
         split; reflexivity.
Qed.


End PaymentEvents.

Lemma other_charge_events_change_nothing_witness :
  Ledger.ledger
    (snd (Ledger.process_webhook_event 200
            (MoreExamples.ev_charge "evt_ch1" "charge.refunded")
            Examples.db_paid))
  = Ledger.ledger Examples.db_paid.
Proof.
  apply (other_charge_events_change_nothing 200
           (MoreExamples.ev_charge "evt_ch1" "charge.refunded")
           Examples.db_paid);
    try reflexivity; try discriminate.
  repeat constructor. intros [].
Defined.

Lemma charge_event_sets_status_witness :
  exists t',
    In t' (Ledger.transactions
             (snd (Ledger.process_webhook_event 200
                     (MoreExamples.ev_charge "evt_ch2" "charge.failed")
                     Examples.db_paid))) /\
    Ledger.pt_status t' = "failed"%string /\
    Ledger.pt_failure_reason t' = Some "Charge failed"%string.
Proof.
  destruct (charge_event_sets_status 200
              (MoreExamples.ev_charge "evt_ch2" "charge.failed")
              Examples.db_paid Examples.paid_100 "pi_1"
              eq_refl (or_intror eq_refl) eq_refl
              ltac:(discriminate) eq_refl)
    as (_ & t' & Hin & _ & _ & _ & Hfailed).
  exists t'. split; [exact Hin|]. exact (Hfailed eq_refl).
Defined.

(** ** Refund events *)

Section RefundEvents.

Import Ledger LedgerSpec Identity Amounts.

Lemma refund_save_cases (now : Z) (r : PaymentRefund) (db : DB)
    (res : py unit) (db' : DB) :
  PaymentRefund_save now r db = (res, db') ->
  (db' = db /\ exists e, res = inl e) \/
  (exists r', refund_to_write now r db = inr r' /\ res = inr tt /\
              db' = set_refunds (upsert pr_id r' (refunds db)) db).
Proof.
  rewrite PaymentRefund_save_eq.
  destruct (refund_to_write now r db) as [e|r']; intros [= <- <-]; eauto.
Qed.

Lemma refund_to_write_identity (now : Z) (r r' : PaymentRefund) (db : DB) :
  refund_to_write now r db = inr r' ->
  refund_identity r' = refund_identity r /\ pr_status r' = pr_status r.
Proof.
  intros H. apply refund_to_write_fields in H as (E1 & E2 & E3 & E4 & E5 & _).
  unfold refund_identity. split; congruence.
Qed.

Lemma grown_refl (db db' : DB) :
  NoDup (map pr_id (refunds db)) -> refunds db' = refunds db ->
  grown_by [] db db'.
Proof.
  intros Hnd E. unfold grown_by. rewrite E, app_nil_r. auto.
Qed.

(** A stored refund written back with another status. *)
Lemma grown_by_update (now : Z) (old x r' : PaymentRefund)
    (extra : list (nat * option nat * Z * option string)) (db0 db : DB) :
  grown_by extra db0 db -> In old (refunds db) ->
  refund_identity x = refund_identity old ->
  refund_to_write now x db = inr r' ->
  grown_by extra db0 (set_refunds (upsert pr_id r' (refunds db)) db).
Proof.
  intros [Hm Hnd] Hin Hx Hw. apply refund_to_write_identity in Hw as [Hi _].
  unfold grown_by. cbn [refunds set_refunds]. split.
  - rewrite (upsert_map_same pr_id refund_identity old r'); auto.
    + unfold refund_identity in *. congruence.
    + congruence.
  - apply upsert_NoDup. exact Hnd.
Qed.

(** A new refund, under a fresh key. *)
Lemma grown_by_insert (now : Z) (r r' : PaymentRefund) (db0 db : DB) :
  NoDup (map pr_id (refunds db0)) -> refunds db = refunds db0 ->
  ~ In (pr_id r) (map pr_id (refunds db0)) ->
  refund_to_write now r db = inr r' ->
  grown_by [refund_identity r] db0
    (set_refunds (upsert pr_id r' (refunds db)) db) /\
  In r' (refunds (set_refunds (upsert pr_id r' (refunds db)) db)).
Proof.
  intros Hnd E Hfresh Hw. apply refund_to_write_identity in Hw as [Hi _].
  assert (Hpk : pr_id r' = pr_id r)
    by (unfold refund_identity in Hi; congruence).
  unfold grown_by. cbn [refunds set_refunds]. rewrite E.
  split; [split|].
  - rewrite upsert_fresh by (rewrite Hpk; exact Hfresh).
    rewrite map_app. cbn [map]. rewrite Hi. reflexivity.
  - apply upsert_NoDup. exact Hnd.
  - apply upsert_In_new.
Qed.

Lemma refund_handler_grows (now : Z) (event_type : string)
    (refund : StripeObject) (db : DB) :
  NoDup (map pr_id (refunds db)) ->
  Forall (fun r => (pr_id r < next_id db)%nat) (refunds db) ->
  exists extra,
    grown_by extra db (snd (_handle_refund_webhook now event_type refund db)) /\
    (List.length extra <= 1)%nat.
Proof.
  intros Hnd Hlt.
  assert (Hfresh : forall p am cu re st ri pa,
            ~ In (pr_id (mkRefund (next_id db) p am cu re st ri pa))
                 (map pr_id (refunds db))).
  { intros. cbn [pr_id]. intros Hin. apply in_map_iff in Hin as (x & Hx & Hin).
    rewrite Forall_forall in Hlt. specialize (Hlt _ Hin). lia. }
  unfold _handle_refund_webhook.
  unfold mbind, lift, read, mret, mraise, expect, fresh_id.
  repeat (break_leaf; cbn [fst snd ret raise]).
  all: try solve [exists []; split; [apply grown_refl; auto|cbn; lia]].
  all: repeat match goal with
       | H : (_, _) = (_, _) |- _ => injection H as ? ?; subst
       | H : inr _ = inr _ |- _ => injection H as ?; subst
       end.
  all: repeat match goal with
       | H : PaymentRefund_save _ _ _ = _ |- _ =>
           apply refund_save_cases in H;
           destruct H as [[? [? ?]]|(? & ? & ? & ?)]; subst
       end.
  all: try discriminate.
  all: try solve [exists []; split; [apply grown_refl; auto|cbn; lia]].
  all: first
    [ match goal with
      | H1 : refund_to_write ?n1 ?r0 ?db1 = inr ?x0,
        H2 : refund_to_write ?n2 ?r2 (set_refunds (upsert pr_id ?x0 _) _)
             = inr ?x2
        |- _ =>
          destruct (grown_by_insert n1 r0 x0 db db1 Hnd eq_refl
                      (Hfresh _ _ _ _ _ _ _) H1) as [Hg Hin];
          exists [refund_identity r0]; split; [|cbn; lia];
          apply (grown_by_update n2 x0 r2 x2 _ _ _ Hg Hin); [|exact H2];
          transitivity (refund_identity r0);
          [reflexivity
          |symmetry; apply (refund_to_write_identity _ _ _ _ H1)]
      end
    | match goal with
      | Hg : objects_get _ (refunds ?d) = inr ?old,
        H : refund_to_write ?n ?x ?d = inr ?x2 |- _ =>
          exists []; split; [|cbn; lia];
          apply (grown_by_update n old x x2 [] db db);
          [apply grown_refl; auto
          |apply (objects_get_In _ _ _ Hg)
          |reflexivity
          |exact H]
      end
    | match goal with
      | H1 : refund_to_write ?n1 ?r0 ?db1 = inr ?x0 |- _ =>
          exists [refund_identity r0]; split; [|cbn; lia];
          apply (grown_by_insert n1 r0 x0 db db1 Hnd eq_refl
                   (Hfresh _ _ _ _ _ _ _) H1)
      end ].
Qed.

Lemma other_handlers_keep_refunds (now : Z) (ev : Event) (w : PaymentWebhook)
    (db : DB) :
  startswith (e_type ev) "refund." = false
  \/ startswith (e_type ev) "payment_intent." = true
  \/ startswith (e_type ev) "charge." = true ->
  refunds (snd (_handle_webhook_event_type now ev w db)) = refunds db.
Proof.
  intros H. unfold _handle_webhook_event_type.
  destruct (startswith _ "payment_intent.").
  { destruct (intent_handler_cases now (e_type ev) (e_object ev) db)
      as [[-> _]|(t & t' & _ & _ & -> & _)]; reflexivity. }
  destruct (startswith _ "charge.").
  { destruct (charge_handler_cases now (e_type ev) (e_object ev) db)
      as [[-> _]|(pid & t & _ & _ & Hs & _)]; [reflexivity|].
    cbv zeta in Hs. rewrite Hs. reflexivity. }
  destruct H as [->|[H|H]]; try discriminate.
  destruct (startswith _ "terminal."); reflexivity.
Qed.

(** X10.  A webhook delivery never removes a refund and never changes the
    amount, the parent transaction or the processor id of a stored refund;
    it adds at most one refund row. *)
Theorem webhooks_keep_refund_identity (now : Z) (ev : Event) (db : DB) :
  NoDup (map pr_id (refunds db)) ->
  Forall (fun r => (pr_id r < next_id db)%nat) (refunds db) ->
  exists extra,
    map refund_identity (refunds (snd (process_webhook_event now ev db)))
    = map refund_identity (refunds db) ++ extra /\
    (List.length extra <= 1)%nat.
Proof.
  intros Hnd Hlt.
  assert (Hd : forall w d,
            refunds d = refunds db -> (next_id db <= next_id d)%nat ->
            exists extra,
              map refund_identity
                  (refunds (snd (_handle_webhook_event_type now ev w d)))
              = map refund_identity (refunds db) ++ extra /\
              (List.length extra <= 1)%nat).
  { intros w d Hr Hn.
    destruct (startswith (e_type ev) "refund.") eqn:Hre.
    - destruct (refund_prefix_excludes _ Hre) as [H1 H2].
      unfold _handle_webhook_event_type. rewrite H1, H2, Hre.
      destruct (refund_handler_grows now (e_type ev) (e_object ev) d)
        as (extra & [Hg _] & Hlen).
      + rewrite Hr. exact Hnd.
      + rewrite Hr. eapply Forall_impl; [|exact Hlt]. cbn. intros. lia.
      + exists extra. rewrite Hg, Hr. auto.
    - exists []. rewrite other_handlers_keep_refunds by auto.
      rewrite Hr, app_nil_r. split; [reflexivity|cbn; lia]. }
  rewrite process_webhook_event_eq.
  assert (Hfin : forall w h, refunds (snd (finish now (e_id ev) w h))
                             = refunds (snd h)).
  { intros w [[e|r] d]; reflexivity. }
  destruct (receipts_for _ db) as [|w [|w' ws]]; cbv zeta.
  - rewrite Hfin. apply Hd; cbn; [reflexivity|lia].
  - destruct (processed w).
    + exists []. rewrite app_nil_r. split; [reflexivity|cbn; lia].
    + rewrite Hfin. apply Hd; [reflexivity|lia].
  - exists []. rewrite app_nil_r. split; [reflexivity|cbn; lia].
Qed.

Lemma stamped_refund_stored (now : Z) (s : string) (r : PaymentRefund)
    (db : DB) :
  NoDup (map pr_id (refunds db)) -> In r (refunds db) ->
  stamped_refund now (refund_with_status s r) db
  = if negb (String.eqb (pr_status r) "succeeded")
       && String.eqb s "succeeded"
    then refund_with_processed_at (Some now) (refund_with_status s r)
    else refund_with_status s r.
Proof.
  intros Hnd Hin. unfold stamped_refund. cbn [pr_id refund_with_status].
  destruct (objects_get _ _) as [e|old] eqn:Hg.
  - exfalso. unfold objects_get in Hg.
    destruct (filter _ _) as [|a [|b l]] eqn:Hf; try discriminate.
    + assert (Hr : In r []); [|exact Hr].
      rewrite <- Hf. apply filter_In. split; [exact Hin|apply Nat.eqb_refl].
    + assert (Ha : In a (a :: b :: l)) by (left; reflexivity).
      assert (Hb : In b (a :: b :: l)) by (right; left; reflexivity).
      rewrite <- Hf in Ha, Hb.
      apply filter_In in Ha as [Ha Hpa], Hb as [Hb Hpb].
      apply Nat.eqb_eq in Hpa, Hpb.
      assert (a = b)
        by (apply (key_determines_row pr_id _ _ _ Hnd); congruence).
      subst b.
      assert (Hnd' : NoDup (filter (fun r0 => Nat.eqb (pr_id r0) (pr_id r))
                              (refunds db))).
      { apply NoDup_filter. eapply NoDup_map_inv. exact Hnd. }
      rewrite Hf in Hnd'. inversion Hnd' as [|? ? Hn _]. apply Hn. left.
      reflexivity.
  - apply objects_get_In in Hg as [Hold Hpk]. apply Nat.eqb_eq in Hpk.
    assert (old = r) as ->
      by (apply (key_determines_row pr_id _ _ _ Hnd); auto).
    reflexivity.
Qed.

(** X11.  A [refund.updated] event for a refund the till knows sets the
    status of that refund to the status the event carries and leaves its
    amount, parent and processor id alone, whatever amount the event
    carries; [processed_at] is stamped when the refund becomes
    [succeeded]. *)
Theorem refund_updated_event_sets_status (now : Z) (ev : Event) (db : DB)
    (r : PaymentRefund) (rid s : string) (parent : nat) :
  receipts_for (e_id ev) db = [] ->
  e_type ev = "refund.updated"%string ->
  NoDup (map pr_id (refunds db)) ->
  o_id (e_object ev) = Val rid -> o_status (e_object ev) = Val s ->
  filter (fun x => opt_eqb (stripe_refund_id x) (Some rid)) (refunds db) = [r] ->
  pr_currency r <> EmptyString -> payment_transaction r = Some parent ->
  let out := process_webhook_event now ev db in
  fst out = ret (ProcessedRefund "refund.updated" (Some rid)
                   (get (o_payment_intent (e_object ev))) false) /\
  exists r',
    In r' (refunds (snd out)) /\
    (forall x, In x (refunds (snd out)) -> pr_id x = pr_id r -> x = r') /\
    refund_identity r' = refund_identity r /\
    pr_status r' = s /\
    pr_processed_at r'
    = if negb (String.eqb (pr_status r) "succeeded")
         && String.eqb s "succeeded"
      then Some now else pr_processed_at r.
Proof.
  intros Hnew Hty Hnd Hid Hst Hf Hcur Hpar. cbv zeta.
  destruct (filter_singleton_In _ _ _ Hf) as [Hin Hm].
  assert (Hrid : stripe_refund_id r = Some rid).
  { destruct (stripe_refund_id r) as [p|]; [|discriminate].
    cbn in Hm. apply String.eqb_eq in Hm. congruence. }
  rewrite process_webhook_event_eq, Hnew. cbv zeta.
  unfold _handle_webhook_event_type. rewrite Hty.
  change (startswith "refund.updated" "payment_intent.") with false.
  change (startswith "refund.updated" "charge.") with false.
  change (startswith "refund.updated" "refund.") with true.
  cbv iota.
  set (db2 := mkDB _ _ _ _).
  set (r1 := stamped_refund now (refund_with_status s r) db2).
  assert (Hr1 : r1 = if negb (String.eqb (pr_status r) "succeeded")
                        && String.eqb s "succeeded"
                     then refund_with_processed_at (Some now)
                            (refund_with_status s r)
                     else refund_with_status s r)
    by (apply stamped_refund_stored; assumption).
  assert (Hfields : refund_identity r1 = refund_identity r /\
                    pr_currency r1 = pr_currency r /\ pr_status r1 = s /\
                    pr_processed_at r1
                    = if negb (String.eqb (pr_status r) "succeeded")
                         && String.eqb s "succeeded"
                      then Some now else pr_processed_at r).
  { rewrite Hr1. destruct (_ && _); repeat split. }
  destruct Hfields as (Hi & Hc1 & Hs1 & Hp1).
  assert (Hw : refund_to_write now (refund_with_status s r) db2 = inr r1).
  { unfold refund_to_write, inherited_currency. fold r1.
    rewrite Hc1. apply String.eqb_neq in Hcur. rewrite Hcur. cbn [ret].
    unfold refund_identity in Hi.
    replace (payment_transaction r1) with (Some parent) by congruence.
    assert (Hcl : refund_clash r1 db2 = false).
    { unfold refund_clash.
      replace (stripe_refund_id r1) with (Some rid) by congruence.
      apply not_true_is_false. intros Hex.
      apply existsb_exists in Hex as (x & Hx & Hxc).
      apply andb_true_iff in Hxc as [Hne Heq].
      assert (Hx' : In x [r]).
      { rewrite <- Hf. apply filter_In. split; assumption. }
      destruct Hx' as [<-|[]].
      replace (pr_id r1) with (pr_id r) in Hne by congruence.
      rewrite Nat.eqb_refl in Hne. discriminate. }
    rewrite Hcl. reflexivity. }
  assert (Hh : _handle_refund_webhook now "refund.updated" (e_object ev) db2
               = (inr (ProcessedRefund "refund.updated" (Some rid)
                         (get (o_payment_intent (e_object ev))) false),
                  set_refunds (upsert pr_id r1 (refunds db2)) db2)).
  { unfold _handle_refund_webhook, mbind, lift, read, mret, mraise, expect.
    rewrite Hid, Hst. cbn [get get_or refunds db2].
    unfold objects_get at 1. rewrite Hf.
    cbn [ret String.eqb Ascii.eqb Bool.eqb].
    rewrite PaymentRefund_save_eq, Hw. reflexivity. }
  rewrite Hh. cbn [finish fst snd]. split; [reflexivity|].
  exists r1. cbn [refunds set_webhooks set_refunds db2].
  split; [apply upsert_In_new|].
  split; [|repeat split; assumption].
  intros x Hx Hxid. apply upsert_In in Hx as [Hx|[_ Hn]]; [exact Hx|].
  unfold refund_identity in Hi. congruence.
Qed.

(** X25.  A [refund.created] event for a refund the till already holds
    (recorded by [CreateRefundView], say) puts that refund back to
    [pending], whatever its status was, and changes nothing else.  A
    refund that had succeeded no longer counts as refunded: the
    [refunded_amount] of its transaction drops by its amount. *)
Theorem refund_created_event_resets_status (now : Z) (ev : Event) (db : DB)
    (r : PaymentRefund) (rid : string) (parent : nat) :
  receipts_for (e_id ev) db = [] ->
  e_type ev = "refund.created"%string ->
  NoDup (map pr_id (refunds db)) ->
  o_id (e_object ev) = Val rid ->
  filter (fun x => opt_eqb (stripe_refund_id x) (Some rid)) (refunds db) = [r] ->
  pr_currency r <> EmptyString -> payment_transaction r = Some parent ->
  let out := process_webhook_event now ev db in
  fst out = ret (ProcessedRefund "refund.created" (Some rid)
                   (get (o_payment_intent (e_object ev))) false) /\
  transactions (snd out) = transactions db /\
  refunds (snd out)
  = upsert pr_id (refund_with_status "pending" r) (refunds db) /\
  forall t,
    refunded_amount (snd out) t
    = refunded_amount db t
      - (if Nat.eqb parent (pt_id t) && String.eqb (pr_status r) "succeeded"
         then pr_amount r else 0).
Proof.
  intros Hnew Hty Hnd Hid Hf Hcur Hpar. cbv zeta.
  destruct (filter_singleton_In _ _ _ Hf) as [Hin Hm].
  assert (Hrid : stripe_refund_id r = Some rid).
  { destruct (stripe_refund_id r) as [p|]; [|discriminate].
    cbn in Hm. apply String.eqb_eq in Hm. congruence. }
  set (db2 := mkDB (transactions db) (refunds db)
                (upsert pw_id
                   (mkWebhook (next_id db) (e_id ev) "refund.created" false
                      None ev None) (webhooks db))
                (S (next_id db))).
  set (r1 := refund_with_status "pending" r).
  assert (Hst : stamped_refund now r1 db2 = r1).
  { unfold r1. rewrite stamped_refund_stored by assumption.
    cbn [String.eqb Ascii.eqb Bool.eqb]. rewrite andb_false_r. reflexivity. }
  assert (Hw : refund_to_write now r1 db2 = inr r1).
  { unfold refund_to_write, inherited_currency. rewrite Hst.
    change (pr_currency r1) with (pr_currency r).
    apply String.eqb_neq in Hcur. rewrite Hcur. cbn [ret].
    change (payment_transaction r1) with (payment_transaction r).
    rewrite Hpar.
    assert (Hcl : refund_clash r1 db2 = false).
    { unfold refund_clash.
      change (stripe_refund_id r1) with (stripe_refund_id r).
      change (pr_id r1) with (pr_id r). rewrite Hrid.
      apply not_true_is_false. intros Hex.
      apply existsb_exists in Hex as (x & Hx & Hxc).
      apply andb_true_iff in Hxc as [Hne Heq].
      assert (Hx' : In x [r]).
      { rewrite <- Hf. apply filter_In. split; assumption. }
      destruct Hx' as [<-|[]].
      rewrite Nat.eqb_refl in Hne. discriminate. }
    rewrite Hcl. reflexivity. }
  assert (Hh : _handle_refund_webhook now "refund.created" (e_object ev) db2
               = (inr (ProcessedRefund "refund.created" (Some rid)
                         (get (o_payment_intent (e_object ev))) false),
                  set_refunds (upsert pr_id r1 (refunds db2)) db2)).
  { unfold _handle_refund_webhook, mbind, lift, read, mret, mraise, expect.
    rewrite Hid. cbn [get refunds db2].
    unfold objects_get at 1. rewrite Hf.
    cbn [ret String.eqb Ascii.eqb Bool.eqb].
    fold r1. rewrite PaymentRefund_save_eq, Hw. reflexivity. }
  rewrite process_webhook_event_eq, Hnew. cbv zeta.
  unfold _handle_webhook_event_type. rewrite Hty.
  change (startswith "refund.created" "payment_intent.") with false.
  change (startswith "refund.created" "charge.") with false.
  change (startswith "refund.created" "refund.") with true.
  cbv iota. fold db2. rewrite Hh. cbn [finish fst snd].
  split; [reflexivity|]. split; [reflexivity|]. split; [reflexivity|].
  intros t. unfold refunded_amount.
  cbn [refunds set_webhooks set_refunds db2].
  set (f := fun x : PaymentRefund =>
              match payment_transaction x with
              | Some p => Nat.eqb p (pt_id t)
              | None => false
              end && String.eqb (pr_status x) "succeeded").
  rewrite (sum_filter_upsert f r1 (refunds db) Hnd).
  rewrite <- (upsert_stored pr_id r (refunds db) Hnd Hin) at 2.
  rewrite (sum_filter_upsert f r (refunds db) Hnd).
  assert (Hf1 : f r1 = false).
  { unfold f, r1. cbn. apply andb_false_r. }
  assert (Hfr : f r = Nat.eqb parent (pt_id t)
                      && String.eqb (pr_status r) "succeeded")
    by (unfold f; cbv beta; rewrite Hpar; reflexivity).
  rewrite Hf1, Hfr. change (pr_id r1) with (pr_id r). lia.
Qed.

End RefundEvents.

Lemma webhooks_keep_refund_identity_witness :
  exists extra,
    map Identity.refund_identity
        (Ledger.refunds
           (snd (Ledger.process_webhook_event 200
                   MoreExamples.ev_refund_updated MoreExamples.db_refunding)))
    = map Identity.refund_identity (Ledger.refunds MoreExamples.db_refunding)
      ++ extra /\
    (List.length extra <= 1)%nat.
Proof.
  apply (webhooks_keep_refund_identity 200 MoreExamples.ev_refund_updated
           MoreExamples.db_refunding).
  - repeat constructor. intros [].
  - repeat constructor.
Defined.

Lemma refund_updated_event_sets_status_witness :
  exists r',
    In r' (Ledger.refunds
             (snd (Ledger.process_webhook_event 200
                     MoreExamples.ev_refund_updated
                     MoreExamples.db_refunding))) /\
    Ledger.pr_amount r' = 5000 /\
    Ledger.pr_status r' = "succeeded"%string /\
    Ledger.pr_processed_at r' = Some 200.
Proof.
  destruct (refund_updated_event_sets_status 200
              MoreExamples.ev_refund_updated MoreExamples.db_refunding
              (Examples.refund_50 2 "re_1") "re_1" "succeeded" 1
              eq_refl eq_refl
              ltac:(repeat constructor; intros [])
              eq_refl eq_refl eq_refl ltac:(discriminate) eq_refl)
    as (_ & r' & Hin & _ & Hi & Hs & Hp).
  exists r'. split; [exact Hin|]. split; [|split; assumption].
  unfold Identity.refund_identity in Hi. injection Hi as _ _ Ha _. exact Ha.
Defined.

Lemma refund_created_event_resets_status_witness :
  let db := Ledger.mkDB [Examples.paid_100] [Examples.refund_60 2 "re_1"] [] 3 in
  let out := Ledger.process_webhook_event 200
               (Examples.ev_refund "evt_r1" "re_1"
                  (Ledger.Val "requested_by_customer"%string)) db in
  Amounts.refunded_amount db Examples.paid_100 = 6000 /\
  Amounts.refunded_amount (snd out) Examples.paid_100 = 0.
Proof.
  cbv zeta. split; [reflexivity|].
  destruct (refund_created_event_resets_status 200
              (Examples.ev_refund "evt_r1" "re_1"
                 (Ledger.Val "requested_by_customer"%string))
              (Ledger.mkDB [Examples.paid_100] [Examples.refund_60 2 "re_1"]
                 [] 3)
              (Examples.refund_60 2 "re_1") "re_1" 1
              eq_refl eq_refl
              ltac:(repeat constructor; intros [])
              eq_refl eq_refl ltac:(discriminate) eq_refl)
    as (_ & _ & _ & H).
  rewrite (H Examples.paid_100). reflexivity.
Defined.
(** ** The webhook endpoint *)

Section WebhookEndpoint.

Import Ledger LedgerSpec Identity.

Variable hmac_sha256_hexdigest : list byte -> list byte -> string.
Variable utf8_decode : list byte -> option string.
Variable utf8_encode : string -> list byte.
Variable int_of_str : string -> option Z.
Variable json_loads : string -> option RawEvent.

Let post := StripeWebhookView_post hmac_sha256_hexdigest utf8_decode
              utf8_encode int_of_str json_loads.
Let verify := Signature.verify_webhook_signature hmac_sha256_hexdigest
                utf8_decode utf8_encode int_of_str.

(** The endpoint, once the request is let through to the service. *)
Lemma view_after_service (now : Z) (ev : Event) (db : DB) :
  exists resp db',
    mbind (process_webhook_event now ev)
      (fun result =>
         if String.eqb (outcome_status result) "error" then
           mret (error_response
                   ("Processing failed: "
                      ++ match result with
                         | Error m _ => m
                         | _ => EmptyString
                         end)
                   500 "processing_error")
         else mret (mkResponse 200 (SuccessBody (e_id ev) (e_type ev) result)))
      db = (inr resp, db') /\
    (status_code resp = 200 \/
     status_code resp = 500 /\ ledger db' = ledger db).
Proof.
  unfold mbind.
  destruct (delivery_cases now ev db) as (r & Hr & Hcase).
  destruct (process_webhook_event now ev db) as [res db'].
  cbn [fst snd] in Hr, Hcase. subst res.
  destruct (String.eqb (outcome_status r) "error") eqn:Hst;
    cbn [mret]; do 2 eexists; (split; [reflexivity|]).
  - right. split; [reflexivity|]. destruct Hcase as [Hh|Hl]; [|exact Hl].
    destruct r; cbn in Hst, Hh; discriminate.
  - left. reflexivity.
Qed.

(** X12.  The webhook endpoint always answers, with 200, 400 or 500.  A
    400 means that nothing at all was written, not even a receipt; any
    answer other than 200 means that no transaction and no refund was
    written. *)
Theorem webhook_endpoint_answers (settings : Signature.Settings) (now : Z)
    (payload : list byte) (signature_header : string) (db : DB) :
  exists resp db',
    post settings now payload signature_header db = (ret resp, db') /\
    (status_code resp = 200 \/ status_code resp = 400 \/
     status_code resp = 500) /\
    (status_code resp = 400 -> db' = db) /\
    (status_code resp <> 200 -> ledger db' = ledger db).
Proof.
  unfold post, StripeWebhookView_post, mtry.
  destruct payload as [|b payload].
  { cbn. do 2 eexists. split; [reflexivity|]. repeat split; auto. }
  destruct (String.eqb signature_header EmptyString
            && negb (Signature.DEBUG settings)).
  { cbn. do 2 eexists. split; [reflexivity|]. repeat split; auto. }
  unfold mbind at 1, lift at 1.
  destruct (if String.eqb signature_header EmptyString then ret true
            else Signature.verify_webhook_signature _ _ _ _ _ _ _ _)
    as [e|[|]].
  { cbn. do 2 eexists. split; [reflexivity|].
    repeat split; auto; intros; discriminate. }
  2:{ cbn. do 2 eexists. split; [reflexivity|]. repeat split; auto. }
  cbn [negb]. unfold mbind at 1, lift at 1.
  destruct (Signature.decode utf8_decode (b :: payload)) as [e|text].
  { cbn. do 2 eexists. split; [reflexivity|].
    repeat split; auto; intros; discriminate. }
  destruct (json_loads text) as [raw|].
  2:{ cbn. do 2 eexists. split; [reflexivity|]. repeat split; auto. }
  destruct (r_type raw) as [[|c1 ty]|], (r_id raw) as [[|c2 id]|].
  all: try (cbn; do 2 eexists; split; [reflexivity|]; repeat split; auto;
            fail).
  destruct (view_after_service now
              (mkEvent (String c2 id) (String c1 ty) (r_object raw)) db)
    as (resp & db' & Hresp & Hcase).
  cbn [e_id e_type] in Hresp. rewrite Hresp.
  exists resp, db'. split; [reflexivity|].
  destruct Hcase as [H200|[H500 Hl]].
  - rewrite H200. repeat split; auto; intros; (discriminate || congruence).
  - rewrite H500. repeat split; auto; intros; discriminate.
Qed.

(** X13.  The signature policy of the endpoint.  Outside DEBUG mode it
    lets nothing through that the verifier does not accept: a request
    without a signature header, or with one that
    [verify_webhook_signature] does not answer [True] to, gets an answer
    other than 200 and leaves the database as it was.  In DEBUG mode a
    request without a signature header is let through unverified: the
    configured secrets play no part in the answer. *)
Theorem webhook_endpoint_signature_policy (settings : Signature.Settings)
    (now : Z) (payload : list byte) (db : DB) :
  (Signature.DEBUG settings = false ->
   forall signature_header,
     signature_header = EmptyString \/
     verify settings now payload signature_header <> ret true ->
     exists resp,
       post settings now payload signature_header db = (ret resp, db) /\
       status_code resp <> 200) /\
  (Signature.DEBUG settings = true ->
   forall settings', Signature.DEBUG settings' = true ->
     post settings now payload EmptyString db
     = post settings' now payload EmptyString db).
Proof.
  split.
  - intros Hdebug signature_header Hbad.
    unfold post, StripeWebhookView_post, mtry.
    destruct payload as [|b payload].
    { cbn. eexists. split; [reflexivity|discriminate]. }
    rewrite Hdebug. cbn [negb]. rewrite andb_true_r.
    destruct (String.eqb_spec signature_header EmptyString) as [E|E].
    { cbn. eexists. split; [reflexivity|discriminate]. }
    destruct Hbad as [Hbad|Hbad]; [contradiction|].
    unfold mbind at 1, lift at 1. unfold verify in Hbad.
    destruct (Signature.verify_webhook_signature _ _ _ _ _ _ _ _) as [e|[|]].
    + cbn. eexists. split; [reflexivity|discriminate].
    + exfalso. apply Hbad. reflexivity.
    + cbn. eexists. split; [reflexivity|discriminate].
  - intros H settings' H'. unfold post, StripeWebhookView_post, mtry.
    rewrite H, H'. reflexivity.
Qed.

End WebhookEndpoint.

Lemma webhook_endpoint_signature_policy_witness :
  exists resp,
    Ledger.StripeWebhookView_post Examples.demo_hmac
      Examples.demo_decode Examples.demo_encode Examples.demo_int
      (fun _ => Some (Examples.raw_of Examples.ev_intent_succeeded))
      (Signature.mkSettings None (Some "whsec_1"%string) false)
      1200 (list_byte_of_string "{}") "t=1000,v1=0000"
      Examples.db_pending = (ret resp, Examples.db_pending) /\
    Ledger.status_code resp <> 200.
Proof.
  apply (webhook_endpoint_signature_policy Examples.demo_hmac
           Examples.demo_decode Examples.demo_encode Examples.demo_int
           (fun _ => Some (Examples.raw_of Examples.ev_intent_succeeded))
           (Signature.mkSettings None (Some "whsec_1"%string) false)
           1200 (list_byte_of_string "{}") Examples.db_pending).
  - reflexivity.
  - right. vm_compute. discriminate.
Defined.
(** ** Refundable amounts *)

Section RefundableAmounts.

Import Ledger LedgerSpec Identity Amounts.

Lemma refunded_amount_le_counted (db : DB) (t : PaymentTransaction) :
  Forall (fun r => 0 <= pr_amount r) (refunds db) ->
  0 <= refunded_amount db t <= sum_amounts (refunded_against (pt_id t) db).
Proof.
  intros Hpos. unfold refunded_amount, refunded_against. split.
  - apply sum_amounts_nonneg. rewrite Forall_forall in *.
    intros r Hr. apply filter_In in Hr as [Hr _]. auto.
  - set (p := fun r => match payment_transaction r with
                       | Some q => Nat.eqb q (pt_id t)
                       | None => false
                       end && counts_as_refunded r).
    rewrite (filter_ext _ (fun r => p r && String.eqb (pr_status r) "succeeded")).
    + apply sum_filter_narrow. exact Hpos.
    + intros r. unfold p, counts_as_refunded.
      destruct (payment_transaction r) as [q|]; [|reflexivity].
      destruct (Nat.eqb q (pt_id t)); [|reflexivity].
      destruct (String.eqb (pr_status r) "succeeded"); cbn;
        [reflexivity|].
      rewrite andb_false_r. reflexivity.
Qed.

(** X15.  In a ledger that satisfies the refund-sum invariant, what has
    been refunded, what can still be refunded and the net amount of every
    stored transaction lie between zero and the amount paid; nothing can be
    refunded from a payment that has not succeeded, and for one that has,
    refunded and refundable add up to the amount. *)
Theorem refund_amounts_are_bounded (db : DB) (t : PaymentTransaction) :
  refund_sums_ok db -> In t (transactions db) ->
  0 <= refunded_amount db t <= pt_amount t /\
  0 <= refundable_amount db t <= pt_amount t /\
  0 <= net_amount db t <= pt_amount t /\
  (pt_status t <> "succeeded"%string -> refundable_amount db t = 0) /\
  (pt_status t = "succeeded"%string ->
   refunded_amount db t + refundable_amount db t = pt_amount t).
Proof.
  intros (_ & Hpos & Hsum) Hin.
  pose proof (refunded_amount_le_counted db t Hpos) as [H0 H1].
  specialize (Hsum t Hin).
  unfold refundable_amount, net_amount.
  destruct (String.eqb_spec (pt_status t) "succeeded") as [E|E]; cbn [negb].
  - split; [lia|]. split; [lia|]. split; [lia|].
    split; [intros E'; contradiction|intros _; lia].
  - split; [lia|]. split; [lia|]. split; [lia|].
    split; [reflexivity|intros E'; contradiction].
Qed.

End RefundableAmounts.

Lemma refund_amounts_are_bounded_witness :
  0 <= Amounts.refundable_amount MoreExamples.db_refunding Examples.paid_100
    <= 10000.
Proof.
  apply (refund_amounts_are_bounded MoreExamples.db_refunding Examples.paid_100).
  - split; [repeat constructor; intros []|].
    split; [repeat constructor; discriminate|].
    intros t [<-|[]]. vm_compute. discriminate.
  - left. reflexivity.
Defined.

(** ** Receipts marked by hand *)

Section MarkProcessed.

Import Ledger LedgerSpec Identity.

(** X16.  [mark_processed] on the stored receipt of an event decides what
    the next delivery of that event does: after [mark_processed()] the
    delivery is answered [already_processed] and touches nothing; after
    [mark_processed(error)] the receipt is unprocessed and carries the
    message, and the next delivery is not short-circuited.  The ledger is
    not touched by the marking. *)
Theorem mark_processed_controls_redelivery (now : Z) (ev : Event) (db : DB)
    (w : PaymentWebhook) (error : option string) :
  receipts_ok db -> receipts_for (e_id ev) db = [w] ->
  let db1 := snd (mark_processed now error w db) in
  ledger db1 = ledger db /\
  map (fun x => (processed x, processing_error x, pw_processed_at x))
      (receipts_for (e_id ev) db1)
  = [(match error with None => true | Some _ => false end, error, Some now)] /\
  forall now',
    match error with
    | None =>
        process_webhook_event now' ev db1
        = (ret (AlreadyProcessed (e_id ev)), db1)
    | Some _ =>
        fst (process_webhook_event now' ev db1)
        <> ret (AlreadyProcessed (e_id ev))
    end.
Proof.
  intros [Hnd Hlt] Hr. cbv zeta.
  set (w1 := webhook_with_error
               (match error with None => true | Some _ => false end)
               error (Some now) w).
  assert (Hin : In w (receipts_for (e_id ev) db))
    by (rewrite Hr; left; reflexivity).
  apply (receipt_in_table ev) in Hin as [Hin Hm].
  destruct (finish_receipts ev now w w1 db db Hnd Hlt Hin eq_refl eq_refl Hm)
    as (_ & Hlen & Hin1).
  assert (Hr1 : receipts_for (e_id ev) (snd (mark_processed now error w db))
                = [w1]).
  { apply singleton_of_length; [|exact Hin1].
    change (snd (mark_processed now error w db))
      with (set_webhooks (upsert pw_id w1 (webhooks db)) db).
    rewrite Hlen, Hr. reflexivity. }
  split; [reflexivity|]. split; [rewrite Hr1; reflexivity|].
  intros now'. destruct error as [msg|].
  - rewrite process_webhook_event_eq, Hr1. cbn [processed w1 webhook_with_error].
    set (db1 := snd _).
    pose proof (dispatch_result now' ev w1 db1) as Hres.
    destruct (_handle_webhook_event_type now' ev w1 db1) as [[e|r] d];
      cbn [finish fst]; [discriminate|].
    intros [= ->]. specialize (Hres _ eq_refl). discriminate.
  - apply (processed_short_circuits ev now' w1); [exact Hr1|reflexivity].
Qed.

End MarkProcessed.

Lemma mark_processed_controls_redelivery_witness :
  Ledger.process_webhook_event 300 Examples.ev_refund_no_reason
    (snd (Ledger.mark_processed 250 None MoreExamples.receipt_r0
            MoreExamples.db_unprocessed))
  = (ret (Ledger.AlreadyProcessed "evt_r0"),
     snd (Ledger.mark_processed 250 None MoreExamples.receipt_r0
            MoreExamples.db_unprocessed)).
Proof.
  destruct (mark_processed_controls_redelivery 250 Examples.ev_refund_no_reason
              MoreExamples.db_unprocessed MoreExamples.receipt_r0 None)
    as (_ & _ & H).
  - split; [repeat constructor; intros []|repeat constructor].
  - reflexivity.
  - exact (H 300).
Defined.

(** ** The status table and the codec *)

Section StatusTable.

Import Ledger.

(** X17.  [_map_stripe_status] is a projection onto the internal
    statuses: mapping twice is mapping once, and each of the five internal
    statuses is mapped to itself. *)
Theorem map_stripe_status_is_idempotent (s : string) :
  _map_stripe_status (_map_stripe_status s) = _map_stripe_status s /\
  (valid_status s = true -> _map_stripe_status s = s).
Proof.
  split.
  - unfold _map_stripe_status.
    repeat match goal with
           | |- context [String.eqb s ?c] => destruct (String.eqb_spec s c)
           end; first [reflexivity|congruence].
  - unfold valid_status, PAYMENT_STATUS_CHOICES, _map_stripe_status.
    cbn [existsb].
    repeat match goal with
           | |- context [String.eqb s ?c] => destruct (String.eqb_spec s c)
           end; cbn [orb]; intros H; try discriminate H; congruence.
Qed.

End StatusTable.
(** ** Paying a sale *)

Section SaleTheorems.

Import Ledger LedgerSpec Identity Sales.

Variable _make_stripe_request
  : Gateway.PaymentIntentRequest -> py Gateway.IntentData.

(** X18.  [create_payment_for_transaction] writes a local transaction only
    once the processor has accepted the PaymentIntent.  A total that is not
    positive is refused before the processor is asked; when the call to the
    processor or the local write fails, the ledger is as it was; and when
    the function returns, the intent is the processor's answer to a request
    for the total in cents, in [usd], and a transaction for it is stored,
    attached to the sale, with the mapped status and the amount the
    processor echoed. *)
Theorem payment_for_sale_is_recorded_after_acceptance (now : Z)
    (transaction_obj : nat) (total_sale : Decimal)
    (transaction_id user_id : string) (db : DB) :
  let out := create_payment_for_transaction _make_stripe_request now
               transaction_obj total_sale transaction_id user_id db in
  (dec_le0 total_sale = true ->
   out = (raise (PaymentAmountError "Amount must be positive"), db)) /\
  (forall e, fst out = inl e -> ledger (snd out) = ledger db) /\
  (forall intent_data, fst out = inr intent_data ->
     _make_stripe_request
       (Gateway.mkRequest (_amount_to_cents total_sale) "usd" "automatic"
          ["card"%string]
          [("transaction_id"%string, transaction_id);
           ("user_id"%string, user_id)]) = inr intent_data /\
     exists t,
       In t (transactions (snd out)) /\
       stripe_payment_intent_id t = Some (Gateway.intent_id intent_data) /\
       pt_transaction t = Some transaction_obj /\
       pt_amount t = Gateway.intent_amount intent_data /\
       pt_status t = _map_stripe_status (Gateway.intent_status intent_data)).
Proof.
  cbv zeta.
  unfold create_payment_for_transaction, Gateway.create_payment_intent,
    mbind, lift.
  change (Gateway.lower "usd") with "usd"%string.
  destruct (dec_le0 total_sale).
  { cbn. split; [reflexivity|]. split; [reflexivity|discriminate]. }
  cbn [raise].
  split; [discriminate|].
  destruct (_make_stripe_request _) as [e|intent].
  { split; [|destruct e; discriminate].
    intros e' _. destruct e; reflexivity. }
  cbn [ret].
  unfold link_transaction_to_payment, mbind, fresh_id, mret.
  rewrite PaymentTransaction_save_eq. cbv zeta.
  match goal with
  | |- context [transaction_clash (stamped_transaction ?n ?x ?d) ?d] =>
      pose proof (stamped_transaction_identity n x d) as Hi;
      destruct (stamped_transaction_fields n x d) as (F1 & F2 & F3 & F4);
      destruct (transaction_clash (stamped_transaction n x d) d)
  end.
  { cbn. split; [reflexivity|discriminate]. }
  cbn [fst snd]. split; [discriminate|].
  intros i [= <-]. split; [reflexivity|].
  eexists. cbn [transactions set_transactions].
  split; [apply upsert_In_new|].
  unfold transaction_identity in Hi. cbn in Hi, F2.
  injection Hi as _ _ _ _ Hpos.
  repeat split; assumption.
Qed.

End SaleTheorems.

(** ** The refund endpoints *)

Section RefundEndpoints.

Import Ledger LedgerSpec Identity Amounts RefundAPI.

Variable create_refund : option string -> Decimal -> string -> py RefundResult.
Variable no_setter_message : string.


End RefundEndpoints.

Section RefundRecord.

Import Ledger LedgerSpec Identity Amounts RefundAPI.

(** X19.  The local write of [CreateRefundView], made after the processor
    has refunded, fails and leaves the ledger as it was when the till has
    no transaction for the PaymentIntent, when the refund has no reason,
    or when a refund with the same processor id is already stored (its
    webhook came first). *)
Theorem refund_record_is_refused (now : Z) (payment_intent_id : string)
    (refund_data : RefundData) (db : DB) :
  filter (fun t => opt_eqb (stripe_payment_intent_id t)
                           (Some payment_intent_id))
         (transactions db) = [] \/
  rd_reason refund_data = None \/
  (Gateway.upper (rd_currency refund_data) <> EmptyString /\
   Forall (fun r => (pr_id r < next_id db)%nat) (refunds db) /\
   exists r, In r (refunds db) /\
             stripe_refund_id r = Some (rd_id refund_data)) ->
  let out := CreateRefundView_record now payment_intent_id refund_data db in
  (exists e, fst out = raise e) /\ ledger (snd out) = ledger db.
Proof.
  intros Hcase. cbv zeta.
  unfold CreateRefundView_record, mbind, read, mret, mraise, lift, fresh_id,
    expect.
  destruct (objects_get _ (transactions db)) as [e|t] eqn:Hg.
  - destruct e; try (cbn; split; [eauto|reflexivity]).
    cbn [fst snd].
    destruct (rd_reason refund_data) as [reason|];
      [|cbn; split; [eauto|reflexivity]].
    cbn [ret]. rewrite PaymentRefund_save_eq.
    match goal with
    | |- context [refund_to_write ?n ?r ?d] =>
        destruct (refund_to_write n r d) as [e|r'] eqn:Hw
    end.
    + cbn. split; [eauto|reflexivity].
    + apply refund_to_write_fields in Hw as (_ & _ & _ & _ & _ & Hp & _).
      exfalso. apply Hp. reflexivity.
  - cbn [fst snd].
    destruct Hcase as [Hnone|[Hreason|(Hcur & Hlt & r & Hin & Hrid)]].
    + apply objects_get_found in Hg. congruence.
    + rewrite Hreason. cbn. split; [eauto|reflexivity].
    + destruct (rd_reason refund_data) as [reason|];
        [|cbn; split; [eauto|reflexivity]].
      cbn [ret]. rewrite PaymentRefund_save_eq.
      match goal with
      | |- context [refund_to_write ?n ?r ?d] =>
          destruct (refund_to_write n r d) as [e|r'] eqn:Hw
      end.
      * cbn. split; [eauto|reflexivity].
      * exfalso.
        apply refund_to_write_fields in Hw as (E1 & _ & _ & _ & E5 & _ & Hc).
        cbn [pr_id stripe_refund_id] in E1, E5.
        unfold refund_clash in Hc. rewrite E1, E5 in Hc.
        assert (Hex : existsb
                  (fun r0 => negb (Nat.eqb (pr_id r0) (next_id db))
                             && opt_eqb (stripe_refund_id r0)
                                  (Some (rd_id refund_data)))
                  (refunds db) = true).
        { apply existsb_exists. exists r. split; [exact Hin|].
          rewrite Hrid. cbn [opt_eqb]. rewrite String.eqb_refl, andb_true_r.
          rewrite Forall_forall in Hlt. specialize (Hlt _ Hin).
          apply negb_true_iff, Nat.eqb_neq. lia. }
        cbn [refunds] in Hc. congruence.
Qed.


End RefundRecord.

(** ** Payment methods *)

Section MethodTheorems.

Import Methods.

(** X21.  [PaymentMethod.clean] keeps at most one active payment method
    for each Stripe type: a method that passes it can be written to a
    table that has the property without breaking it, and an active method
    is refused when another active method of its type is stored. *)
Theorem clean_keeps_one_active_method (rows : list PaymentMethod)
    (self : PaymentMethod) :
  one_active_per_type rows ->
  (PaymentMethod_clean rows self = ret tt ->
   one_active_per_type (Ledger.upsert pm_id self rows)) /\
  (forall m, In m rows -> pm_id m <> pm_id self ->
     is_active m = true -> is_active self = true ->
     stripe_payment_method_type m = stripe_payment_method_type self ->
     PaymentMethod_clean rows self
     = raise (ValidationError
                ("An active payment method already exists for "
                   ++ get_stripe_payment_method_type_display self))).
Proof.
  intros Hinv. unfold PaymentMethod_clean. split.
  - intros Hclean a b Ha Hb Haa Hba Hty.
    assert (Hnew : forall x, In x rows -> pm_id x <> pm_id self ->
              is_active x = true -> is_active self = true ->
              stripe_payment_method_type x = stripe_payment_method_type self ->
              False).
    { intros x Hx Hne Hxa Hsa Hxt. rewrite Hsa in Hclean.
      destruct (filter _ rows) as [|y l] eqn:Hfl; [|discriminate].
      assert (Hin : In x (filter
                (fun m => String.eqb (stripe_payment_method_type m)
                            (stripe_payment_method_type self)
                          && is_active m
                          && negb (Nat.eqb (pm_id m) (pm_id self))) rows)).
      { apply filter_In. split; [exact Hx|].
        rewrite Hxt, String.eqb_refl, Hxa.
        apply Nat.eqb_neq in Hne. rewrite Hne. reflexivity. }
      rewrite Hfl in Hin. exact Hin. }
    apply upsert_In in Ha as [->|[Ha Hna]], Hb as [->|[Hb Hnb]].
    + reflexivity.
    + exfalso. apply (Hnew b); auto.
    + exfalso. apply (Hnew a); auto.
    + apply Hinv; assumption.
  - intros m Hm Hne Hma Hsa Hty. rewrite Hsa.
    destruct (filter _ rows) as [|y l] eqn:Hfl; [|reflexivity].
    exfalso.
    assert (Hin : In m (filter
              (fun m => String.eqb (stripe_payment_method_type m)
                          (stripe_payment_method_type self)
                        && is_active m
                        && negb (Nat.eqb (pm_id m) (pm_id self))) rows)).
    { apply filter_In. split; [exact Hm|].
      rewrite Hty, String.eqb_refl, Hma.
      apply Nat.eqb_neq in Hne. rewrite Hne. reflexivity. }
    rewrite Hfl in Hin. exact Hin.
Qed.

End MethodTheorems.


Lemma refund_record_is_refused_witness :
  let out := RefundAPI.CreateRefundView_record 200 "pi_9"
               MoreExamples.refund_re_1 Examples.db_paid in
  (exists e, fst out = raise e) /\
  Ledger.ledger (snd out) = Ledger.ledger Examples.db_paid.
Proof.
  apply (refund_record_is_refused 200 "pi_9" MoreExamples.refund_re_1
           Examples.db_paid).
  left. reflexivity.
Defined.


Lemma clean_keeps_one_active_method_witness :
  Methods.one_active_per_type
    (Ledger.upsert Methods.pm_id MoreExamples.ideal [MoreExamples.card]) /\
  Methods.PaymentMethod_clean [MoreExamples.card] MoreExamples.card_again
  = raise (ValidationError
             "An active payment method already exists for Credit/Debit Card").
Proof.
  assert (H : Methods.one_active_per_type [MoreExamples.card]).
  { intros a b [<-|[]] [<-|[]] _ _ _. reflexivity. }
  split.
  - apply (clean_keeps_one_active_method [MoreExamples.card] MoreExamples.ideal H).
    reflexivity.
  - apply (proj2 (clean_keeps_one_active_method [MoreExamples.card]
                    MoreExamples.card_again H) MoreExamples.card);
      try reflexivity.
    + left. reflexivity.
    + discriminate.
Defined.
(** ** Truncation in the codec *)

Section Truncation.

(** X22.  [_amount_to_cents] cuts toward zero.  For an amount with more
    than two decimal places (and a coefficient within the context
    precision) the result, in absolute value, is the largest number of
    cents not above the amount: it is never rounded up, and less than one
    cent is lost.  The result has the sign of the amount, and negating the
    amount negates the result. *)
Theorem amount_to_cents_truncates_toward_zero (A : Decimal) :
  Z.abs (coeff A) < 10 ^ prec -> expo A < -2 ->
  let n := _amount_to_cents A in
  let cent := 10 ^ (- (expo A + 2)) in
  Z.abs n * cent <= Z.abs (coeff A) < (Z.abs n + 1) * cent /\
  0 <= n * coeff A /\
  _amount_to_cents (mkDecimal (- coeff A) (expo A)) = - n.
Proof.
  intros Hc He. cbv zeta.
  pose proof (pow10_pos (- (expo A + 2)) ltac:(lia)) as Hp.
  rewrite (amount_to_cents_value A Hc).
  rewrite (amount_to_cents_value (mkDecimal (- coeff A) (expo A)))
    by (cbn [coeff]; rewrite Z.abs_opp; exact Hc).
  cbn [coeff expo].
  destruct (Z.leb_spec 0 (expo A + 2)) as [H|_]; [lia|].
  set (u := 10 ^ (- (expo A + 2))) in *.
  rewrite Z.quot_opp_l by lia.
  split; [|split; [|reflexivity]].
  - assert (H0 : 0 <= Z.abs (coeff A)) by apply Z.abs_nonneg.
    assert (Habs : Z.abs (Z.quot (coeff A) u) = Z.abs (coeff A) / u).
    { rewrite <- Z.quot_abs by lia. rewrite (Z.abs_eq u) by lia.
      apply Z.quot_div_nonneg; lia. }
    rewrite Habs.
    pose proof (Z.mul_div_le (Z.abs (coeff A)) u Hp).
    pose proof (Z.mul_succ_div_gt (Z.abs (coeff A)) u Hp).
    lia.
  - pose proof (Z.quot_rem' (coeff A) u) as Hqr.
    pose proof (Z.rem_bound_abs (coeff A) u ltac:(lia)) as Hrb.
    pose proof (Z.rem_sign_mul (coeff A) u ltac:(lia)) as Hrs.
    destruct (Z_le_gt_dec 0 (coeff A)) as [Hs|Hs].
    + apply Z.mul_nonneg_nonneg; [|exact Hs].
      apply Z.quot_pos; lia.
    + apply Z.mul_nonpos_nonpos; [|lia].
      rewrite <- (Z.opp_involutive (coeff A)), Z.quot_opp_l by lia.
      pose proof (Z.quot_pos (- coeff A) u ltac:(lia) Hp). lia.
Qed.

End Truncation.

Lemma amount_to_cents_truncates_toward_zero_witness :
  Z.abs (_amount_to_cents (mkDecimal 10999 (-3))) * 10
  <= 10999 < (Z.abs (_amount_to_cents (mkDecimal 10999 (-3))) + 1) * 10.
Proof.
  apply (amount_to_cents_truncates_toward_zero (mkDecimal 10999 (-3)));
    reflexivity.
Defined.

(** ** PaymentIntent ids *)

Section IntentIds.

Import Ledger LedgerSpec Identity.

Lemma save_keeps_intent_ids (now : Z) (t : PaymentTransaction) (db : DB) :
  intent_ids_unique db ->
  intent_ids_unique (snd (PaymentTransaction_save now t db)).
Proof.
  intros Hinv. rewrite PaymentTransaction_save_eq. cbv zeta.
  set (t' := stamped_transaction now t db).
  destruct (transaction_clash t' db) eqn:Hc; [exact Hinv|].
  cbn [snd]. unfold intent_ids_unique. cbn [transactions set_transactions].
  assert (Hnew : forall x p, In x (transactions db) -> pt_id x <> pt_id t' ->
            stripe_payment_intent_id x = Some p ->
            stripe_payment_intent_id t' = Some p -> False).
  { intros x p Hx Hne Hxp Htp. unfold transaction_clash in Hc.
    assert (Hex : existsb
              (fun y => negb (Nat.eqb (pt_id y) (pt_id t'))
                        && match stripe_payment_intent_id t' with
                           | Some _ => opt_eqb (stripe_payment_intent_id y)
                                         (stripe_payment_intent_id t')
                           | None => false
                           end) (transactions db) = true).
    { apply existsb_exists. exists x. split; [exact Hx|].
      apply Nat.eqb_neq in Hne. rewrite Hne, Htp, Hxp. cbn.
      apply String.eqb_refl. }
    congruence. }
  intros a b p Ha Hb Hap Hbp.
  apply upsert_In in Ha as [->|[Ha Hna]], Hb as [->|[Hb Hnb]].
  - reflexivity.
  - exfalso. exact (Hnew b p Hb Hnb Hbp Hap).
  - exfalso. exact (Hnew a p Ha Hna Hap Hbp).
  - exact (Hinv a b p Ha Hb Hap Hbp).
Qed.

Lemma identity_keeps_intent_ids (db db' : DB) :
  map transaction_identity (transactions db')
  = map transaction_identity (transactions db) ->
  intent_ids_unique db -> intent_ids_unique db'.
Proof.
  intros Hmap Hinv a b p Ha Hb Hap Hbp.
  assert (Hback : forall x, In x (transactions db') ->
            exists y, In y (transactions db) /\
                      transaction_identity y = transaction_identity x).
  { intros x Hx. apply (in_map transaction_identity) in Hx.
    rewrite Hmap in Hx. apply in_map_iff in Hx as (y & Hy & Hin). eauto. }
  destruct (Hback a Ha) as (a0 & Ha0 & Ea), (Hback b Hb) as (b0 & Hb0 & Eb).
  unfold transaction_identity in Ea, Eb.
  injection Ea as Ea1 _ _ Ea4 _. injection Eb as Eb1 _ _ Eb4 _.
  rewrite <- Ea1, <- Eb1. apply (Hinv a0 b0 p); congruence.
Qed.

(** A new row for a PaymentIntent that is already stored is refused. *)
Lemma second_row_is_refused (now : Z) (t : PaymentTransaction) (db db1 : DB)
    (p : string) :
  transactions db1 = transactions db ->
  Forall (fun x => (pt_id x < pt_id t)%nat) (transactions db) ->
  stripe_payment_intent_id t = Some p ->
  (exists x, In x (transactions db) /\ stripe_payment_intent_id x = Some p) ->
  PaymentTransaction_save now t db1 = (raise IntegrityError, db1).
Proof.
  intros Hd Hlt Hp (x & Hx & Hxp).
  rewrite PaymentTransaction_save_eq. cbv zeta.
  destruct (stamped_transaction_fields now t db1) as (F1 & _ & _ & F4).
  assert (Hc : transaction_clash (stamped_transaction now t db1) db1 = true).
  { unfold transaction_clash. rewrite F1, F4, Hp, Hd.
    apply existsb_exists. exists x. split; [exact Hx|].
    rewrite Hxp. cbn. rewrite String.eqb_refl, andb_true_r.
    rewrite Forall_forall in Hlt. specialize (Hlt _ Hx).
    apply negb_true_iff, Nat.eqb_neq. lia. }
  rewrite Hc. reflexivity.
Qed.

(** X23.  A PaymentIntent id names at most one stored transaction, and
    stays so: webhook deliveries, [CreatePaymentIntentView] and
    [link_transaction_to_payment] keep it, and the latter two refuse, with
    [IntegrityError] and without a write to the ledger, to record a
    PaymentIntent that the till has already stored. *)
Theorem intent_ids_stay_unique (now : Z) (db : DB) :
  NoDup (map pt_id (transactions db)) ->
  Forall (fun x => (pt_id x < next_id db)%nat) (transactions db) ->
  intent_ids_unique db ->
  (forall ev, intent_ids_unique (snd (process_webhook_event now ev db))) /\
  (forall amount currency intent_data,
     let out := CreatePaymentIntentView_record now amount currency
                  intent_data db in
     intent_ids_unique (snd out) /\
     ((exists x, In x (transactions db) /\
                 stripe_payment_intent_id x
                 = Some (Gateway.intent_id intent_data)) ->
      fst out = raise IntegrityError /\ ledger (snd out) = ledger db)) /\
  (forall transaction_obj intent_data,
     let out := link_transaction_to_payment now transaction_obj
                  intent_data db in
     intent_ids_unique (snd out) /\
     ((exists x, In x (transactions db) /\
                 stripe_payment_intent_id x
                 = Some (Gateway.intent_id intent_data)) ->
      fst out = raise IntegrityError /\ ledger (snd out) = ledger db)).
Proof.
  intros Hnd Hlt Hinv. split; [|split].
  - intros ev. apply (identity_keeps_intent_ids db); [|exact Hinv].
    rewrite process_webhook_event_eq.
    assert (Hfin : forall w h,
              transactions (snd (finish now (e_id ev) w h))
              = transactions (snd h)).
    { intros w [[e|r] d]; reflexivity. }
    destruct (receipts_for _ db) as [|w [|w' ws]]; cbv zeta.
    + rewrite Hfin. rewrite dispatch_identity by exact Hnd. reflexivity.
    + destruct (processed w); [reflexivity|].
      rewrite Hfin. apply dispatch_identity. exact Hnd.
    + reflexivity.
  - intros amount currency i. cbv zeta.
    unfold CreatePaymentIntentView_record, mbind, fresh_id, mret.
    cbn [fst snd].
    set (db1 := mkDB _ _ _ (S (next_id db))).
    set (t := mkTransaction _ _ _ _ _ _ _ _ _ _).
    split.
    + pose proof (save_keeps_intent_ids now t db1 Hinv) as H.
      destruct (PaymentTransaction_save now t db1) as [[e|u] d]; exact H.
    + intros Hex.
      rewrite (second_row_is_refused now t db db1 (Gateway.intent_id i)
                 eq_refl Hlt eq_refl Hex).
      split; reflexivity.
  - intros pos i. cbv zeta.
    unfold link_transaction_to_payment, mbind, fresh_id, mret.
    cbn [fst snd].
    set (db1 := mkDB _ _ _ (S (next_id db))).
    set (t := mkTransaction _ _ _ _ _ _ _ _ _ _).
    split.
    + pose proof (save_keeps_intent_ids now t db1 Hinv) as H.
      destruct (PaymentTransaction_save now t db1) as [[e|u] d]; exact H.
    + intros Hex.
      rewrite (second_row_is_refused now t db db1 (Gateway.intent_id i)
                 eq_refl Hlt eq_refl Hex).
      split; reflexivity.
Qed.

End IntentIds.

Lemma intent_ids_stay_unique_witness :
  let out := Ledger.CreatePaymentIntentView_record 200 10000 "usd"
               (Gateway.mkIntent "pi_1" "requires_payment_method" 10000 "usd"
                  "pi_1_secret") Examples.db_paid in
  fst out = raise IntegrityError /\
  Ledger.ledger (snd out) = Ledger.ledger Examples.db_paid.
Proof.
  destruct (intent_ids_stay_unique 200 Examples.db_paid) as (_ & H & _).
  - repeat constructor. intros [].
  - repeat constructor.
  - intros a b p [<-|[]] [<-|[]] _ _. reflexivity.
  - apply (H 10000 "usd"%string
             (Gateway.mkIntent "pi_1" "requires_payment_method" 10000 "usd"
                "pi_1_secret")).
    exists Examples.paid_100. split; [left|]; reflexivity.
Defined.
(** ** Receipts of other events *)

Section Receipts.

Import Ledger LedgerSpec Identity.

(** Writing a row that a filter rejects, over rows that it rejects, leaves
    what the filter keeps as it was. *)
Lemma upsert_filter_other {R} (pk : R -> nat) (f : R -> bool) (new : R)
    (rows : list R) :
  f new = false ->
  (forall r, In r rows -> pk r = pk new -> f r = false) ->
  filter f (upsert pk new rows) = filter f rows.
Proof.
  intros Hnew Hold. unfold upsert. destruct (existsb _ rows).
  - induction rows as [|r rows IH]; [reflexivity|].
    cbn [map filter].
    destruct (Nat.eqb_spec (pk r) (pk new)) as [E|E].
    + rewrite Hnew, (Hold r (or_introl eq_refl) E).
      apply IH. intros x Hx. apply Hold. right. exact Hx.
    + rewrite IH by (intros x Hx; apply Hold; right; exact Hx). reflexivity.
  - rewrite filter_app. cbn [filter]. rewrite Hnew. apply app_nil_r.
Qed.

(** X24.  A delivery leaves its event with exactly one receipt and touches
    the receipts of no other event. *)
Theorem delivery_touches_one_receipt (now : Z) (ev : Event) (db : DB) :
  receipts_ok db ->
  (List.length (receipts_for (e_id ev) db) <= 1)%nat ->
  let db' := snd (process_webhook_event now ev db) in
  List.length (receipts_for (e_id ev) db') = 1%nat /\
  forall id, id <> e_id ev -> receipts_for id db' = receipts_for id db.
Proof.
  intros Hok Hlen. cbv zeta.
  split; [apply (delivery_step ev now db (conj Hok Hlen))|].
  intros id Hid. destruct Hok as [Hnd Hlt].
  assert (Hf : forall w, stripe_event_id w = e_id ev ->
            String.eqb (stripe_event_id w) id = false).
  { intros w ->. apply String.eqb_neq. congruence. }
  assert (Hfin : forall w h,
            stripe_event_id w = e_id ev ->
            NoDup (map pw_id (webhooks (snd h))) ->
            In w (webhooks (snd h)) ->
            receipts_for id (snd (finish now (e_id ev) w h))
            = receipts_for id (snd h)).
  { intros w [[e|r] d] Hw Hndd Hin; cbn [finish snd] in *;
      unfold receipts_for; cbn [webhooks set_webhooks];
      apply upsert_filter_other; try (apply Hf; exact Hw);
      intros x Hx Hpk;
      (assert (x = w) as ->
         by (apply (key_determines_row pw_id _ _ _ Hndd); assumption));
      apply Hf; exact Hw. }
  rewrite process_webhook_event_eq.
  destruct (receipts_for (e_id ev) db) as [|w [|w2 ws]] eqn:Hr; cbv zeta.
  - set (w0 := mkWebhook (next_id db) (e_id ev) (e_type ev) false None ev None).
    set (db0 := mkDB _ _ _ _).
    destruct (dispatch_frame now ev w0 db0) as (Hw & _ & _).
    rewrite Hfin.
    + unfold receipts_for. rewrite Hw. cbn [webhooks db0].
      apply upsert_filter_other; [apply Hf; reflexivity|].
      intros x Hx Hpk. exfalso.
      rewrite Forall_forall in Hlt. specialize (Hlt _ Hx).
      cbn [pw_id w0] in Hpk. lia.
    + reflexivity.
    + rewrite Hw. apply upsert_NoDup. exact Hnd.
    + rewrite Hw. apply upsert_In_new.
  - assert (Hin : In w (receipts_for (e_id ev) db))
      by (rewrite Hr; left; reflexivity).
    apply (receipt_in_table ev) in Hin as [Hin Hm].
    apply String.eqb_eq in Hm.
    destruct (processed w); [reflexivity|].
    destruct (dispatch_frame now ev w db) as (Hw & _ & _).
    rewrite Hfin.
    + unfold receipts_for. rewrite Hw. reflexivity.
    + exact Hm.
    + rewrite Hw. exact Hnd.
    + rewrite Hw. exact Hin.
  - reflexivity.
Qed.

End Receipts.

Lemma delivery_touches_one_receipt_witness :
  List.length
    (LedgerSpec.receipts_for "evt_c1"
       (snd (Ledger.process_webhook_event 300 MoreExamples.ev_customer_created
               MoreExamples.db_unprocessed))) = 1%nat /\
  LedgerSpec.receipts_for "evt_r0"
    (snd (Ledger.process_webhook_event 300 MoreExamples.ev_customer_created
            MoreExamples.db_unprocessed))
  = LedgerSpec.receipts_for "evt_r0" MoreExamples.db_unprocessed.
Proof.
  destruct (delivery_touches_one_receipt 300 MoreExamples.ev_customer_created
              MoreExamples.db_unprocessed) as [H1 H2].
  - split; [repeat constructor; intros []|repeat constructor].
  - cbn. lia.
  - split; [exact H1|]. apply H2. discriminate.
Defined.
